(** * Customer-retention ETL pipeline: model and verified properties

    A shallow embedding of the table transformations of the repository
    (the modules of [src/ETL]) together with the properties stated about them.

    Conventions of the embedding.
    - A pandas cell that can be missing is an [option]: [None] is NaN / None.
    - Floating-point columns are read as exact rationals ([Q]); rounding of
      the binary representation is outside the model.  Where the code can
      produce an infinity (a division by zero) the value type says so.
    - Code that raises returns a [result]; printed or logged lines are
      returned as a list of events.
    - Functions of pandas, numpy, sqlite3 and [re] are modelled by what they
      compute on the values the code hands to them.

    The first part of the file holds the definitions, one module per source
    file; the second part holds the lemmas and theorems. *)

From Stdlib Require Import ZArith NArith QArith Qround Lia Lqa List Permutation Sorted.
From Stdlib Require Import OrderedTypeEx Ascii.
From stdpp Require Import base option list gmap strings.

Local Open Scope Z_scope.

(** ** Results of code that may raise *)

Inductive result (E A : Type) : Type :=
| Ok (a : A)
| Raise (e : E).
Arguments Ok {E A} a.
Arguments Raise {E A} e.

#[global] Instance result_ret {E} : MRet (result E) := fun A a => Ok a.

#[global] Instance result_bind {E} : MBind (result E) := fun A B k m =>
  match m with
  | Ok a => k a
  | Raise e => Raise e
  end.

(** Python's built-in exceptions that the modelled code can let escape. *)
Inductive exception : Type :=
| KeyError (key : string)
| IndexError
| ValueError
| FileNotFoundError (path : string)
| EmptyDataError
| ParserError
| OperationalError (what : string)
| IntegrityError (what : string).

(** ** preprocessing.py *)

Module Preprocessing.

(** A Python [str] is a sequence of Unicode code points. *)
Abbreviation text := (list N).

(** The code points of an ASCII literal, for writing examples. *)
Fixpoint of_ascii (s : string) : text :=
  match s with
  | EmptyString => []
  | String a s' => Ascii.N_of_ascii a :: of_ascii s'
  end.

Definition in_range (lo hi c : N) : bool := ((lo <=? c) && (c <=? hi))%N.

(** [str.isspace] on one code point; it is also what [\s] matches in a
    [str] pattern and what [str.strip()] removes. *)
Definition is_space (c : N) : bool :=
  in_range 9 13 c || in_range 28 32 c || (c =? 133)%N || (c =? 160)%N
  || (c =? 5760)%N || in_range 8192 8202 c || in_range 8232 8233 c
  || (c =? 8239)%N || (c =? 8287)%N || (c =? 12288)%N.

Fixpoint lstrip (s : text) : text :=
  match s with
  | c :: s' => if is_space c then lstrip s' else s
  | [] => []
  end.

Definition rstrip (s : text) : text := reverse (lstrip (reverse s)).

(** [name.strip()] *)
Definition strip (s : text) : text := rstrip (lstrip s).

(** *** The fragment of [re] that the pattern uses

    A backtracking matcher: [rmatch r s] lists the ways [r] can match a
    prefix of [s], as (matched text, remaining text), in the order in which
    Python's engine tries them, so greedy repetitions come longest first.
    [re.match] takes the first. *)

Inductive regex : Type :=
| Cls (p : N -> bool)            (* one character of a class *)
| Plus (p : N -> bool)           (* [c]+ , greedy *)
| Seq (r1 r2 : regex).

Fixpoint star_matches (p : N -> bool) (s : text) : list (text * text) :=
  match s with
  | c :: s' =>
      if p c
      then map (fun mr => (c :: fst mr, snd mr)) (star_matches p s') ++ [([], s)]
      else [([], s)]
  | [] => [([], [])]
  end.

Fixpoint rmatch (r : regex) (s : text) : list (text * text) :=
  match r with
  | Cls p =>
      match s with
      | c :: s' => if p c then [([c], s')] else []
      | [] => []
      end
  | Plus p =>
      match s with
      | c :: s' =>
          if p c then map (fun mr => (c :: fst mr, snd mr)) (star_matches p s')
          else []
      | [] => []
      end
  | Seq r1 r2 =>
      flat_map (fun mr1 =>
                  map (fun mr2 => (fst mr1 ++ fst mr2, snd mr2))
                      (rmatch r2 (snd mr1)))
               (rmatch r1 s)
  end.

(** [re.match(r, s)]: the text of the first match, if any. *)
Definition re_match (r : regex) (s : text) : option text :=
  fst <$> head (rmatch r s).

(** The longest prefix of [s] made of characters of [p], and the rest. *)
Fixpoint span (p : N -> bool) (s : text) : text * text :=
  match s with
  | c :: s' =>
      if p c then (c :: fst (span p s'), snd (span p s')) else ([], s)
  | [] => ([], [])
  end.

Section NormalizeTeacher.

(** [str.isalnum] on one code point.  The Unicode table is not written
    out; the theorems use only that no alphanumeric character is
    whitespace. *)
Variable isalnum : N -> bool.

(** The class [[\wА-Яа-яІіЇїЄєҐґ']]: [\w] is [isalnum] or underscore. *)
Definition name_char (c : N) : bool :=
  isalnum c || (c =? 95)%N
  || in_range 1040 1071 c || in_range 1072 1103 c
  || (c =? 1030)%N || (c =? 1110)%N || (c =? 1031)%N || (c =? 1111)%N
  || (c =? 1028)%N || (c =? 1108)%N || (c =? 1168)%N || (c =? 1169)%N
  || (c =? 39)%N.

(** [^([\w...']+\s[\w...']+)] ; the anchor is implied by [re.match] and the
    group is the whole match. *)
Definition teacher_pattern : regex :=
  Seq (Plus name_char) (Seq (Cls is_space) (Plus name_char)).

Definition normalize_teacher (name : text) : text :=
  let name := strip name in
  match re_match teacher_pattern name with
  | Some g => g
  | None => name
  end.

(** The reading of "the first two single-whitespace-separated words":
    [s] starts with a word [w1], one whitespace character [c] and a word
    [w2] that ends where the name characters end. *)
Definition starts_with_two_words (s w1 : text) (c : N) (w2 rest : text) : Prop :=
  s = w1 ++ c :: w2 ++ rest
  /\ w1 <> [] /\ w2 <> []
  /\ forallb name_char w1 = true
  /\ is_space c = true
  /\ forallb name_char w2 = true
  /\ (forall d, head rest = Some d -> name_char d = false).

(** The same as a function, used to compute with. *)
Definition two_words (s : text) : option text :=
  match span name_char s with
  | (c1 :: w1, c :: r1) =>
      if is_space c then
        match span name_char r1 with
        | (c2 :: w2, _) => Some ((c1 :: w1) ++ c :: c2 :: w2)
        | ([], _) => None
        end
      else None
  | _ => None
  end.

End NormalizeTeacher.

(** An instance of [isalnum] on the ASCII letters and digits. *)
Definition ascii_isalnum (c : N) : bool :=
  in_range 48 57 c || in_range 65 90 c || in_range 97 122 c.

(** *** categorize_age *)

(** [bins.searchsorted(x, side="left")]: how many edges are below [x]. *)
Definition searchsorted_left (bins : list Q) (x : Q) : nat :=
  length (List.filter (fun b => negb (Qle_bool x b)) bins).

(** [pd.cut(x, bins, labels=labels, include_lowest=...)] on one value, with
    the default [right=True]: the bin index is found by [searchsorted]; a
    value equal to the first edge is moved into the first bin when
    [include_lowest]; index 0 (below the first edge), index [len(bins)]
    (above the last) and a missing value give a missing category. *)
Definition cut (bins : list Q) (labels : list string) (include_lowest : bool)
    (x : option Q) : option string :=
  match x with
  | None => None
  | Some v =>
      let ids := searchsorted_left bins v in
      let ids :=
        if include_lowest && from_option (Qeq_bool v) false (head bins)
        then 1%nat else ids in
      if (ids =? 0)%nat || (ids =? length bins)%nat then None
      else labels !! (ids - 1)%nat
  end.

Definition age_bins : list Q := [6#1; 8#1; 10#1; 13#1; 17#1]%Q.
Definition age_labels : list string := ["A"; "B"; "C"; "D"]%string.

Inductive log_line : Type :=
| WarnOutOfRangeAge (count : nat).

Section CategorizeAge.

(** The rows of the frame, with the age column as an accessor. *)
Context {Row : Type}.
Variable age_column : Row -> option Q.

(** A row of the returned frame: the input row and the two new columns. *)
Record aged_row : Type := {
  source_row : Row;
  age_group : option string;
  out_of_range_age : bool
}.

Definition categorize_row (r : Row) : aged_row :=
  let g := cut age_bins age_labels true (age_column r) in
  {| source_row := r;
     age_group := g;
     out_of_range_age := negb (bool_decide (is_Some g))
                         && bool_decide (is_Some (age_column r)) |}.

Definition categorize_age (df : list Row) : list aged_row * list log_line :=
  let out := map categorize_row df in
  let out_of_range_count := length (List.filter out_of_range_age out) in
  (out, if (0 <? out_of_range_count)%nat
        then [WarnOutOfRangeAge out_of_range_count] else []).

(** The age of the row is there and lies outside [6, 17]. *)
Definition outside_bins (r : Row) : bool :=
  match age_column r with
  | Some a => negb (Qle_bool (6 # 1) a) || negb (Qle_bool a (17 # 1))
  | None => false
  end.

End CategorizeAge.

(** *** preprocess_dates *)

Inductive dates_log : Type :=
| WarnInvalidDates (count : nat).

Section PreprocessDates.

(** The rows of the frame; the cell of [column] is missing or holds a
    value of type [Raw] (text or a date).  [parse] is what
    [pd.to_datetime(..., errors="coerce")] makes of a value that is
    present: a point in time, or [None] (NaT) when it cannot be read; a
    missing value gives NaT. *)
Context {Row Raw : Type}.
Variable column : Row -> option Raw.
Variable parse : Raw -> option Z.

Definition to_datetime_coerce (c : option Raw) : option Z :=
  match c with
  | Some v => parse v
  | None => None
  end.

(** A row of the returned frame: the input row, the converted column and
    the flag column [<column>_invalid]. *)
Record dated_row : Type := {
  dated_source : Row;
  dated_value : option Z;
  dated_invalid : bool
}.

Definition preprocess_row (r : Row) : dated_row :=
  let original := column r in
  let converted := to_datetime_coerce original in
  {| dated_source := r;
     dated_value := converted;
     dated_invalid := negb (bool_decide (is_Some converted))
                      && bool_decide (is_Some original) |}.

Definition preprocess_dates (df : list Row) : list dated_row * list dates_log :=
  let out := map preprocess_row df in
  let invalid_count := length (List.filter dated_invalid out) in
  (out, if (0 <? invalid_count)%nat then [WarnInvalidDates invalid_count]
        else []).

(** The value of the row is there and cannot be read as a date. *)
Definition unreadable (r : Row) : bool :=
  match column r with
  | Some v => negb (bool_decide (is_Some (parse v)))
  | None => false
  end.

End PreprocessDates.

(** *** map_teacher_names *)

Section MapTeacherNames.

(** The rows of the frame with their [teacher_normalized] column, which
    holds text. *)
Context {Row : Type}.
Variable teacher_normalized : Row -> text.

(** [name_map.get(x.strip(), x.strip())] *)
Definition mapped_name (name_map : gmap text text) (x : text) : text :=
  default (strip x) (name_map !! strip x).

(** The returned frame: every row with its new column [name_normalized]. *)
Definition map_teacher_names (name_map : gmap text text) (df : list Row)
  : list (Row * text) :=
  map (fun r => (r, mapped_name name_map (teacher_normalized r))) df.

End MapTeacherNames.

(** The code points of a literal written in UTF-8 (one to three bytes per
    character), for the Cyrillic names of the scripts. *)
Fixpoint decode_utf8 (bytes : list N) : text :=
  match bytes with
  | [] => []
  | b :: rest =>
      if (b <? 128)%N then b :: decode_utf8 rest
      else if (b <? 224)%N then
        match rest with
        | b2 :: rest' => ((b - 192) * 64 + (b2 - 128))%N :: decode_utf8 rest'
        | [] => []
        end
      else
        match rest with
        | b2 :: b3 :: rest' =>
            ((b - 224) * 4096 + (b2 - 128) * 64 + (b3 - 128))%N
            :: decode_utf8 rest'
        | _ => []
        end
  end.

Definition of_utf8 (s : string) : text := decode_utf8 (of_ascii s).

End Preprocessing.

(** ** Numbers of pandas and numpy *)

Module Numeric.

(** *** Comparisons with NaN: every comparison with NaN is false *)

Definition Qlt_bool (x y : Q) : bool := negb (Qle_bool y x).

Definition nan_lt (x y : option Q) : bool :=
  match x, y with
  | Some a, Some b => Qlt_bool a b
  | _, _ => false
  end.

Definition nan_le (x y : option Q) : bool :=
  match x, y with
  | Some a, Some b => Qle_bool a b
  | _, _ => false
  end.

Definition nan_gt (x y : option Q) : bool := nan_lt y x.
Definition nan_ge (x y : option Q) : bool := nan_le y x.

(** Arithmetic on finite-or-NaN values: NaN propagates. *)
Definition nan_lift2 (f : Q -> Q -> Q) (x y : option Q) : option Q :=
  match x, y with
  | Some a, Some b => Some (f a b)
  | _, _ => None
  end.

(** *** Sorting *)

Fixpoint insert_sorted (x : Q) (l : list Q) : list Q :=
  match l with
  | [] => [x]
  | y :: l' => if Qle_bool x y then x :: l else y :: insert_sorted x l'
  end.

Definition sort (l : list Q) : list Q := foldr insert_sorted [] l.

(** *** Quantile by linear interpolation

    numpy's default method, also the default of [Series.quantile]: on the
    sorted values [xs] (there are [n] > 0 of them) the quantile [q] sits at
    the virtual index [(n-1)*q]; the result interpolates between the value
    at its floor and the next one (the last value has no next one and is
    its own neighbour). *)
Definition linear_quantile (xs : list Q) (q : Q) : Q :=
  let n := length xs in
  let pos := (inject_Z (Z.of_nat n - 1) * q)%Q in
  let lo := Z.to_nat (Qfloor pos) in
  let hi := Nat.min (lo + 1) (n - 1) in
  let gamma := (pos - inject_Z (Qfloor pos))%Q in
  let a := nth lo xs 0%Q in
  let b := nth hi xs 0%Q in
  (a + (b - a) * gamma)%Q.

(** The non-missing values of a column. *)
Definition dropna (col : list (option Q)) : list Q := omap id col.

(** [Series.quantile(q)]: missing values are skipped; an empty selection
    gives NaN; [q] outside [0,1] raises. *)
Definition series_quantile (col : list (option Q)) (q : Q)
  : result exception (option Q) :=
  if Qle_bool 0 q && Qle_bool q 1 then
    match sort (dropna col) with
    | [] => Ok None
    | xs => Ok (Some (linear_quantile xs q))
    end
  else Raise ValueError.

(** The quantile arguments pandas accepts. *)
Definition in_unit_interval (q : Q) : bool := Qle_bool 0 q && Qle_bool q 1.

(** *** Extended values

    A float column after a division: NaN, an infinity, or a finite value
    (read as an exact rational; signed zeros are not distinguished). *)
Inductive float : Type :=
| NaN
| PInf
| NInf
| Fin (q : Q).

Definition Qsign (q : Q) : comparison := (q ?= 0)%Q.

Definition float_neg (x : float) : float :=
  match x with
  | NaN => NaN
  | PInf => NInf
  | NInf => PInf
  | Fin q => Fin (- q)
  end.

(** IEEE division. *)
Definition float_div (x y : float) : float :=
  match x, y with
  | NaN, _ | _, NaN => NaN
  | Fin a, Fin b =>
      match Qsign b with
      | Eq => match Qsign a with Eq => NaN | Gt => PInf | Lt => NInf end
      | _ => Fin (a / b)
      end
  | Fin _, (PInf | NInf) => Fin 0
  | (PInf | NInf), (PInf | NInf) => NaN
  | PInf, Fin b => match Qsign b with Lt => NInf | _ => PInf end
  | NInf, Fin b => match Qsign b with Lt => PInf | _ => NInf end
  end.

(** Round half to even, to an integer. *)
Definition rint (q : Q) : Z :=
  let f := Qfloor q in
  match (q - inject_Z f ?= 1 # 2)%Q with
  | Lt => f
  | Gt => f + 1
  | Eq => if Z.even f then f else f + 1
  end.

(** [round(x, 2)] on a float column: [rint(x * 100) / 100]. *)
Definition round2 (x : float) : float :=
  match x with
  | Fin q => Fin (inject_Z (rint (q * 100)) / 100)
  | other => other
  end.

End Numeric.

(** ** analytics.py *)

Module Analytics.

Import Numeric.

(** *** get_loss_dataframe *)

(** A row of the per-teacher file read from [name_from_csv_file]. *)
Record group_row : Type := {
  g_name_normalized : option string;
  g_number_of_students : float;
  g_number_of_group : float
}.

(** The frame read from that file; [count_of_loss] is a column that the
    code drops, so only its presence matters. *)
Record groups_frame : Type := {
  has_count_of_loss : bool;
  group_rows : list group_row
}.

(** Where the two merged columns of an output row come from. *)
Definition from_groups_file (groups : list group_row) (name : string)
    (students per_group : float) : Prop :=
  (exists g, In g groups /\ g_name_normalized g = Some name
             /\ students = g_number_of_students g
             /\ per_group = g_number_of_group g)
  \/ ((forall g, In g groups -> g_name_normalized g <> Some name)
      /\ students = NaN /\ per_group = NaN).

(** A row of the returned frame. *)
Record stats_row : Type := {
  name_normalized : string;
  count : Z;
  number_of_students : float;
  number_of_group : float;
  global_percent_of_loss : float;
  percent_of_loss_for_one_group : float
}.

Inductive effect : Type :=
| WriteCsv (path : string) (rows : list stats_row)
| LogInfo (path : string).

(** [groupby("name_normalized", as_index=False)["count"].sum()], one input
    row at a time: the groups are kept in key order, one per distinct
    name. *)
Fixpoint add_to_group (name : string) (c : Z) (groups : list (string * Z))
  : list (string * Z) :=
  match groups with
  | [] => [(name, c)]
  | (k, total) :: rest =>
      match String_as_OT.cmp name k with
      | Eq => (k, total + c) :: rest
      | Lt => (name, c) :: groups
      | Gt => (k, total) :: add_to_group name c rest
      end
  end.

(** What the groups hold for one name (0 when the name has no group). *)
Definition total_of (name : string) (groups : list (string * Z)) : Z :=
  foldr Z.add 0
    (map snd (List.filter (fun g => bool_decide (fst g = name)) groups)).

(** The groups are kept with their keys in increasing order. *)
Definition keys_sorted (groups : list (string * Z)) : Prop :=
  StronglySorted String_as_OT.lt (map fst groups).

Section LossDataframe.

(** The rows of [dframe] with the three columns that are read.  Dates are
    points on a time line ([None] is NaT); the two bounds are given on the
    same line. *)
Context {Row : Type}.
Variable start_date_col : Row -> option Z.
Variable name_normalized_col : Row -> option string.
Variable count_col : Row -> Z.

(** [pd.read_csv] for the per-teacher file. *)
Variable read_csv : string -> result exception groups_frame.

Definition in_period (start_date finish_date : Z) (r : Row) : bool :=
  match start_date_col r with
  | Some d => (start_date <=? d) && (d <=? finish_date)
  | None => false
  end.

(** Rows with a missing name belong to no group. *)
Definition group_step (groups : list (string * Z)) (r : Row)
  : list (string * Z) :=
  match name_normalized_col r with
  | Some name => add_to_group name (count_col r) groups
  | None => groups
  end.

Definition groupby_sum (rows : list Row) : list (string * Z) :=
  foldl group_step [] rows.

(** The sum of [count] over the rows of [rows] that carry [name]. *)
Definition name_count (rows : list Row) (name : string) : Z :=
  foldr Z.add 0
    (map count_col
       (List.filter (fun r => bool_decide (name_normalized_col r = Some name))
          rows)).

(** [pd.merge(stats, groups_and_losts, on="name_normalized", how="left")]
    for one row of [stats]: one output row per matching row of the file, or
    one row with missing values when there is none. *)
Definition merge_left_row (groups : list group_row) (s : string * Z)
  : list (string * Z * float * float) :=
  match List.filter
          (fun g => bool_decide (g_name_normalized g = Some (fst s))) groups
  with
  | [] => [(fst s, snd s, NaN, NaN)]
  | matches =>
      map (fun g => (fst s, snd s, g_number_of_students g, g_number_of_group g))
          matches
  end.

Definition add_percentages (m : string * Z * float * float) : stats_row :=
  let '(name, c, students, groups) := m in
  let global := round2 (float_div (Fin (inject_Z (c * 100))) students) in
  {| name_normalized := name;
     count := c;
     number_of_students := students;
     number_of_group := groups;
     global_percent_of_loss := global;
     percent_of_loss_for_one_group := round2 (float_div global groups) |}.

Definition get_loss_dataframe (dframe : list Row) (start_date finish_date : Z)
    (name_from_csv_file name_to_csv_file : string)
  : result exception (list stats_row * list effect) :=
  let df_period := List.filter (in_period start_date finish_date) dframe in
  let stats := groupby_sum df_period in
  groups_and_losts ← read_csv name_from_csv_file;
  let merged := flat_map (merge_left_row (group_rows groups_and_losts)) stats in
  if has_count_of_loss groups_and_losts then
    let stats := map add_percentages merged in
    Ok (stats, [WriteCsv name_to_csv_file stats; LogInfo name_to_csv_file])
  else Raise (KeyError "count_of_loss").

(** The sum of a teacher's [count] values over the rows of the period. *)
Definition period_count (dframe : list Row) (start_date finish_date : Z)
    (name : string) : Z :=
  foldr Z.add 0
    (map count_col
       (List.filter
          (fun r => in_period start_date finish_date r
                    && bool_decide (name_normalized_col r = Some name))
          dframe)).

End LossDataframe.

(** A small input, used in the examples: rows are (start_date,
    name_normalized, count). *)
Definition sample_dframe : list (option Z * option string * Z) :=
  [(Some 10, Some "Chaus Svitlozar", 1); (Some 30, Some "Popruha Oleh", 1);
   (Some 20, Some "Chaus Svitlozar", 1); (Some 99, Some "Chaus Svitlozar", 1);
   (None, Some "Popruha Oleh", 1); (Some 40, None, 1)]%string.

Definition sample_groups_frame : groups_frame :=
  {| has_count_of_loss := true;
     group_rows :=
       [{| g_name_normalized := Some "Chaus Svitlozar"%string;
           g_number_of_students := Fin (8 # 1);
           g_number_of_group := Fin (2 # 1) |}] |}.

Definition sample_read_csv (path : string) : result exception groups_frame :=
  Ok sample_groups_frame.

(** *** get_quartile_category_teachers_list *)

Record quartile_lists (Name : Type) : Type := {
  best : list Name;
  interquartile : list Name;
  bad : list Name
}.
Arguments best {Name}.
Arguments interquartile {Name}.
Arguments bad {Name}.

Section QuartileLists.

Context {Row Name : Type}.
Variable name_col : Row -> Name.
Variable percent_col : Row -> option Q.   (* percent_of_loss_for_one_group *)

Definition names_where (p : Row -> bool) (df : list Row) : list Name :=
  map name_col (List.filter p df).

Definition list_for_indicator (Q1 Q3 : Q) (df : list Row) (indicator : Q)
  : result exception (list Name) :=
  q ← series_quantile (map percent_col df) indicator;
  if Qeq_bool indicator Q1 then
    Ok (names_where (fun r => nan_lt (percent_col r) q) df)
  else if Qeq_bool indicator Q3 then
    Ok (names_where (fun r => nan_gt (percent_col r) q) df)
  else
    iq1 ← series_quantile (map percent_col df) Q1;
    iq3 ← series_quantile (map percent_col df) Q3;
    Ok (names_where
          (fun r => nan_ge (percent_col r) iq1 && nan_le (percent_col r) iq3)
          df).

Definition get_quartile_category_teachers_list (df : list Row) (Q1 Q2 Q3 : Q)
  : result exception (quartile_lists Name) :=
  b ← list_for_indicator Q1 Q3 df Q1;
  i ← list_for_indicator Q1 Q3 df Q2;
  w ← list_for_indicator Q1 Q3 df Q3;
  Ok {| best := b; interquartile := i; bad := w |}.

(** The quartiles of the column, as the default arguments ask for them. *)
Definition quartile (df : list Row) (q : Q) : option Q :=
  match sort (dropna (map percent_col df)) with
  | [] => None
  | xs => Some (linear_quantile xs q)
  end.

(** The three tests on a row, against the quartiles of the whole column. *)
Definition below_first_quartile (df : list Row) (r : Row) : bool :=
  nan_lt (percent_col r) (quartile df (1 # 4)).

Definition within_quartiles (df : list Row) (r : Row) : bool :=
  nan_ge (percent_col r) (quartile df (1 # 4))
  && nan_le (percent_col r) (quartile df (3 # 4)).

Definition above_third_quartile (df : list Row) (r : Row) : bool :=
  nan_gt (percent_col r) (quartile df (3 # 4)).

End QuartileLists.

Definition exactly_one (b1 b2 b3 : bool) : Prop :=
  (b1 = true /\ b2 = false /\ b3 = false)
  \/ (b1 = false /\ b2 = true /\ b3 = false)
  \/ (b1 = false /\ b2 = false /\ b3 = true).

End Analytics.

(** ** visualization.py *)

Module Visualization.

Import Numeric.

Section PlotBoxCompare.

Context {Row Name : Type}.
Variable value_column : Row -> option Q.
Variable teacher_column : Row -> Name.

(** What [np.percentile] does with an empty array differs between numpy
    releases (NaN with a warning, or an exception); it is left open. *)
Variable percentile_of_empty : result exception (option Q).

(** [np.percentile(values, p)]: NaN as soon as one value is NaN. *)
Definition np_percentile (values : list (option Q)) (p : Q)
  : result exception (option Q) :=
  match values with
  | [] => percentile_of_empty
  | _ =>
      if forallb (fun v => bool_decide (is_Some v)) values
      then Ok (Some (linear_quantile (sort (dropna values)) (p / 100)))
      else Ok None
  end.

Definition one_and_a_half : Q := 3 # 2.

(** The body of the loop for one label: the outliers among the rows
    [subset] of that label, given as (value, teacher). *)
Definition outliers_of_subset (subset : list (option Q * Name))
  : result exception (list Name) :=
  let values := map fst subset in
  q1 ← np_percentile values 25;
  q3 ← np_percentile values 75;
  let iqr := nan_lift2 Qminus q3 q1 in
  let lower_bound :=
    nan_lift2 Qminus q1 (nan_lift2 Qmult (Some one_and_a_half) iqr) in
  let upper_bound :=
    nan_lift2 Qplus q3 (nan_lift2 Qmult (Some one_and_a_half) iqr) in
  Ok (map snd
        (List.filter
           (fun yt => nan_lt (fst yt) lower_bound || nan_gt (fst yt) upper_bound)
           subset)).

Definition select (df : list Row) : list (option Q * Name) :=
  map (fun r => (value_column r, teacher_column r)) df.

Definition from_index (labels : list string) (i : nat)
  : result exception string :=
  match labels !! i with
  | Some l => Ok l
  | None => Raise IndexError
  end.

Fixpoint collect_outliers (combined : list (option Q * Name * string))
    (years : list string) (outliers : list Name)
  : result exception (list Name) :=
  match years with
  | [] => Ok outliers
  | year :: years' =>
      let subset :=
        map fst
          (List.filter (fun row => String.eqb (snd row) year) combined) in
      found ← outliers_of_subset subset;
      collect_outliers combined years' (outliers ++ found)
  end.

(** The frames are tagged with their label, concatenated, and split again
    by label, one pass of the loop per entry of [labels].  Drawing is not
    modelled. *)
Definition plot_box_compare (df1 df2 : list Row) (labels : list string)
  : result exception (list Name) :=
  l0 ← from_index labels 0;
  l1 ← from_index labels 1;
  let df1 := map (fun vt => (vt, l0)) (select df1) in
  let df2 := map (fun vt => (vt, l1)) (select df2) in
  let combined := df1 ++ df2 in
  collect_outliers combined labels [].

(** The outliers of one period taken on its own, as the docstring
    describes them. *)
Definition period_outliers (df : list Row) : result exception (list Name) :=
  outliers_of_subset (select df).

End PlotBoxCompare.

(** The boxplot rule on finite values: [y] lies strictly below
    [Q1 - 1.5*IQR] or strictly above [Q3 + 1.5*IQR], where [Q1] and [Q3] are
    the 25th and 75th percentiles of [values] and [IQR = Q3 - Q1]. *)
Definition is_iqr_outlier (values : list Q) (y : Q) : bool :=
  let q1 := linear_quantile (sort values) (25 / 100) in
  let q3 := linear_quantile (sort values) (75 / 100) in
  let iqr := (q3 - q1)%Q in
  Qlt_bool y (q1 - (3 # 2) * iqr) || Qlt_bool (q3 + (3 # 2) * iqr) y.

End Visualization.

(** ** data_io.py (and the same [load_data] in data_preparation.py) *)

Module DataIO.

(** A frame as [to_csv] sees it: column labels and, in each row, one cell
    per column; a cell is its text or missing ([None], written as the empty
    field). *)
Record DataFrame : Type := {
  columns : list string;
  rows : list (list (option string))
}.

Definition rectangular (df : DataFrame) : Prop :=
  Forall (fun row => length row = length (columns df)) (rows df).

(** A CSV file, line by line; a line is the list of its fields.  Quoting
    is not spelled out: the writer quotes a field that holds a comma, a
    quote or a line break and the tokenizer undoes it, so a line is taken
    as the fields it carries. *)
Abbreviation csv_line := (list string).
Abbreviation csv_file := (list csv_line).

(** The files on disk. *)
Abbreviation file_system := (gmap string csv_file).

Inductive log_line : Type :=
| InfoLoaded (path : string) (n_rows : nat)
| InfoSaved (path : string)
| ErrorLoading (path : string) (e : exception).

(** Code that logs and may raise. *)
Definition io (A : Type) : Type := list log_line * result exception A.

Definition io_ret {A} (a : A) : io A := ([], Ok a).

Definition io_bind {A B} (m : io A) (k : A -> io B) : io B :=
  match m with
  | (l, Ok a) => let '(l', r) := k a in (l ++ l', r)
  | (l, Raise e) => (l, Raise e)
  end.

Definition io_raise {A} (e : exception) : io A := ([], Raise e).
Definition io_log (l : log_line) : io unit := ([l], Ok tt).
Definition io_lift {A} (r : result exception A) : io A := ([], r).

(** [try: body  except Exception as e: handler e] *)
Definition try_except {A} (body : io A) (handler : exception -> io A) : io A :=
  match body with
  | (l, Raise e) => let '(l', r) := handler e in (l ++ l', r)
  | done => done
  end.

(** *** Writing: [df.to_csv(path, index=False)] *)

Definition write_cell (c : option string) : string := default ""%string c.

Definition to_csv (df : DataFrame) : csv_file :=
  columns df :: map (map write_cell) (rows df).

(** *** Reading: [pd.read_csv(path)] *)

Definition is_blank_char (a : Ascii.ascii) : bool :=
  bool_decide (a = " "%char) || bool_decide (a = Ascii.ascii_of_nat 9).

(** A line that the reader skips ([skip_blank_lines=True]): it is written
    with no character at all (no field), or with spaces and tabs only (a
    single field of blanks; the single empty field is written as a pair of
    quotes and is not blank). *)
Definition is_blank_line (line : csv_line) : bool :=
  match line with
  | [] => true
  | [f] =>
      negb (String.eqb f "")
      && forallb is_blank_char (String.list_ascii_of_string f)
  | _ => false
  end.

Section ReadCsv.

(** How a field becomes a cell (missing-value markers and dtype inference
    are pandas' own). *)
Variable parse_field : string -> option string.

(** What the reader does when the data lines do not all have as many
    fields as the header (padding, an inferred index, or [ParserError]). *)
Variable read_ragged : csv_line -> csv_file -> result exception DataFrame.

Definition parse_csv (file : csv_file) : result exception DataFrame :=
  match List.filter (fun line => negb (is_blank_line line)) file with
  | [] => Raise EmptyDataError
  | header :: data =>
      if forallb (fun line => (length line =? length header)%nat) data
      then Ok {| columns := header; rows := map (map parse_field) data |}
      else read_ragged header data
  end.

Definition read_csv (fs : file_system) (file_path : string)
  : result exception DataFrame :=
  match fs !! file_path with
  | None => Raise (FileNotFoundError file_path)
  | Some file => parse_csv file
  end.

Definition load_data (fs : file_system) (file_path : string) : io DataFrame :=
  try_except
    (io_bind (io_lift (read_csv fs file_path)) (fun df =>
     io_bind (io_log (InfoLoaded file_path (length (rows df)))) (fun _ =>
     io_ret df)))
    (fun e =>
       io_bind (io_log (ErrorLoading file_path e)) (fun _ =>
       io_raise e)).

End ReadCsv.

Definition save_data (df : DataFrame) (file_path : string) (fs : file_system)
  : file_system * list log_line :=
  (<[file_path := to_csv df]> fs, [InfoSaved file_path]).

(** No line that [to_csv] writes for [df] is one the reader skips. *)
Definition no_blank_line (df : DataFrame) : Prop :=
  Forall (fun line => is_blank_line line = false) (to_csv df).

(** A reader to compute the examples with: the empty field is missing,
    every other field is kept; ragged data is rejected. *)
Definition sample_parse_field (f : string) : option string :=
  if String.eqb f "" then None else Some f.

Definition sample_read_ragged (header : csv_line) (data : csv_file)
  : result exception DataFrame :=
  Raise ParserError.

(** Frames for the examples. *)
Definition sample_report : DataFrame :=
  {| columns := ["teacher_name"; "age"]%string;
     rows := [[Some "Chaus Svitlozar"; Some "7"];
              [Some "Chaus Svitlozar"; Some "7"];
              [None; Some "9"]]%string |}.

Definition frame_without_columns : DataFrame :=
  {| columns := []; rows := [[]] |}.

Definition frame_with_blank_cell : DataFrame :=
  {| columns := ["lost_reasons"]%string;
     rows := [[Some "moved"]; [Some " "]]%string |}.

End DataIO.

(** data_preparation.py has its own copy of [load_data]. *)
Module DataPreparation.

Section LoadData.

Variable parse_field : string -> option string.
Variable read_ragged :
  DataIO.csv_line -> DataIO.csv_file -> result exception DataIO.DataFrame.

Definition load_data (fs : DataIO.file_system) (file_path : string)
  : DataIO.io DataIO.DataFrame :=
  DataIO.try_except
    (DataIO.io_bind
       (DataIO.io_lift (DataIO.read_csv parse_field read_ragged fs file_path))
       (fun df =>
     DataIO.io_bind
       (DataIO.io_log (DataIO.InfoLoaded file_path (length (DataIO.rows df))))
       (fun _ =>
     DataIO.io_ret df)))
    (fun e =>
       DataIO.io_bind (DataIO.io_log (DataIO.ErrorLoading file_path e)) (fun _ =>
       DataIO.io_raise e)).

End LoadData.

(** *** preprocess_dates (the copy of data_preparation.py) *)

Inductive warning : Type :=
| WarnInvalidValues.

Section PreprocessDates.

Context {Row Raw : Type}.
Variable column : Row -> option Raw.
Variable parse : Raw -> option Z.

(** The frame with the column converted; a warning when the converted
    column has a NaT. *)
Definition preprocess_dates (df : list Row)
  : list (Row * option Z) * list warning :=
  let out :=
    map (fun r => (r, Preprocessing.to_datetime_coerce parse (column r))) df in
  (out, if existsb (fun rv => negb (bool_decide (is_Some (snd rv)))) out
        then [WarnInvalidValues] else []).

End PreprocessDates.

(** *** Timestamps *)

(** A [pd.Timestamp] is a number of nanoseconds since 1970-01-01. *)
Definition nanoseconds_per_day : Z := 86400 * 1000000000.

(** The day number of a date of the Gregorian calendar. *)
Definition days_from_civil (y m d : Z) : Z :=
  let y' := if m <=? 2 then y - 1 else y in
  let era := y' / 400 in
  let yoe := y' - era * 400 in
  let mp := if 2 <? m then m - 3 else m + 9 in
  let doy := (153 * mp + 2) / 5 + d - 1 in
  let doe := yoe * 365 + yoe / 4 - yoe / 100 + doy in
  era * 146097 + doe - 719468.

(** [pd.Timestamp("y-m-d")]: midnight of that day. *)
Definition timestamp (y m d : Z) : Z :=
  days_from_civil y m d * nanoseconds_per_day.

(** *** get_costs_and_salaries *)

(** A row of [costs_df]. *)
Record cost_row : Type := {
  cost_city : option string;
  cost_2022 : option Q;
  salary_2022 : option Q;
  cost_2023 : option Q;
  salary_2023 : option Q
}.

(** [PERIODS], in the order of the dict: the two bounds and the two columns
    to read. *)
Definition PERIODS
  : list (Z * Z * ((cost_row -> option Q) * (cost_row -> option Q))) :=
  [ (timestamp 2022 1 1, timestamp 2023 7 31, (cost_2022, salary_2022));
    (timestamp 2023 8 1, timestamp 2024 8 31, (cost_2023, salary_2023)) ].

(** [costs_df["city"] == city], for one row: false on a missing value. *)
Definition same_city (c : cost_row) (city : option string) : bool :=
  match cost_city c, city with
  | Some a, Some b => String.eqb a b
  | _, _ => false
  end.

(** The loop over [PERIODS.items()]. *)
Fixpoint first_period
    (periods : list (Z * Z * ((cost_row -> option Q) * (cost_row -> option Q))))
    (date : Z) (values : cost_row) : option Q * option Q :=
  match periods with
  | [] => (None, None)
  | (start, finish, (cost_col, sal_col)) :: rest =>
      if (start <=? date) && (date <=? finish)
      then (cost_col values, sal_col values)
      else first_period rest date values
  end.

Section CostsAndSalaries.

Context {Row : Type}.
Variable city : Row -> option string.
Variable start_date : Row -> option Z.

(** The pair (course_cost_in_month, teacher_salaries) of a row. *)
Definition get_costs_and_salaries (row : Row) (costs_df : list cost_row)
  : option Q * option Q :=
  let values := List.filter (fun c => same_city c (city row)) costs_df in
  match values, start_date row with
  | [], _ | _, None => (None, None)
  | first :: _, Some date => first_period PERIODS date first
  end.

End CostsAndSalaries.

(** *** add_features *)

Definition ALL_LESSONS : Q := 40 # 1.
Definition ALL_MONTHS : Q := 9 # 1.

(** The pair (teacher_lost, school_lost) of a row, from its
    [teacher_salaries], [course_cost_in_month] and [attendance_number]. *)
Definition add_features (teacher_salaries course_cost_in_month
                         attendance_number : option Q)
  : option Q * option Q :=
  let missed :=
    Numeric.nan_lift2 Qminus (Some ALL_LESSONS) attendance_number in
  (Numeric.nan_lift2 Qmult teacher_salaries missed,
   Numeric.nan_lift2 Qmult
     (Numeric.nan_lift2 Qdiv
        (Numeric.nan_lift2 Qmult course_cost_in_month (Some ALL_MONTHS))
        (Some ALL_LESSONS))
     missed).

(** Steps 4 and 5 of the script for one row: the two prices, then the two
    losses. *)
Definition priced_losses {Row : Type} (city : Row -> option string)
    (start_date : Row -> option Z) (attendance_number : Row -> option Q)
    (costs_df : list cost_row) (row : Row) : option Q * option Q :=
  let '(course_cost_in_month, teacher_salaries) :=
    get_costs_and_salaries city start_date row costs_df in
  add_features teacher_salaries course_cost_in_month (attendance_number row).

(** A price list for the examples. *)
Definition sample_costs : list cost_row :=
  [ {| cost_city := Some "Kyiv"%string;
       cost_2022 := Some (1000 # 1); salary_2022 := Some (150 # 1);
       cost_2023 := Some (1200 # 1); salary_2023 := Some (180 # 1) |};
    {| cost_city := Some "Uman"%string;
       cost_2022 := Some (800 # 1); salary_2022 := Some (120 # 1);
       cost_2023 := Some (900 # 1); salary_2023 := Some (140 # 1) |};
    {| cost_city := Some "Uman"%string;
       cost_2022 := None; salary_2022 := None;
       cost_2023 := None; salary_2023 := None |} ].

End DataPreparation.

(** ** DBLostClients.py *)

Module DBLostClients.

(** *** Frames *)

(** A cell of a frame: missing (NaN or None), a whole number, or text.
    Numeric columns of the two input files hold whole numbers (ids, ages,
    counts), also when pandas stores them as floats. *)
Inductive cell : Type :=
| Null
| Int (z : Z)
| Str (s : string).

#[global] Instance cell_eq_dec : EqDecision cell.
Proof. solve_decision. Defined.

#[global] Instance cell_countable : Countable cell.
Proof.
  refine (inj_countable'
            (fun c => match c with
                      | Null => inl tt
                      | Int z => inr (inl z)
                      | Str s => inr (inr s)
                      end)
            (fun x => match x with
                      | inl _ => Null
                      | inr (inl z) => Int z
                      | inr (inr s) => Str s
                      end) _).
  now intros [].
Defined.

(** A row maps column labels to cells; a frame lists its labels and its
    rows in order. *)
Record DataFrame : Type := {
  columns : list string;
  rows : list (gmap string cell)
}.

(** [row[col]] for a label of the frame. *)
Definition at_col (row : gmap string cell) (col : string) : cell :=
  default Null (row !! col).

Definition notna (c : cell) : bool :=
  match c with
  | Null => false
  | _ => true
  end.

(** [df[cols]]: the listed columns of every row, [KeyError] for a label
    that the frame does not have. *)
Definition select_columns (df : DataFrame) (cols : list string)
  : result exception (list (list cell)) :=
  match List.find (fun c => negb (bool_decide (c ∈ columns df))) cols with
  | Some c => Raise (KeyError c)
  | None => Ok (map (fun row => map (at_col row) cols) (rows df))
  end.

(** [drop_duplicates()]: the first occurrence of every row is kept. *)
Definition drop_duplicates {A} `{EqDecision A} (l : list A) : list A :=
  foldl (fun kept x => if decide (x ∈ kept) then kept else kept ++ [x]) [] l.

(** The labels used by the module. *)
Definition col_student : string := "ПІБ студента".
Definition col_group : string := "Назва групи".
Definition col_group_id : string := "ID групи".
Definition col_teacher : string := "Викладач".
Definition col_attendance : string := "Кількість відвіданих занять".
Definition col_reason : string := "Причина відвала".

(** *** The SQLite file *)

Inductive value : Type :=
| VNull
| VInt (z : Z)
| VText (s : string).

#[global] Instance value_eq_dec : EqDecision value.
Proof. solve_decision. Defined.

(** A stored row maps column names to values; a column without an entry
    holds NULL.  The rows of a table are kept in rowid order, the order of
    a table scan.  Type affinity (the conversion of a value to the declared
    type of its column) is not modelled. *)
Abbreviation sql_row := (gmap string value).

Definition field (r : sql_row) (col : string) : value :=
  default VNull (r !! col).

Record table : Type := {
  t_columns : list string;
  t_foreign_keys : list (string * string);  (* column, referenced table *)
  t_rows : list sql_row
}.

Abbreviation database := (gmap string table).

(** [a = b] in a WHERE clause: never true on NULL. *)
Definition sql_eq (a b : value) : bool :=
  match a, b with
  | VInt x, VInt y => Z.eqb x y
  | VText x, VText y => String.eqb x y
  | _, _ => false
  end.

(** How sqlite3 binds a Python value. *)
Definition bind_param (c : cell) : value :=
  match c with
  | Null => VNull
  | Int z => VInt z
  | Str s => VText s
  end.

Definition row_id (r : sql_row) : Z :=
  match field r "id" with
  | VInt i => i
  | _ => 0
  end.

(** The rowid given to a row inserted without one: 1 in an empty table,
    one more than the largest otherwise. *)
Definition next_rowid (rs : list sql_row) : Z :=
  match map row_id rs with
  | [] => 1
  | i :: others => 1 + foldr Z.max i others
  end.

Fixpoint insert_by_rowid (new : sql_row) (rs : list sql_row) : list sql_row :=
  match rs with
  | [] => [new]
  | r :: rs' =>
      if row_id new <? row_id r then new :: rs
      else r :: insert_by_rowid new rs'
  end.

Definition has_id (db : database) (table_name : string) (v : value) : bool :=
  match db !! table_name with
  | Some t => existsb (fun r => sql_eq (field r "id") v) (t_rows t)
  | None => false
  end.

(** [INSERT INTO table_name (cols) VALUES (vals)], with [PRAGMA
    foreign_keys] on or off. *)
Definition sql_insert (foreign_keys : bool) (db : database)
    (table_name : string) (cols : list string) (vals : list value)
  : result exception database :=
  match db !! table_name with
  | None => Raise (OperationalError "no such table")
  | Some t =>
      if negb (forallb (fun c => bool_decide (c ∈ t_columns t)) cols)
      then Raise (OperationalError "no such column")
      else
        let given : sql_row := list_to_map (zip cols vals) in
        id ← match field given "id" with
             | VNull => Ok (next_rowid (t_rows t))
             | VInt i =>
                 if existsb (fun r => Z.eqb (row_id r) i) (t_rows t)
                 then Raise (IntegrityError "UNIQUE constraint failed")
                 else Ok i
             | VText _ => Raise (IntegrityError "datatype mismatch")
             end;
        let new := <["id" := VInt id]> given in
        if foreign_keys
           && negb (forallb
                      (fun fk => match field new (fst fk) with
                                 | VNull => true
                                 | v => has_id db (snd fk) v
                                 end)
                      (t_foreign_keys t))
        then Raise (IntegrityError "FOREIGN KEY constraint failed")
        else
          Ok (<[table_name :=
                  {| t_columns := t_columns t;
                     t_foreign_keys := t_foreign_keys t;
                     t_rows := insert_by_rowid new (t_rows t) |}]> db)
  end.

(** [SELECT id FROM table_name WHERE col = ?] followed by [fetchone()]. *)
Definition select_id (db : database) (table_name col : string) (v : value)
  : result exception (option value) :=
  match db !! table_name with
  | None => Raise (OperationalError "no such table")
  | Some t =>
      if bool_decide (col ∈ t_columns t) && bool_decide ("id"%string ∈ t_columns t)
      then Ok (head (map (fun r => field r "id")
                       (List.filter (fun r => sql_eq (field r col) v)
                          (t_rows t))))
      else Raise (OperationalError "no such column")
  end.

(** *** create *)

Definition create_table_if_not_exists (name : string) (cols : list string)
    (fks : list (string * string)) (db : database) : database :=
  match db !! name with
  | Some _ => db
  | None =>
      <[name := {| t_columns := cols; t_foreign_keys := fks; t_rows := [] |}]> db
  end.

Definition create (db : database) : database :=
  let db :=
    create_table_if_not_exists "students"
      ["id"; "student_name"; "student_id"; "age"]%string [] db in
  let db :=
    create_table_if_not_exists "teachers"
      ["id"; "teacher_name"; "subject"; "city"]%string [] db in
  let db :=
    create_table_if_not_exists "groups"
      ["id"; "group_name"; "group_id"; "start_date"]%string [] db in
  create_table_if_not_exists "gone_clients_content"
    ["id"; "student_id"; "teacher_id"; "group_id"; "attendance_number";
     "lost_reasons"]%string
    [("student_id", "students"); ("teacher_id", "teachers");
     ("group_id", "groups")]%string db.

(** The database has the four tables. *)
Definition has_tables (db : database) : Prop :=
  is_Some (db !! "students") /\ is_Some (db !! "teachers")
  /\ is_Some (db !! "groups") /\ is_Some (db !! "gone_clients_content").

(** *** What is printed *)

Inductive event : Type :=
| TableFilled (table_name : string)
| StudentNotFound (name : cell)
| TeacherNotFound (name : cell)
| GroupNotFound (name : cell)
| FactsAdded
| CsvSaved (path : string).

(** *** insert_df_to_table *)

(** The loop over the rows; the connection is the one of [open()], with
    foreign keys on. *)
Fixpoint insert_all (db : database) (table_name : string) (cols : list string)
    (rows : list (list cell)) : result exception database :=
  match rows with
  | [] => Ok db
  | row :: rest =>
      db' ← sql_insert true db table_name cols (map bind_param row);
      insert_all db' table_name cols rest
  end.

(** [column_mapping] lists (label in the frame, column of the table), in
    the order of the dict.  The result is the committed database; when an
    exception escapes nothing was committed. *)
Definition insert_df_to_table (df : DataFrame)
    (column_mapping : list (string * string)) (table_name : string)
    (db : database) : result exception (database * list event) :=
  selected ← select_columns df (map fst column_mapping);
  let df_clean := drop_duplicates selected in
  db' ← insert_all db table_name (map snd column_mapping) df_clean;
  Ok (db', [TableFilled table_name]).

(** *** unite_tables *)

(** [rename(columns={old: new})] on the labels and on a row. *)
Definition rename_label (old new c : string) : string :=
  if String.eqb c old then new else c.

Definition rename_in_row (old new : string) (row : gmap string cell)
  : gmap string cell :=
  match row !! old with
  | Some v => <[new := v]> (delete old row)
  | None => row
  end.

Definition rename_column (old new : string) (df : DataFrame) : DataFrame :=
  {| columns := map (rename_label old new) (columns df);
     rows := map (rename_in_row old new) (rows df) |}.

(** [df_main.merge(teachers_unique, on="Назва групи", how="left")] for one
    row of [df_main]: one output row per record of [teachers_unique] (a
    list of [group; teacher]) with the same key, in their order, or one row
    with a missing teacher.  pandas matches a missing key with a missing
    key.  [df_main] is taken without a column "Викладач". *)
Definition merge_teacher (teachers_unique : list (list cell))
    (row : gmap string cell) : list (gmap string cell) :=
  match List.filter
          (fun rec => bool_decide (nth 0 rec Null = at_col row col_group))
          teachers_unique
  with
  | [] => [<[col_teacher := Null]> row]
  | matches => map (fun rec => <[col_teacher := nth 1 rec Null]> row) matches
  end.

(** [series == key], element by element: false on a missing value. *)
Definition py_eq (c key : cell) : bool :=
  notna c && notna key && bool_decide (c = key).

(** [df_merged.loc[df_merged["Назва групи"] == group_name, "Викладач"] =
    teacher] *)
Definition set_teacher_where (group_name teacher : cell)
    (rs : list (gmap string cell)) : list (gmap string cell) :=
  map (fun row => if py_eq (at_col row col_group) group_name
                  then <[col_teacher := teacher]> row else row) rs.

(** The manual fixes applied to one row, one item after the other. *)
Definition fix_row (r : gmap string cell) (item : cell * cell)
  : gmap string cell :=
  if py_eq (at_col r col_group) (fst item)
  then <[col_teacher := snd item]> r else r.

(** [missing_teachers] lists the items of the dict in order ([None] and
    the empty dict are the empty list). *)
Definition unite_tables (df_main df_teachers : DataFrame)
    (missing_teachers : list (cell * cell)) (save_path : option string)
  : result exception (DataFrame * list event) :=
  let df_teachers := rename_column col_group_id col_group df_teachers in
  selected ← select_columns df_teachers [col_group; col_teacher];
  let teachers_unique := drop_duplicates selected in
  if negb (bool_decide (col_group ∈ columns df_main))
  then Raise (KeyError col_group)
  else
    let df_merged := flat_map (merge_teacher teachers_unique) (rows df_main) in
    let df_merged :=
      foldl (fun rs item => set_teacher_where (fst item) (snd item) rs)
            df_merged missing_teachers in
    let df_merged :=
      List.filter (fun row => notna (at_col row col_teacher)) df_merged in
    Ok ({| columns := columns df_main ++ [col_teacher]; rows := df_merged |},
        match save_path with
        | Some path => [CsvSaved path]
        | None => []
        end).

(** What one row of [df_main] becomes, read off the docstring: the teacher
    is the manual fix for the group when there is one (the last one given),
    otherwise the teachers recorded for the group; rows left without a
    teacher are dropped. *)
Definition manual_fix (missing_teachers : list (cell * cell)) (group : cell)
  : option cell :=
  snd <$> last (List.filter (fun item => py_eq group (fst item))
                  missing_teachers).

Definition united_rows (teachers_unique : list (list cell))
    (missing_teachers : list (cell * cell)) (row : gmap string cell)
  : list (gmap string cell) :=
  List.filter (fun r => notna (at_col r col_teacher))
    (map (fun r => match manual_fix missing_teachers (at_col row col_group) with
                   | Some teacher => <[col_teacher := teacher]> r
                   | None => r
                   end)
         (merge_teacher teachers_unique row)).

(** Frames for the examples: three lost students, one teacher record
    (given twice), one manual fix. *)
Definition sample_attended : DataFrame :=
  {| columns := [col_student; col_group];
     rows := [ {[ col_student := Str "Ivan"; col_group := Str "G1" ]};
               {[ col_student := Str "Olha"; col_group := Str "G2" ]};
               {[ col_student := Str "Petro"; col_group := Str "G3" ]} ] |}.

Definition sample_extended : DataFrame :=
  {| columns := [col_group_id; col_teacher];
     rows := [ {[ col_group_id := Str "G1"; col_teacher := Str "Chaus" ]};
               {[ col_group_id := Str "G1"; col_teacher := Str "Chaus" ]} ] |}.

Definition sample_missing_teachers : list (cell * cell) :=
  [(Str "G2", Str "Bondar")].

(** *** insert_into_gone_clients_content *)

Section GoneClientsContent.

(** [int(s)] on text. *)
Variable int_of_text : string -> option Z.

Definition py_int (c : cell) : result exception Z :=
  match c with
  | Int z => Ok z
  | Str s =>
      match int_of_text s with
      | Some z => Ok z
      | None => Raise ValueError
      end
  | Null => Raise ValueError
  end.

(** [missing_values.get(kind, {}).get(name, name)], skipped when
    [missing_values] is None or empty; a missing name is never a key. *)
Definition fix_name (missing_values : option (gmap string (gmap cell cell)))
    (kind : string) (name : cell) : cell :=
  match missing_values with
  | None => name
  | Some m =>
      if bool_decide (m = ∅) then name
      else match name with
           | Null => name
           | _ => default name (default ∅ (m !! kind) !! name)
           end
  end.

(** The three lookups of one row, in the order of the code: the ids, or
    the warning printed at the first lookup that finds nothing. *)
Definition resolve_ids (missing_values : option (gmap string (gmap cell cell)))
    (db : database) (row : gmap string cell)
  : result exception (event + value * value * value) :=
  let student_name := fix_name missing_values "students" (at_col row col_student) in
  let group_name := fix_name missing_values "groups" (at_col row col_group) in
  let teacher_name := fix_name missing_values "teachers" (at_col row col_teacher) in
  student_result ← select_id db "students" "student_name" (bind_param student_name);
  match student_result with
  | None => Ok (inl (StudentNotFound student_name))
  | Some student_id =>
      teacher_result ← select_id db "teachers" "teacher_name" (bind_param teacher_name);
      match teacher_result with
      | None => Ok (inl (TeacherNotFound teacher_name))
      | Some teacher_id =>
          group_result ← select_id db "groups" "group_name" (bind_param group_name);
          match group_result with
          | None => Ok (inl (GroupNotFound group_name))
          | Some group_id => Ok (inr (student_id, teacher_id, group_id))
          end
      end
  end.

Definition fact_columns : list string :=
  ["student_id"; "teacher_id"; "group_id"; "attendance_number"; "lost_reasons"].

Inductive row_result : Type :=
| RowInserted (db : database)
| RowSkipped (warning : event)
| RowRaised (e : exception).

(** The body of the loop. *)
Definition process_row (foreign_keys : bool)
    (missing_values : option (gmap string (gmap cell cell)))
    (db : database) (row : gmap string cell) : row_result :=
  match py_int (default (Int 0) (row !! col_attendance)) with
  | Raise e => RowRaised e
  | Ok attendance_number =>
      let lost_reason := at_col row col_reason in
      match resolve_ids missing_values db row with
      | Raise e => RowRaised e
      | Ok (inl warning) => RowSkipped warning
      | Ok (inr (student_id, teacher_id, group_id)) =>
          match sql_insert foreign_keys db "gone_clients_content" fact_columns
                  [student_id; teacher_id; group_id; VInt attendance_number;
                   bind_param lost_reason]
          with
          | Raise e => RowRaised e
          | Ok db' => RowInserted db'
          end
      end
  end.

(** What the connection holds and what was printed when the function
    returns or an exception escapes ([raised]); the rows inserted before an
    exception are not committed. *)
Record outcome : Type := {
  out_db : database;
  out_log : list event;
  out_raised : option exception
}.

Fixpoint insert_rows (foreign_keys : bool)
    (missing_values : option (gmap string (gmap cell cell)))
    (rs : list (gmap string cell)) (db : database) (log : list event)
  : outcome :=
  match rs with
  | [] => {| out_db := db; out_log := log ++ [FactsAdded]; out_raised := None |}
  | row :: rest =>
      match process_row foreign_keys missing_values db row with
      | RowInserted db' => insert_rows foreign_keys missing_values rest db' log
      | RowSkipped warning =>
          insert_rows foreign_keys missing_values rest db (log ++ [warning])
      | RowRaised e => {| out_db := db; out_log := log; out_raised := Some e |}
      end
  end.

(** [conn] is given by its foreign-key setting and the database it sees. *)
Definition insert_into_gone_clients_content (df : DataFrame)
    (foreign_keys : bool) (db : database)
    (missing_values : option (gmap string (gmap cell cell))) : outcome :=
  insert_rows foreign_keys missing_values (rows df) db [].

End GoneClientsContent.

(** The rows of a table (none when the table does not exist). *)
Definition table_rows (db : database) (table_name : string) : list sql_row :=
  match db !! table_name with
  | Some t => t_rows t
  | None => []
  end.

(** [v] is the id of a row of the table. *)
Definition id_in (db : database) (table_name : string) (v : value) : Prop :=
  exists r, r ∈ table_rows db table_name /\ field r "id" = v.

(** A fact whose three keys are ids of rows of the three tables. *)
Definition references_existing (db : database) (fact : sql_row) : Prop :=
  id_in db "students" (field fact "student_id")
  /\ id_in db "teachers" (field fact "teacher_id")
  /\ id_in db "groups" (field fact "group_id").

Definition facts_table : string := "gone_clients_content".

(** Two databases with the same reference tables. *)
Definition same_references (db db' : database) : Prop :=
  forall name, name <> facts_table -> db' !! name = db !! name.

(** The warning that a row gets, if its lookups end in one. *)
Definition warning_of (missing_values : option (gmap string (gmap cell cell)))
    (db : database) (row : gmap string cell) : option event :=
  match resolve_ids missing_values db row with
  | Ok (inl warning) => Some warning
  | _ => None
  end.

(** The three lookups of the row all find a row. *)
Definition resolved (missing_values : option (gmap string (gmap cell cell)))
    (db : database) (row : gmap string cell) : bool :=
  match resolve_ids missing_values db row with
  | Ok (inr _) => true
  | _ => false
  end.

(** The fact carries the three ids that the lookups of [row] return. *)
Definition fact_of_row (missing_values : option (gmap string (gmap cell cell)))
    (db : database) (row : gmap string cell) (fact : sql_row) : Prop :=
  resolve_ids missing_values db row
  = Ok (inr (field fact "student_id", field fact "teacher_id",
             field fact "group_id")).

(** *** main: the tables and the reference data *)

Definition students_mapping : list (string * string) :=
  [(col_student, "student_name"); ("ID студента", "student_id");
   ("Вік дитини", "age")]%string.

Definition teachers_mapping : list (string * string) :=
  [(col_teacher, "teacher_name"); ("Предмет", "subject");
   ("Місто", "city")]%string.

Definition groups_mapping : list (string * string) :=
  [(col_group, "group_name"); (col_group_id, "group_id");
   ("Дата", "start_date")]%string.

(** Steps 1 and 2 of [main]: [create()] and the three calls of
    [insert_df_to_table], on the database file as it is found. *)
Definition build_reference_tables (df1 df2 : DataFrame) (db : database)
  : result exception (database * list event) :=
  let db := create db in
  r1 ← insert_df_to_table df1 students_mapping "students" db;
  r2 ← insert_df_to_table df2 teachers_mapping "teachers" (fst r1);
  r3 ← insert_df_to_table df1 groups_mapping "groups" (fst r2);
  Ok (fst r3, snd r1 ++ snd r2 ++ snd r3).

(** The three reference tables are there as [create] declares them, and
    the fact table exists. *)
Definition reference_schema (db : database) : Prop :=
  (exists rs, db !! "students"
              = Some {| t_columns := ["id"; "student_name"; "student_id"; "age"]%string;
                        t_foreign_keys := []; t_rows := rs |})
  /\ (exists rs, db !! "teachers"
                 = Some {| t_columns := ["id"; "teacher_name"; "subject"; "city"]%string;
                           t_foreign_keys := []; t_rows := rs |})
  /\ (exists rs, db !! "groups"
                 = Some {| t_columns := ["id"; "group_name"; "group_id"; "start_date"]%string;
                           t_foreign_keys := []; t_rows := rs |})
  /\ is_Some (db !! "gone_clients_content").

(** [n] rows were added at the end of a table. *)
Definition appended (db db' : database) (table_name : string) (n : nat) : Prop :=
  exists added,
    table_rows db' table_name = table_rows db table_name ++ added
    /\ length added = n.

(** The two input files of the examples. *)
Definition sample_df1 : DataFrame :=
  {| columns := [col_student; "ID студента"; "Вік дитини"; col_group;
                 col_group_id; "Дата"; col_attendance; col_reason]%string;
     rows := [ {[ col_student := Str "Ivan"; "ID студента"%string := Int 101;
                  "Вік дитини"%string := Int 9; col_group := Str "G1";
                  col_group_id := Int 7; "Дата"%string := Str "2023-09-01";
                  col_attendance := Int 12; col_reason := Str "moved" ]} ] |}.

Definition sample_df2 : DataFrame :=
  {| columns := [col_group_id; col_teacher; "Предмет"; "Місто"]%string;
     rows := [ {[ col_group_id := Str "G1"; col_teacher := Str "Chaus";
                  "Предмет"%string := Str "Python";
                  "Місто"%string := Str "Uman" ]} ] |}.

(** The merged frame of the examples: a student of the file, a student
    who is not in it, and a row without an attendance count. *)
Definition sample_merged : DataFrame :=
  {| columns := [col_student; col_group; col_teacher; col_attendance;
                 col_reason];
     rows := [ {[ col_student := Str "Olha"; col_group := Str "G1";
                  col_teacher := Str "Chaus"; col_attendance := Int 3;
                  col_reason := Str "price" ]};
               {[ col_student := Str "Ivan"; col_group := Str "G1";
                  col_teacher := Str "Chaus"; col_attendance := Int 12;
                  col_reason := Str "moved" ]} ] |}.

Definition sample_merged_without_count : DataFrame :=
  {| columns := columns sample_merged;
     rows := {[ col_student := Str "Olha"; col_group := Str "G1";
                col_teacher := Str "Chaus"; col_attendance := Null;
                col_reason := Str "price" ]} :: rows sample_merged |}.

(** [int] on text, for the examples: no text is a number. *)
Definition sample_int_of_text (s : string) : option Z := None.

(** The database after one build from the example files. *)
Definition sample_database : database :=
  match build_reference_tables sample_df1 sample_df2 ∅ with
  | Ok (db, _) => db
  | Raise _ => ∅
  end.

(** The database after the students of the example file were loaded. *)
Definition sample_students_database : database :=
  match insert_df_to_table sample_df1 students_mapping "students" (create ∅)
  with
  | Ok (db, _) => db
  | Raise _ => ∅
  end.

(** *** main *)

(** The fact table is there as [create] declares it. *)
Definition facts_schema (db : database) : Prop :=
  exists rs,
    db !! facts_table
    = Some {| t_columns := ["id"; "student_id"; "teacher_id"; "group_id";
                            "attendance_number"; "lost_reasons"]%string;
              t_foreign_keys := [("student_id", "students");
                                 ("teacher_id", "teachers");
                                 ("group_id", "groups")]%string;
              t_rows := rs |}.

(** Every fact of the database refers to rows that are there. *)
Definition referentially_intact (db : database) : Prop :=
  forall fact, In fact (table_rows db facts_table) -> references_existing db fact.

(** No row of [db] is missing from [db']. *)
Definition grows (db db' : database) : Prop :=
  forall name r, In r (table_rows db name) -> In r (table_rows db' name).

Definition missing_teachers_dict : list (cell * cell) :=
  [(Str "215221_Умань_СБ_10:00 Геймдизайн", Str "Бондар Владислав")].

Inductive main_event : Type :=
| Printed (e : event)
| EtlFinished.

(** What a run of the script leaves: the database file (with what was
    committed), what was printed, and the exception that ended the run, if
    one did. *)
Record run : Type := {
  run_db : database;
  run_log : list main_event;
  run_raised : option exception
}.

Section Main.

Variable int_of_text : string -> option Z.

(** [main()], on the two frames read at import and the database file as it
    is found.  Each call of [insert_df_to_table] commits its own rows; the
    facts are committed when [insert_into_gone_clients_content] returns. *)
Definition main (df1 df2 : DataFrame) (db : database) : run :=
  let db0 := create db in
  match insert_df_to_table df1 students_mapping "students" db0 with
  | Raise e => {| run_db := db0; run_log := []; run_raised := Some e |}
  | Ok (db1, log1) =>
  match insert_df_to_table df2 teachers_mapping "teachers" db1 with
  | Raise e =>
      {| run_db := db1; run_log := map Printed log1; run_raised := Some e |}
  | Ok (db2, log2) =>
  match insert_df_to_table df1 groups_mapping "groups" db2 with
  | Raise e =>
      {| run_db := db2; run_log := map Printed (log1 ++ log2);
         run_raised := Some e |}
  | Ok (db3, log3) =>
  match unite_tables df1 df2 missing_teachers_dict
          (Some "data/1_Attended_classes_with_teachers.csv"%string) with
  | Raise e =>
      {| run_db := db3; run_log := map Printed (log1 ++ log2 ++ log3);
         run_raised := Some e |}
  | Ok (df_merged, log4) =>
      let out :=
        insert_into_gone_clients_content int_of_text df_merged false db3 None in
      let printed := map Printed (log1 ++ log2 ++ log3 ++ log4 ++ out_log out) in
      match out_raised out with
      | Some e => {| run_db := db3; run_log := printed; run_raised := Some e |}
      | None =>
          {| run_db := out_db out; run_log := printed ++ [EtlFinished];
             run_raised := None |}
      end
  end end end end.

End Main.

End DBLostClients.

(** ** etl_pipeline/main.py *)

Module MainScript.

Import Preprocessing.

(** *** Teacher names *)

(** The dict [name_map] of the script. *)
Definition name_map : gmap text text :=
  list_to_map
    [ (of_utf8 "Кнідзе Міша", of_utf8 "Світлозар Чаус");
      (of_utf8 "Книдзе Михаил", of_utf8 "Світлозар Чаус");
      (of_utf8 "Сазонова Ліза", of_utf8 "Сазонова Єлизавета");
      (of_utf8 "Котельніков Сергій", of_utf8 "Котельников Сергій");
      (of_utf8 "Котельніков 50", of_utf8 "Котельников Сергій");
      (of_utf8 "Гончарук Онлайн", of_utf8 "Гончарук Денис");
      (of_utf8 "Удодік Іра", of_utf8 "Удодік Ірина");
      (of_utf8 "Олег Попруга", of_utf8 "Попруга Олег");
      (of_utf8 "Клименко 250", of_utf8 "Клименко Владислав") ].

(** Step 2 of the script for one value of [teacher_name]:
    [.str.strip()], [normalize_teacher], then [map_teacher_names]. *)
Definition name_normalized_of (isalnum : N -> bool)
    (names : gmap text text) (teacher_name : text) : text :=
  let teacher_name := strip teacher_name in
  let teacher_normalized := normalize_teacher isalnum teacher_name in
  mapped_name names teacher_normalized.

(** *** get_teacher_analysis *)

Section TeacherAnalysis.

Context {Name : Type} `{Countable Name}.

(** [Counter(names)] *)
Definition Counter (names : list Name) : gmap Name nat :=
  foldl (fun counts x => <[x := S (default 0%nat (counts !! x))]> counts)
        ∅ names.

Record analysis_row : Type := {
  name : Name;
  best : nat;
  interquart : nat;
  bad : nat;
  worst : nat
}.

(** The rows of the returned frame; [list(all_names)] enumerates the set in
    some order. *)
Definition get_teacher_analysis (best_all interquart_all bad_all
                                 outliers_all : list Name)
  : list analysis_row :=
  let best_counts := Counter best_all in
  let interquart_counts := Counter interquart_all in
  let bad_counts := Counter bad_all in
  let outliers_counts := Counter outliers_all in
  let all_names : gset Name :=
    list_to_set best_all ∪ list_to_set interquart_all
    ∪ list_to_set bad_all ∪ list_to_set outliers_all in
  map (fun x =>
         {| name := x;
            best := default 0%nat (best_counts !! x);
            interquart := default 0%nat (interquart_counts !! x);
            bad := default 0%nat (bad_counts !! x);
            worst := default 0%nat (outliers_counts !! x) |})
      (elements all_names).

(** How often [x] occurs in a list. *)
Definition occurrences (x : Name) (l : list Name) : nat :=
  length (List.filter (fun y => bool_decide (y = x)) l).

(** *** The quartile analysis of the two years *)

(** The rows of the two yearly frames, with the two columns that are
    read. *)
Context {Row : Type}.
Variable name_col : Row -> Name.
Variable percent_col : Row -> option Q.
Variable percentile_of_empty : result exception (option Q).

(** [stats[~stats["name_normalized"].isin(outliers)]] *)
Definition without_outliers (outliers : list Name) (stats : list Row)
  : list Row :=
  List.filter (fun r => negb (bool_decide (name_col r ∈ outliers))) stats.

(** Steps 6 and 8 of the script: the outliers of the boxplot, the quartile
    lists of the two frames without them, and the table of the four
    categories. *)
Definition teacher_categories (stats_22_23 stats_23_24 : list Row)
  : result exception (list analysis_row) :=
  outliers_teachers_all ←
    Visualization.plot_box_compare percent_col name_col percentile_of_empty
      stats_22_23 stats_23_24 ["2022/2023"; "2023/2024"]%string;
  let clean_stats_22_23 := without_outliers outliers_teachers_all stats_22_23 in
  let clean_stats_23_24 := without_outliers outliers_teachers_all stats_23_24 in
  quartile_lists_22_23 ←
    Analytics.get_quartile_category_teachers_list name_col percent_col
      clean_stats_22_23 (1 # 4) (1 # 2) (3 # 4);
  quartile_lists_23_24 ←
    Analytics.get_quartile_category_teachers_list name_col percent_col
      clean_stats_23_24 (1 # 4) (1 # 2) (3 # 4);
  let best_teachers_all :=
    Analytics.best quartile_lists_22_23 ++ Analytics.best quartile_lists_23_24 in
  let interquart_teachers_all :=
    Analytics.interquartile quartile_lists_22_23
    ++ Analytics.interquartile quartile_lists_23_24 in
  let bad_teachers_all :=
    Analytics.bad quartile_lists_22_23 ++ Analytics.bad quartile_lists_23_24 in
  Ok (get_teacher_analysis best_teachers_all interquart_teachers_all
        bad_teachers_all outliers_teachers_all).

End TeacherAnalysis.

End MainScript.

(** * Part II: lemmas and theorems *)

(** ** preprocessing.py: normalize_teacher *)

(** Turns a boolean combination of comparisons on code points into the
    proposition it decides. *)
Ltac reflect_ranges H :=
  repeat first
    [ rewrite orb_true_iff in H
    | rewrite andb_true_iff in H
    | rewrite N.leb_le in H
    | rewrite N.eqb_eq in H ].

Section NormalizeTeacherFacts.

Import Preprocessing.

Variable isalnum : N -> bool.
Hypothesis isalnum_not_space : forall c, isalnum c = true -> is_space c = false.

Local Abbreviation name_char := (name_char isalnum).

Lemma name_char_not_space c : name_char c = true -> is_space c = false.
Proof.
  intros Hc. destruct (is_space c) eqn:Hs; [|reflexivity]. exfalso.
  assert (Ha : isalnum c = false).
  { destruct (isalnum c) eqn:Ha; [|reflexivity].
    apply isalnum_not_space in Ha. congruence. }
  unfold Preprocessing.name_char in Hc. rewrite Ha in Hc.
  unfold is_space, in_range in *.
  simpl in Hc. reflect_ranges Hc. reflect_ranges Hs. lia.
Qed.

Lemma space_not_name_char c : is_space c = true -> name_char c = false.
Proof.
  intros Hs. destruct (name_char c) eqn:Hc; [|reflexivity].
  apply name_char_not_space in Hc. congruence.
Qed.

(** *** Stripping *)

Lemma lstrip_head s c : head (lstrip s) = Some c -> is_space c = false.
Proof.
  induction s as [|d s IH]; simpl; [discriminate|].
  destruct (is_space d) eqn:Hd; [exact IH|].
  simpl. intros [= <-]. exact Hd.
Qed.

Lemma lstrip_id s :
  (forall c, head s = Some c -> is_space c = false) -> lstrip s = s.
Proof.
  destruct s as [|d s]; simpl; [reflexivity|].
  intros H. rewrite (H d eq_refl). reflexivity.
Qed.

Lemma lstrip_suffix s :
  exists sp, s = sp ++ lstrip s /\ forallb is_space sp = true.
Proof.
  induction s as [|d s (sp & Hs & Hsp)]; simpl.
  - exists []. split; reflexivity.
  - destruct (is_space d) eqn:Hd.
    + exists (d :: sp). simpl. rewrite Hd, Hsp. split; [congruence|reflexivity].
    + exists []. split; reflexivity.
Qed.

Lemma rstrip_prefix s :
  exists sp, s = rstrip s ++ sp /\ forallb is_space sp = true.
Proof.
  destruct (lstrip_suffix (reverse s)) as (sp & Hs & Hsp).
  exists (reverse sp). split.
  - unfold rstrip. rewrite <- reverse_app, <- Hs. symmetry. apply reverse_involutive.
  - rewrite forallb_forall in *. intros x Hx. apply Hsp.
    apply list_elem_of_In. apply list_elem_of_In in Hx.
    rewrite elem_of_reverse in Hx. exact Hx.
Qed.

Lemma rstrip_head s c :
  (forall d, head s = Some d -> is_space d = false) ->
  head (rstrip s) = Some c -> head s = Some c.
Proof.
  intros _ Hc. destruct (rstrip_prefix s) as (sp & Hs & _).
  rewrite Hs at 1. rewrite head_app, Hc. reflexivity.
Qed.

Lemma rstrip_last s c : last (rstrip s) = Some c -> is_space c = false.
Proof.
  unfold rstrip. rewrite last_reverse. apply lstrip_head.
Qed.

Lemma rstrip_id s :
  (forall c, last s = Some c -> is_space c = false) -> rstrip s = s.
Proof.
  intros H. unfold rstrip. rewrite lstrip_id.
  - apply reverse_involutive.
  - intros c. rewrite head_reverse. apply H.
Qed.

Lemma strip_head s c : head (strip s) = Some c -> is_space c = false.
Proof.
  unfold strip. intros Hc. apply (lstrip_head s).
  apply rstrip_head; [apply lstrip_head | exact Hc].
Qed.

Lemma strip_last s c : last (strip s) = Some c -> is_space c = false.
Proof. apply rstrip_last. Qed.

Lemma strip_id s :
  (forall c, head s = Some c -> is_space c = false) ->
  (forall c, last s = Some c -> is_space c = false) ->
  strip s = s.
Proof.
  intros Hh Hl. unfold strip. rewrite (lstrip_id s Hh). apply rstrip_id, Hl.
Qed.

Lemma strip_idempotent s : strip (strip s) = strip s.
Proof. apply strip_id; [apply strip_head | apply strip_last]. Qed.

(** *** The maximal run of a character class *)

Lemma span_app p s : fst (span p s) ++ snd (span p s) = s.
Proof.
  induction s as [|c s IH]; simpl; [reflexivity|].
  destruct (p c); simpl; [now rewrite IH | reflexivity].
Qed.

Lemma span_all p s : forallb p (fst (span p s)) = true.
Proof.
  induction s as [|c s IH]; simpl; [reflexivity|].
  destruct (p c) eqn:Hc; simpl; [now rewrite Hc | reflexivity].
Qed.

Lemma span_rest p s d : head (snd (span p s)) = Some d -> p d = false.
Proof.
  induction s as [|c s IH]; simpl; [discriminate|].
  destruct (p c) eqn:Hc; simpl; [exact IH | now intros [= <-]].
Qed.

Lemma span_unique p w r :
  forallb p w = true -> (forall d, head r = Some d -> p d = false) ->
  span p (w ++ r) = (w, r).
Proof.
  intros Hw Hr. induction w as [|c w IH]; simpl in *.
  - destruct r as [|d r]; simpl; [reflexivity|].
    now rewrite (Hr d eq_refl).
  - apply andb_true_iff in Hw as [Hc Hw]. rewrite Hc, (IH Hw). reflexivity.
Qed.

(** *** What the backtracking matcher finds *)

Lemma flat_map_map {A B C} (f : B -> list C) (g : A -> B) l :
  flat_map f (map g l) = flat_map (fun x => f (g x)) l.
Proof. induction l as [|x l IH]; simpl; [reflexivity | now rewrite IH]. Qed.

(** A continuation that fails whenever the next character is still in the
    class only succeeds after the longest run. *)
Lemma flat_map_star_matches {B} p (f : text * text -> list B) s :
  (forall m c r, p c = true -> f (m, c :: r) = []) ->
  flat_map f (star_matches p s) = f (span p s).
Proof.
  revert f. induction s as [|c s IH]; intros f Hf; simpl.
  - apply app_nil_r.
  - destruct (p c) eqn:Hc; simpl; [|apply app_nil_r].
    rewrite flat_map_app, flat_map_map. simpl.
    rewrite (Hf [] c s Hc), !app_nil_r.
    rewrite IH; [reflexivity|]. intros m d r Hd. simpl. now apply Hf.
Qed.

Lemma head_star_matches p s : head (star_matches p s) = Some (span p s).
Proof.
  induction s as [|c s IH]; simpl; [reflexivity|].
  destruct (p c); simpl; [|reflexivity].
  destruct (star_matches p s) as [|mr l]; simpl in *; [discriminate|].
  injection IH as ->. reflexivity.
Qed.

Lemma re_match_teacher_pattern s :
  re_match (teacher_pattern isalnum) s = two_words isalnum s.
Proof.
  unfold re_match, teacher_pattern, two_words.
  destruct s as [|c1 s]; [reflexivity|]. simpl.
  destruct (name_char c1) eqn:Hc1; simpl; [|reflexivity].
  rewrite flat_map_map, flat_map_star_matches.
  - simpl. destruct (snd (span name_char s)) as [|c r1]; [reflexivity|].
    destruct (is_space c); simpl; [|reflexivity].
    rewrite app_nil_r. destruct r1 as [|c2 r2]; simpl; [reflexivity|].
    destruct (name_char c2); simpl; [|reflexivity].
    rewrite !map_map. simpl.
    pose proof (head_star_matches name_char r2) as Hh.
    destruct (star_matches name_char r2) as [|mr l]; simpl in *; [discriminate|].
    injection Hh as ->. reflexivity.
  - intros m c r Hc. simpl. now rewrite (name_char_not_space c Hc).
Qed.

Lemma normalize_teacher_eq name :
  normalize_teacher isalnum name
  = default (strip name) (two_words isalnum (strip name)).
Proof.
  unfold normalize_teacher. rewrite re_match_teacher_pattern.
  now destruct (two_words isalnum (strip name)).
Qed.

(** *** The computed words are the first two words *)

Lemma two_words_of_start s w1 c w2 rest :
  starts_with_two_words isalnum s w1 c w2 rest ->
  two_words isalnum s = Some (w1 ++ c :: w2).
Proof.
  intros (-> & Hn1 & Hn2 & Hw1 & Hc & Hw2 & Hrest). unfold two_words.
  rewrite (span_unique name_char w1 (c :: w2 ++ rest) Hw1).
  - destruct w1 as [|c1 w1]; [congruence|]. rewrite Hc.
    rewrite (span_unique name_char w2 rest Hw2 Hrest).
    destruct w2 as [|c2 w2]; [congruence|]. reflexivity.
  - simpl. intros d [= <-]. now apply space_not_name_char.
Qed.

Lemma two_words_Some s r :
  two_words isalnum s = Some r ->
  exists w1 c w2 rest,
    starts_with_two_words isalnum s w1 c w2 rest /\ r = w1 ++ c :: w2.
Proof.
  unfold two_words. intros H.
  pose proof (span_app name_char s) as Happ.
  pose proof (span_all name_char s) as Hall.
  destruct (span name_char s) as [[|c1 w1] [|c r1]]; try discriminate.
  destruct (is_space c) eqn:Hc; [|discriminate].
  pose proof (span_app name_char r1) as Happ2.
  pose proof (span_all name_char r1) as Hall2.
  pose proof (span_rest name_char r1) as Hrest2.
  destruct (span name_char r1) as [[|c2 w2] rest]; [discriminate|].
  injection H as <-. simpl in *.
  exists (c1 :: w1), c, (c2 :: w2), rest. split; [|reflexivity].
  repeat split; try assumption; try discriminate.
  now rewrite <- Happ, <- Happ2.
Qed.

Lemma two_words_None s w1 c w2 rest :
  two_words isalnum s = None -> ~ starts_with_two_words isalnum s w1 c w2 rest.
Proof. intros Hn Hs. apply two_words_of_start in Hs. congruence. Qed.

(** The two words, once extracted, are already stripped and are their own
    first two words. *)
Lemma two_words_fixpoint s r :
  two_words isalnum s = Some r ->
  strip r = r /\ two_words isalnum r = Some r.
Proof.
  intros H. apply two_words_Some in H
    as (w1 & c & w2 & rest & (_ & Hn1 & Hn2 & Hw1 & Hc & Hw2 & _) & ->).
  split.
  - apply strip_id; intros d Hd; apply name_char_not_space.
    + destruct w1 as [|c1 w1]; [congruence|]. simpl in *.
      injection Hd as <-. now apply andb_true_iff in Hw1 as [? _].
    + rewrite last_app_cons in Hd.
      destruct w2 as [|c2 w2]; [congruence|]. change (c :: c2 :: w2) with ([c] ++ c2 :: w2) in Hd.
      rewrite last_app_cons in Hd. apply last_Some in Hd as (l' & Hl').
      rewrite forallb_forall in Hw2. apply Hw2. rewrite Hl'.
      apply in_or_app. right. now left.
  - rewrite <- (app_nil_r w2) at 1.
    apply (two_words_of_start (w1 ++ c :: w2 ++ []) w1 c w2 []).
    repeat split; try assumption. discriminate.
Qed.

(** C10. [normalize_teacher] is idempotent, and its result is the first two
    single-whitespace-separated words of the stripped name when the
    stripped name starts with two such words, and the stripped name
    otherwise. *)
Theorem normalize_teacher_idempotent name :
  normalize_teacher isalnum (normalize_teacher isalnum name)
    = normalize_teacher isalnum name
  /\ (forall w1 c w2 rest,
        starts_with_two_words isalnum (strip name) w1 c w2 rest ->
        normalize_teacher isalnum name = w1 ++ c :: w2)
  /\ ((forall w1 c w2 rest,
         ~ starts_with_two_words isalnum (strip name) w1 c w2 rest) ->
      normalize_teacher isalnum name = strip name).
Proof.
  rewrite !normalize_teacher_eq.
  destruct (two_words isalnum (strip name)) as [r|] eqn:Htw; simpl.
  - destruct (two_words_fixpoint _ _ Htw) as [Hs Hr].
    rewrite Hs, Hr. split; [reflexivity|]. split.
    + intros w1 c w2 rest Hst. apply two_words_of_start in Hst. congruence.
    + intros Hno. apply two_words_Some in Htw as (w1 & c & w2 & rest & Hst & _).
      now destruct (Hno w1 c w2 rest).
  - rewrite strip_idempotent, Htw. split; [reflexivity|]. split.
    + intros w1 c w2 rest Hst. now destruct (two_words_None _ w1 c w2 rest Htw).
    + reflexivity.
Qed.

End NormalizeTeacherFacts.

Lemma ascii_isalnum_not_space c :
  Preprocessing.ascii_isalnum c = true -> Preprocessing.is_space c = false.
Proof.
  intros Hc. destruct (Preprocessing.is_space c) eqn:Hs; [|reflexivity]. exfalso.
  unfold Preprocessing.ascii_isalnum, Preprocessing.is_space,
    Preprocessing.in_range in *.
  reflect_ranges Hc. reflect_ranges Hs. lia.
Qed.

Example normalize_teacher_three_words :
  Preprocessing.normalize_teacher Preprocessing.ascii_isalnum
    (Preprocessing.of_ascii "  Honcharuk Denys (online) ")
  = Preprocessing.of_ascii "Honcharuk Denys".
Proof. reflexivity. Qed.

Example normalize_teacher_one_word :
  Preprocessing.normalize_teacher Preprocessing.ascii_isalnum
    (Preprocessing.of_ascii " Honcharuk  Denys")
  = Preprocessing.of_ascii "Honcharuk  Denys".
Proof. reflexivity. Qed.

Lemma normalize_teacher_idempotent_witness :
  (forall c, Preprocessing.ascii_isalnum c = true ->
             Preprocessing.is_space c = false)
  /\ let name := Preprocessing.of_ascii "  Honcharuk Denys (online) " in
     Preprocessing.normalize_teacher Preprocessing.ascii_isalnum
       (Preprocessing.normalize_teacher Preprocessing.ascii_isalnum name)
     = Preprocessing.normalize_teacher Preprocessing.ascii_isalnum name.
Proof.
  split.
  - exact ascii_isalnum_not_space.
  - exact (proj1 (normalize_teacher_idempotent Preprocessing.ascii_isalnum
                    ascii_isalnum_not_space
                    (Preprocessing.of_ascii "  Honcharuk Denys (online) "))).
Defined.

(** ** preprocessing.py: categorize_age *)

Lemma Qle_bool_false x y : Qle_bool x y = false -> (y < x)%Q.
Proof.
  intros H. apply Qnot_le_lt. intros Hle.
  apply Qle_bool_iff in Hle. congruence.
Qed.

Lemma Qeq_bool_false x y : Qeq_bool x y = false -> ~ (x == y)%Q.
Proof. intros H Heq. apply Qeq_bool_iff in Heq. congruence. Qed.

Ltac reflect_Q :=
  repeat match goal with
    | H : Qle_bool _ _ = true |- _ => apply Qle_bool_iff in H
    | H : Qle_bool _ _ = false |- _ => apply Qle_bool_false in H
    | H : Qeq_bool _ _ = true |- _ => apply Qeq_bool_iff in H
    | H : Qeq_bool _ _ = false |- _ => apply Qeq_bool_false in H
    end.

Section CategorizeAgeFacts.

Import Preprocessing.

(** The category that [pd.cut] gives to an age, bin by bin. *)
Lemma cut_age (a : Q) :
  (cut age_bins age_labels true (Some a) = Some "A"%string
     <-> (6 <= a <= 8)%Q)
  /\ (cut age_bins age_labels true (Some a) = Some "B"%string
     <-> (8 < a <= 10)%Q)
  /\ (cut age_bins age_labels true (Some a) = Some "C"%string
     <-> (10 < a <= 13)%Q)
  /\ (cut age_bins age_labels true (Some a) = Some "D"%string
     <-> (13 < a <= 17)%Q)
  /\ (cut age_bins age_labels true (Some a) = None
     <-> (a < 6 \/ 17 < a)%Q).
Proof.
  unfold cut, searchsorted_left, age_bins, age_labels. simpl.
  destruct (Qeq_bool a (6#1)) eqn:E0;
  destruct (Qle_bool a (6#1)) eqn:E1;
  destruct (Qle_bool a (8#1)) eqn:E2;
  destruct (Qle_bool a (10#1)) eqn:E3;
  destruct (Qle_bool a (13#1)) eqn:E4;
  destruct (Qle_bool a (17#1)) eqn:E5;
  simpl; reflect_Q;
  try (exfalso; lra);
  repeat split; intros; try discriminate; try lra.
Qed.

Context {Row : Type}.
Variable age_column : Row -> option Q.

Lemma categorize_row_null r :
  age_column r = None ->
  age_group (categorize_row age_column r) = None
  /\ out_of_range_age (categorize_row age_column r) = false.
Proof.
  intros Hr. unfold categorize_row. simpl. rewrite Hr. simpl.
  split; reflexivity.
Qed.

Lemma categorize_row_flag r :
  out_of_range_age (categorize_row age_column r) = true
  <-> age_group (categorize_row age_column r) = None /\ is_Some (age_column r).
Proof.
  unfold categorize_row. simpl.
  rewrite andb_true_iff, negb_true_iff, bool_decide_eq_false, bool_decide_eq_true.
  rewrite <- eq_None_not_Some. reflexivity.
Qed.

(** C9. Row by row, [categorize_age] keeps the input row, gives a non-null
    age the category A on [6,8], B on (8,10], C on (10,13], D on (13,17],
    gives an age outside [6,17] a null category with the flag set, and
    leaves a null age unflagged. *)
Theorem categorize_age_intervals (df : list Row) :
  Forall2
    (fun r out =>
       source_row out = r
       /\ match age_column r with
          | Some a =>
              (age_group out = Some "A"%string <-> (6 <= a <= 8)%Q)
              /\ (age_group out = Some "B"%string <-> (8 < a <= 10)%Q)
              /\ (age_group out = Some "C"%string <-> (10 < a <= 13)%Q)
              /\ (age_group out = Some "D"%string <-> (13 < a <= 17)%Q)
              /\ ((a < 6 \/ 17 < a)%Q ->
                  age_group out = None /\ out_of_range_age out = true)
              /\ ((6 <= a <= 17)%Q -> out_of_range_age out = false)
          | None => age_group out = None /\ out_of_range_age out = false
          end)
    df (fst (categorize_age age_column df)).
Proof.
  unfold categorize_age. simpl.
  induction df as [|r df IH]; simpl; constructor; [|exact IH].
  split; [reflexivity|].
  destruct (age_column r) as [a|] eqn:Ha; [|now apply categorize_row_null].
  destruct (cut_age a) as (HA & HB & HC & HD & HN).
  assert (Hg : age_group (categorize_row age_column r)
               = cut age_bins age_labels true (Some a)).
  { unfold categorize_row. simpl. now rewrite Ha. }
  rewrite Hg. do 4 (split; [assumption|]). split.
  - intros Hout. split; [now apply HN|].
    apply categorize_row_flag. rewrite Hg, Ha. split; [now apply HN | eauto].
  - intros Hin.
    destruct (out_of_range_age (categorize_row age_column r)) eqn:Hf;
      [|reflexivity].
    apply categorize_row_flag in Hf as [Hnone _]. rewrite Hg in Hnone.
    apply HN in Hnone. lra.
Qed.

End CategorizeAgeFacts.

Example categorize_age_sample :
  fst (Preprocessing.categorize_age (fun a : option Q => a)
         [Some (6#1); Some (8#1); Some (17#2); Some (17#1); Some (5#1);
          Some (18#1); None]%Q)
  = map (fun '(a, g, f) =>
           {| Preprocessing.source_row := a;
              Preprocessing.age_group := g;
              Preprocessing.out_of_range_age := f |})
      [(Some (6#1), Some "A", false); (Some (8#1), Some "A", false);
       (Some (17#2), Some "B", false); (Some (17#1), Some "D", false);
       (Some (5#1), None, true); (Some (18#1), None, true);
       (None, None, false)]%Q%string.
Proof. reflexivity. Qed.

(** ** Sorting and quantiles *)

Section QuantileFacts.

Import Numeric.

Lemma Qlt_bool_iff x y : Qlt_bool x y = true <-> (x < y)%Q.
Proof.
  unfold Qlt_bool. rewrite negb_true_iff. split.
  - apply Qle_bool_false.
  - intros Hlt. destruct (Qle_bool y x) eqn:E; [|reflexivity].
    apply Qle_bool_iff in E. lra.
Qed.

Lemma insert_sorted_length x l : length (insert_sorted x l) = S (length l).
Proof.
  induction l as [|y l IH]; simpl; [reflexivity|].
  destruct (Qle_bool x y); simpl; [reflexivity | now rewrite IH].
Qed.

Lemma sort_length l : length (sort l) = length l.
Proof.
  induction l as [|x l IH]; simpl; [reflexivity|].
  now rewrite insert_sorted_length, IH.
Qed.

Lemma insert_sorted_Forall (P : Q -> Prop) x l :
  P x -> Forall P l -> Forall P (insert_sorted x l).
Proof.
  intros Hx Hl. induction Hl as [|y l Hy Hl IH]; simpl.
  - now constructor.
  - destruct (Qle_bool x y); repeat constructor; assumption.
Qed.

Lemma insert_sorted_sorted x l :
  StronglySorted Qle l -> StronglySorted Qle (insert_sorted x l).
Proof.
  induction 1 as [|y l Hl IH Hy]; simpl.
  - repeat constructor.
  - destruct (Qle_bool x y) eqn:E.
    + apply Qle_bool_iff in E. constructor; [now constructor|].
      constructor; [assumption|].
      eapply Forall_impl; [exact Hy|]. intros z Hz. simpl in Hz. lra.
    + apply Qle_bool_false in E. constructor; [assumption|].
      apply insert_sorted_Forall; [lra | assumption].
Qed.

Lemma sort_sorted l : StronglySorted Qle (sort l).
Proof.
  induction l as [|x l IH]; simpl; [constructor|].
  now apply insert_sorted_sorted.
Qed.

Lemma sorted_nth xs i j :
  StronglySorted Qle xs -> (i <= j)%nat -> (j < length xs)%nat ->
  (nth i xs 0 <= nth j xs 0)%Q.
Proof.
  intros Hs. revert i j. induction Hs as [|x xs Hs IH Hx]; intros i j Hij Hj.
  - simpl in Hj. lia.
  - destruct i as [|i], j as [|j]; simpl in *; try lia.
    + lra.
    + rewrite Forall_forall in Hx. apply Hx. apply list_elem_of_In.
      apply nth_In. lia.
    + apply IH; lia.
Qed.

(** The quantile lies between the two values it interpolates, and it does
    not decrease when the level grows. *)
Lemma linear_quantile_mono xs p p' :
  StronglySorted Qle xs -> xs <> [] ->
  (0 <= p)%Q -> (p <= p')%Q -> (p' <= 1)%Q ->
  (linear_quantile xs p <= linear_quantile xs p')%Q.
Proof.
  intros Hs Hne H0 Hpp H1. unfold linear_quantile.
  assert (Hn : (0 < length xs)%nat) by (destruct xs; [congruence | simpl; lia]).
  set (n := length xs) in *.
  set (m := inject_Z (Z.of_nat n - 1)).
  assert (Hm : (0 <= m)%Q).
  { unfold m. change 0%Q with (inject_Z 0). rewrite <- Zle_Qle. lia. }
  set (pos := (m * p)%Q). set (pos' := (m * p')%Q).
  assert (Hpos : (0 <= pos)%Q) by (unfold pos; nra).
  assert (Hpos' : (pos <= pos')%Q) by (unfold pos, pos'; nra).
  assert (Hposm : (pos' <= m)%Q) by (unfold pos'; nra).
  pose proof (Qfloor_le pos) as Hf1. pose proof (Qlt_floor pos) as Hf2.
  pose proof (Qfloor_le pos') as Hf1'. pose proof (Qlt_floor pos') as Hf2'.
  assert (Hfl0 : (0 <= Qfloor pos)%Z).
  { change 0%Z with (Qfloor (inject_Z 0)). rewrite Qfloor_Z.
    rewrite <- (Qfloor_Z 0). apply Qfloor_resp_le. exact Hpos. }
  assert (Hfl : (Qfloor pos <= Qfloor pos')%Z) by now apply Qfloor_resp_le.
  assert (Hflm : (Qfloor pos' <= Z.of_nat n - 1)%Z).
  { rewrite <- (Qfloor_Z (Z.of_nat n - 1)). apply Qfloor_resp_le. exact Hposm. }
  rewrite inject_Z_plus in Hf2, Hf2'.
  change (inject_Z 1) with 1%Q in Hf2, Hf2'.
  set (f := Qfloor pos) in *. set (f' := Qfloor pos') in *.
  set (lo := Z.to_nat f). set (lo' := Z.to_nat f').
  assert (Hlo : (lo <= lo')%nat) by (unfold lo, lo'; lia).
  assert (Hlo' : (lo' < n)%nat) by (unfold lo'; lia).
  set (hi := Nat.min (lo + 1) (n - 1)). set (hi' := Nat.min (lo' + 1) (n - 1)).
  assert (Hab : (nth lo xs 0 <= nth hi xs 0)%Q)
    by (apply sorted_nth; [assumption | unfold hi; lia | fold n; unfold hi; lia]).
  assert (Hab' : (nth lo' xs 0 <= nth hi' xs 0)%Q)
    by (apply sorted_nth; [assumption | unfold hi'; lia | fold n; unfold hi'; lia]).
  destruct (decide (lo = lo')) as [Heq|Hneq].
  - assert (Hff : f = f') by (unfold lo, lo' in Heq; lia).
    unfold hi, hi'. rewrite <- Heq, <- Hff. fold hi.
    generalize dependent (nth lo xs 0%Q). generalize dependent (nth hi xs 0%Q).
    intros b a Hab.
    assert (0 <= (b - a) * (pos' - pos))%Q by (apply Qmult_le_0_compat; lra).
    lra.
  - assert (Hmid : (nth hi xs 0 <= nth lo' xs 0)%Q)
      by (apply sorted_nth; [assumption | unfold hi; lia | fold n; lia]).
    generalize dependent (nth lo xs 0%Q). generalize dependent (nth hi xs 0%Q).
    generalize dependent (nth lo' xs 0%Q). generalize dependent (nth hi' xs 0%Q).
    intros b' a' Hab' b Hmid a Hab.
    assert (0 <= (b - a) * (inject_Z f + 1 - pos))%Q
      by (apply Qmult_le_0_compat; lra).
    assert (0 <= (b' - a') * (pos' - inject_Z f'))%Q
      by (apply Qmult_le_0_compat; lra).
    lra.
Qed.

End QuantileFacts.

(** ** analytics.py: get_quartile_category_teachers_list *)

Section QuartileListsFacts.

Import Numeric Analytics.

Context {Row Name : Type}.
Variable name_col : Row -> Name.
Variable percent_col : Row -> option Q.

Local Abbreviation quartile := (quartile percent_col).

Lemma series_quantile_quartile df q :
  Qle_bool 0 q && Qle_bool q 1 = true ->
  series_quantile (map percent_col df) q = Ok (quartile df q).
Proof.
  intros Hq. unfold series_quantile, Analytics.quartile. rewrite Hq.
  now destruct (sort (dropna (map percent_col df))).
Qed.

Lemma quartile_lists_default df :
  get_quartile_category_teachers_list name_col percent_col df (1#4) (1#2) (3#4)
  = Ok {| best := names_where name_col (below_first_quartile percent_col df) df;
          interquartile := names_where name_col (within_quartiles percent_col df) df;
          bad := names_where name_col (above_third_quartile percent_col df) df |}.
Proof.
  unfold get_quartile_category_teachers_list, list_for_indicator.
  rewrite !series_quantile_quartile by reflexivity. reflexivity.
Qed.

(** With one measured row the quartiles exist and are in order. *)
Lemma quartiles_ordered df r x :
  In r df -> percent_col r = Some x ->
  exists q1 q3, quartile df (1#4) = Some q1 /\ quartile df (3#4) = Some q3
                /\ (q1 <= q3)%Q.
Proof.
  intros Hr Hx. unfold Analytics.quartile.
  pose proof (sort_sorted (dropna (map percent_col df))) as Hs.
  pose proof (sort_length (dropna (map percent_col df))) as Hl.
  assert (Hin : x ∈ dropna (map percent_col df)).
  { unfold dropna. apply list_elem_of_omap. exists (Some x). split; [|reflexivity].
    rewrite <- Hx. apply list_elem_of_fmap_2. now apply list_elem_of_In. }
  destruct (sort (dropna (map percent_col df))) as [|y ys] eqn:E.
  - destruct (dropna (map percent_col df)); [inversion Hin | discriminate].
  - eexists _, _. split; [reflexivity|]. split; [reflexivity|].
    apply linear_quantile_mono; [assumption | discriminate | | | ];
      unfold Qle; simpl; lia.
Qed.

Lemma measured_row_in_one_list df r :
  In r df -> is_Some (percent_col r) ->
  exactly_one (below_first_quartile percent_col df r)
              (within_quartiles percent_col df r)
              (above_third_quartile percent_col df r).
Proof.
  intros Hr [x Hx].
  destruct (quartiles_ordered df r x Hr Hx) as (q1 & q3 & H1 & H3 & Hle).
  unfold exactly_one, below_first_quartile, within_quartiles,
    above_third_quartile, nan_gt, nan_ge.
  rewrite H1, H3, Hx. simpl. unfold Qlt_bool.
  destruct (Qle_bool q1 x) eqn:E1; destruct (Qle_bool x q3) eqn:E2;
    destruct (Qle_bool q3 x) eqn:E3; destruct (Qle_bool x q1) eqn:E4;
    simpl; reflect_Q; try (exfalso; lra); tauto.
Qed.

Lemma unmeasured_row_in_no_list df r :
  percent_col r = None ->
  below_first_quartile percent_col df r = false
  /\ within_quartiles percent_col df r = false
  /\ above_third_quartile percent_col df r = false.
Proof.
  intros Hx. unfold below_first_quartile, within_quartiles,
    above_third_quartile, nan_gt, nan_ge, nan_lt, nan_le.
  rewrite Hx. repeat split; try reflexivity;
    now destruct (quartile df (1#4)), (quartile df (3#4)).
Qed.

(** Three tests of which exactly one holds on the rows that pass [keep],
    and none on the others, split the kept rows. *)
Lemma three_filters_split {A} (p1 p2 p3 keep : A -> bool) (l : list A) :
  (forall x, In x l -> keep x = true -> exactly_one (p1 x) (p2 x) (p3 x)) ->
  (forall x, In x l -> keep x = false ->
             p1 x = false /\ p2 x = false /\ p3 x = false) ->
  Permutation (List.filter p1 l ++ List.filter p2 l ++ List.filter p3 l)
              (List.filter keep l).
Proof.
  induction l as [|x l IH]; intros Hone Hnone; simpl; [constructor|].
  assert (IH' := IH (fun y Hy => Hone y (or_intror Hy))
                    (fun y Hy => Hnone y (or_intror Hy))).
  destruct (keep x) eqn:Hk.
  - destruct (Hone x (or_introl eq_refl) Hk)
      as [(-> & -> & ->)|[(-> & -> & ->)|(-> & -> & ->)]]; simpl.
    + now constructor.
    + rewrite <- Permutation_middle. now constructor.
    + rewrite app_assoc, <- Permutation_middle, <- app_assoc. now constructor.
  - destruct (Hnone x (or_introl eq_refl) Hk) as (-> & -> & ->). exact IH'.
Qed.


End QuartileListsFacts.


Example quartile_lists_sample :
  Analytics.get_quartile_category_teachers_list fst snd
    [("a"%string, Some (1#1)); ("b"%string, Some (2#1)); ("c"%string, Some (3#1));
     ("d"%string, Some (4#1)); ("e"%string, Some (5#1))]
    (1#4) (1#2) (3#4)
  = Ok {| Analytics.best := ["a"%string];
          Analytics.interquartile := ["b"; "c"; "d"]%string;
          Analytics.bad := ["e"%string] |}.
Proof. reflexivity. Qed.

(** ** visualization.py: plot_box_compare *)

Section PlotBoxCompareFacts.

Import Numeric Visualization.

Context {Row Name : Type}.
Variable value_column : Row -> option Q.
Variable teacher_column : Row -> Name.
Variable percentile_of_empty : result exception (option Q).

Local Abbreviation select := (select value_column teacher_column).
Local Abbreviation period_outliers :=
  (period_outliers value_column teacher_column percentile_of_empty).

(** Splitting the concatenated frame by label gives back the two frames
    when the labels differ. *)
Lemma subset_of_first_label (rows1 rows2 : list (option Q * Name)) l0 l1 :
  l0 <> l1 ->
  map fst (List.filter (fun row => String.eqb (snd row) l0)
             (map (fun vt => (vt, l0)) rows1 ++ map (fun vt => (vt, l1)) rows2))
  = rows1.
Proof.
  intros Hne. rewrite List.filter_app, map_app.
  assert (H1 : forall rows : list (option Q * Name),
             map fst (List.filter (fun row => String.eqb (snd row) l0)
                        (map (fun vt => (vt, l0)) rows)) = rows).
  { induction rows as [|r rows IH]; simpl; [reflexivity|].
    rewrite String.eqb_refl. simpl. now rewrite IH. }
  assert (H2 : forall rows : list (option Q * Name),
             List.filter (fun row => String.eqb (snd row) l0)
               (map (fun vt => (vt, l1)) rows) = []).
  { induction rows as [|r rows IH]; simpl; [reflexivity|].
    destruct (String.eqb_spec l1 l0); [congruence | exact IH]. }
  rewrite H1, H2. apply app_nil_r.
Qed.

Lemma subset_of_second_label (rows1 rows2 : list (option Q * Name)) l0 l1 :
  l0 <> l1 ->
  map fst (List.filter (fun row => String.eqb (snd row) l1)
             (map (fun vt => (vt, l0)) rows1 ++ map (fun vt => (vt, l1)) rows2))
  = rows2.
Proof.
  intros Hne. rewrite List.filter_app, map_app.
  assert (H1 : forall rows : list (option Q * Name),
             map fst (List.filter (fun row => String.eqb (snd row) l1)
                        (map (fun vt => (vt, l1)) rows)) = rows).
  { induction rows as [|r rows IH]; simpl; [reflexivity|].
    rewrite String.eqb_refl. simpl. now rewrite IH. }
  assert (H2 : forall rows : list (option Q * Name),
             List.filter (fun row => String.eqb (snd row) l1)
               (map (fun vt => (vt, l0)) rows) = []).
  { induction rows as [|r rows IH]; simpl; [reflexivity|].
    destruct (String.eqb_spec l0 l1); [congruence | exact IH]. }
  now rewrite H1, H2.
Qed.

Lemma plot_box_compare_two_labels df1 df2 l0 l1 :
  l0 <> l1 ->
  plot_box_compare value_column teacher_column percentile_of_empty
    df1 df2 [l0; l1]
  = (o1 ← period_outliers df1; o2 ← period_outliers df2; Ok (o1 ++ o2)).
Proof.
  intros Hne. unfold plot_box_compare, Visualization.period_outliers. simpl.
  rewrite subset_of_first_label by assumption.
  destruct (outliers_of_subset percentile_of_empty (select df1)) as [o1|e];
    simpl; [|reflexivity].
  rewrite subset_of_second_label by assumption.
  now destruct (outliers_of_subset percentile_of_empty (select df2)).
Qed.

Lemma dropna_all_measured (values : list (option Q)) :
  forallb (fun v => bool_decide (is_Some v)) values = true ->
  map Some (dropna values) = values.
Proof.
  induction values as [|[v|] values IH]; simpl; [reflexivity | | discriminate].
  intros H. unfold dropna in *. simpl. now rewrite IH.
Qed.

Lemma np_percentile_measured values p :
  values <> [] ->
  forallb (fun v => bool_decide (is_Some v)) values = true ->
  np_percentile percentile_of_empty values p
  = Ok (Some (linear_quantile (sort (dropna values)) (p / 100))).
Proof.
  intros Hne Hall. unfold np_percentile. rewrite Hall.
  destruct values; [congruence | reflexivity].
Qed.

Lemma np_percentile_nan values p :
  forallb (fun v => bool_decide (is_Some v)) values = false ->
  np_percentile percentile_of_empty values p = Ok None.
Proof.
  intros Hnan. unfold np_percentile. rewrite Hnan.
  destruct values; [discriminate Hnan | reflexivity].
Qed.

Lemma select_values df : map fst (select df) = map value_column df.
Proof. unfold Visualization.select. rewrite map_map. reflexivity. Qed.

Lemma forallb_map {A B} (f : A -> B) (p : B -> bool) l :
  forallb p (map f l) = forallb (fun x => p (f x)) l.
Proof. induction l as [|x l IH]; simpl; [reflexivity | now rewrite IH]. Qed.

(** On a period whose values are all numbers the loop body applies the
    boxplot rule with that period's own quartiles. *)
Lemma period_outliers_measured df :
  df <> [] ->
  forallb (fun r => bool_decide (is_Some (value_column r))) df = true ->
  period_outliers df
  = Ok (map teacher_column
          (List.filter
             (fun r => match value_column r with
                       | Some y =>
                           is_iqr_outlier (dropna (map value_column df)) y
                       | None => false
                       end) df)).
Proof.
  intros Hne Hall.
  unfold Visualization.period_outliers, outliers_of_subset.
  rewrite select_values.
  rewrite !np_percentile_measured;
    [ | now destruct df | now rewrite forallb_map
      | now destruct df | now rewrite forallb_map ].
  unfold mbind, result_bind. f_equal.
  unfold Visualization.select. rewrite filter_map_swap, map_map.
  f_equal. apply List.filter_ext. intros r.
  unfold is_iqr_outlier, nan_gt, nan_lt, nan_lift2, one_and_a_half. simpl.
  destruct (value_column r) as [y|]; reflexivity.
Qed.

(** A NaN among the values of a period makes both percentiles NaN, and no
    row of that period is reported. *)
Lemma period_outliers_nan df :
  forallb (fun r => bool_decide (is_Some (value_column r))) df = false ->
  period_outliers df = Ok [].
Proof.
  intros Hnan.
  unfold Visualization.period_outliers, outliers_of_subset.
  rewrite select_values.
  rewrite !np_percentile_nan by now rewrite forallb_map.
  unfold mbind, result_bind. f_equal.
  induction (select df) as [|[y t] rows IH]; simpl; [reflexivity|].
  unfold nan_gt. simpl. now destruct y.
Qed.


End PlotBoxCompareFacts.

Example period_outliers_sample :
  Visualization.period_outliers fst snd (Raise IndexError)
    [(Some (10#1), "a"); (Some (11#1), "b"); (Some (12#1), "c");
     (Some (13#1), "d"); (Some (40#1), "e")]%string
  = Ok ["e"%string].
Proof. reflexivity. Qed.



(** ** analytics.py: get_loss_dataframe *)

Section GroupFacts.

Import Analytics.

Lemma cmp_refl (s : string) : String_as_OT.cmp s s = Eq.
Proof. now apply String_as_OT.cmp_eq. Qed.

Lemma cmp_Gt (a b : string) :
  String_as_OT.cmp a b = Gt -> String_as_OT.lt b a.
Proof.
  intros H. apply String_as_OT.cmp_lt.
  rewrite String_as_OT.cmp_antisym, H. reflexivity.
Qed.

Lemma lt_neq (a b : string) : String_as_OT.lt a b -> a <> b.
Proof. intros H. now apply String_as_OT.lt_not_eq in H. Qed.

Lemma total_of_cons k t name groups :
  total_of name ((k, t) :: groups)
  = (if decide (k = name) then t else 0) + total_of name groups.
Proof.
  unfold total_of. simpl. destruct (decide (k = name)) as [->|Hne].
  - rewrite bool_decide_eq_true_2 by reflexivity. reflexivity.
  - rewrite bool_decide_eq_false_2 by assumption. reflexivity.
Qed.

Lemma total_of_add k name c groups :
  total_of k (add_to_group name c groups)
  = total_of k groups + (if decide (name = k) then c else 0).
Proof.
  induction groups as [|[k0 t0] rest IH]; simpl.
  - rewrite total_of_cons. unfold total_of. simpl. lia.
  - destruct (String_as_OT.cmp name k0) eqn:E.
    + apply String_as_OT.cmp_eq in E as ->. rewrite !total_of_cons.
      destruct (decide (k0 = k)); lia.
    + rewrite !total_of_cons. destruct (decide (name = k)); lia.
    + rewrite !total_of_cons, IH. lia.
Qed.

Lemma add_to_group_keys k name c groups :
  In k (map fst (add_to_group name c groups))
  <-> k = name \/ In k (map fst groups).
Proof.
  induction groups as [|[k0 t0] rest IH]; simpl.
  - intuition congruence.
  - destruct (String_as_OT.cmp name k0) eqn:E; simpl.
    + apply String_as_OT.cmp_eq in E as ->. intuition congruence.
    + intuition congruence.
    + rewrite IH. intuition congruence.
Qed.

Lemma add_to_group_sorted name c groups :
  keys_sorted groups -> keys_sorted (add_to_group name c groups).
Proof.
  unfold keys_sorted. induction groups as [|[k0 t0] rest IH]; simpl; intros Hs.
  - repeat constructor.
  - apply StronglySorted_inv in Hs as [Hrest Hk0].
    destruct (String_as_OT.cmp name k0) eqn:E; simpl.
    + constructor; assumption.
    + apply String_as_OT.cmp_lt in E. constructor.
      * constructor; assumption.
      * constructor; [assumption|].
        eapply Forall_impl; [exact Hk0|]. intros z Hz.
        now apply (String_as_OT.lt_trans name k0 z).
    + apply cmp_Gt in E. constructor; [now apply IH|].
      apply List.Forall_forall. intros z Hz.
      apply add_to_group_keys in Hz as [->|Hz]; [assumption|].
      rewrite List.Forall_forall in Hk0. now apply Hk0.
Qed.

Lemma total_of_absent name groups :
  ~ In name (map fst groups) -> total_of name groups = 0.
Proof.
  induction groups as [|[k t] rest IH]; simpl; intros Hn; [reflexivity|].
  rewrite total_of_cons. destruct (decide (k = name)); [tauto|].
  rewrite IH; tauto.
Qed.

(** With distinct keys a group's total is the value stored for its key. *)
Lemma total_of_member name t groups :
  keys_sorted groups -> In (name, t) groups -> total_of name groups = t.
Proof.
  unfold keys_sorted. induction groups as [|[k0 t0] rest IH]; simpl;
    intros Hs Hin; [contradiction|].
  apply StronglySorted_inv in Hs as [Hrest Hk0]. rewrite total_of_cons.
  rewrite List.Forall_forall in Hk0.
  destruct Hin as [[= -> ->]|Hin].
  - rewrite decide_True by reflexivity. rewrite total_of_absent; [lia|].
    intros Hk. apply Hk0 in Hk. now apply lt_neq in Hk.
  - rewrite decide_False.
    + now rewrite IH.
    + apply lt_neq, Hk0. apply in_map_iff. now exists (name, t).
Qed.

End GroupFacts.

Section LossDataframeFacts.

Import Numeric Analytics.

Context {Row : Type}.
Variable start_date_col : Row -> option Z.
Variable name_normalized_col : Row -> option string.
Variable count_col : Row -> Z.

Local Abbreviation groupby_sum := (groupby_sum name_normalized_col count_col).
Local Abbreviation in_period := (in_period start_date_col).
Local Abbreviation period_count :=
  (period_count start_date_col name_normalized_col count_col).

Local Abbreviation group_step := (group_step name_normalized_col count_col).
Local Abbreviation name_count := (name_count name_normalized_col count_col).

Lemma foldl_group_step_total k rows acc :
  total_of k (foldl group_step acc rows) = total_of k acc + name_count rows k.
Proof.
  revert acc. induction rows as [|r rows IH]; intros acc; simpl.
  - unfold name_count. simpl. lia.
  - rewrite IH. unfold Analytics.group_step, Analytics.name_count. simpl.
    destruct (name_normalized_col r) as [name|] eqn:Hn.
    + rewrite total_of_add. destruct (decide (name = k)) as [->|Hne].
      * rewrite bool_decide_eq_true_2 by reflexivity. simpl. lia.
      * rewrite bool_decide_eq_false_2 by congruence. lia.
    + rewrite bool_decide_eq_false_2 by discriminate. lia.
Qed.

Lemma foldl_group_step_sorted rows acc :
  keys_sorted acc -> keys_sorted (foldl group_step acc rows).
Proof.
  revert acc. induction rows as [|r rows IH]; intros acc Hs; simpl;
    [assumption|].
  apply IH. unfold Analytics.group_step. destruct (name_normalized_col r);
    [now apply add_to_group_sorted | assumption].
Qed.

Lemma foldl_group_step_keys k rows acc :
  In k (map fst (foldl group_step acc rows))
  <-> In k (map fst acc)
      \/ exists r, In r rows /\ name_normalized_col r = Some k.
Proof.
  revert acc. induction rows as [|r rows IH]; intros acc; simpl.
  - split; [tauto | intros [H|(r & [] & _)]; exact H].
  - rewrite IH. unfold Analytics.group_step at 1.
    destruct (name_normalized_col r) as [name|] eqn:Hn.
    + rewrite add_to_group_keys. split.
      * intros [[->|H]|(r' & Hr' & Hk)]; eauto.
      * intros [H|(r' & [<-|Hr'] & Hk)]; eauto.
        left. left. congruence.
    + split.
      * intros [H|(r' & Hr' & Hk)]; eauto.
      * intros [H|(r' & [<-|Hr'] & Hk)]; eauto. congruence.
Qed.

Lemma groupby_sum_count rows name c :
  In (name, c) (groupby_sum rows) -> c = name_count rows name.
Proof.
  intros Hin. unfold Analytics.groupby_sum in Hin.
  pose proof (foldl_group_step_total name rows []) as Ht.
  rewrite (total_of_member name c) in Ht;
    [ | apply foldl_group_step_sorted; constructor | exact Hin].
  unfold total_of in Ht at 1. simpl in Ht. lia.
Qed.

Lemma name_count_period dframe s f name :
  name_count (List.filter (in_period s f) dframe) name
  = period_count dframe s f name.
Proof.
  unfold Analytics.name_count, Analytics.period_count. do 2 f_equal.
  induction dframe as [|r rows IH]; simpl; [reflexivity|].
  destruct (in_period s f r); simpl; [|exact IH].
  destruct (bool_decide (name_normalized_col r = Some name)); simpl;
    now rewrite IH.
Qed.

End LossDataframeFacts.

Section LossDataframeTheorem.

Import Numeric Analytics.

Context {Row : Type}.
Variable start_date_col : Row -> option Z.
Variable name_normalized_col : Row -> option string.
Variable count_col : Row -> Z.
Variable read_csv : string -> result exception groups_frame.

Local Abbreviation in_period := (in_period start_date_col).
Local Abbreviation period_count :=
  (period_count start_date_col name_normalized_col count_col).

Lemma merge_left_row_In groups s name c students per_group :
  In (name, c, students, per_group) (merge_left_row groups s) ->
  name = fst s /\ c = snd s /\ from_groups_file groups name students per_group.
Proof.
  unfold merge_left_row.
  destruct (List.filter _ groups) as [|g0 matches] eqn:Hf.
  - intros [[= <- <- <- <-]|[]]. repeat split. right. repeat split.
    intros g Hg Hname.
    assert (Hin : In g (List.filter
                          (fun g => bool_decide (g_name_normalized g = Some s.1))
                          groups)).
    { apply filter_In. split; [assumption | now apply bool_decide_eq_true]. }
    rewrite Hf in Hin. destruct Hin.
  - rewrite <- Hf. intros Hin. apply in_map_iff in Hin as (g & [= <- <- <- <-] & Hg).
    apply filter_In in Hg as [Hg Hname]. apply bool_decide_eq_true in Hname.
    repeat split. left. exists g. auto.
Qed.

Lemma merge_left_row_nonempty groups s :
  exists students per_group,
    In (fst s, snd s, students, per_group) (merge_left_row groups s).
Proof.
  unfold merge_left_row.
  destruct (List.filter _ groups) as [|g0 matches].
  - exists NaN, NaN. now left.
  - eexists _, _. left. reflexivity.
Qed.


End LossDataframeTheorem.

Example get_loss_dataframe_sample :
  match
    Analytics.get_loss_dataframe
      (fun r : option Z * option string * Z => fst (fst r))
      (fun r => snd (fst r)) snd
      Analytics.sample_read_csv
      Analytics.sample_dframe 0 50 "groups.csv" "stats.csv"
  with
  | Ok (stats, _) =>
      map (fun r => (Analytics.name_normalized r, Analytics.count r,
                     Analytics.percent_of_loss_for_one_group r)) stats
  | Raise _ => []
  end
  = [("Chaus Svitlozar"%string, 2, Numeric.Fin (inject_Z 1250 / 100));
     ("Popruha Oleh"%string, 1, Numeric.NaN)].
Proof. reflexivity. Qed.


(** ** data_io.py: load_data and save_data *)

Section DataIOFacts.

Import DataIO.

Variable parse_field : string -> option string.
Variable read_ragged : csv_line -> csv_file -> result exception DataFrame.

Local Abbreviation read_csv := (read_csv parse_field read_ragged).

Lemma load_data_cases (fs : file_system) (file_path : string) :
  DataIO.load_data parse_field read_ragged fs file_path
  = match read_csv fs file_path with
    | Ok df => ([InfoLoaded file_path (length (rows df))], Ok df)
    | Raise e => ([ErrorLoading file_path e], Raise e)
    end.
Proof.
  unfold DataIO.load_data, try_except, io_bind, io_lift, io_log, io_ret,
    io_raise.
  destruct (read_csv fs file_path); reflexivity.
Qed.

(** C7. [load_data] (in both modules) returns the frame that the read
    gives, with one info line, and when the read raises it logs one error
    line and raises the same exception; it never returns a frame then. *)
Theorem load_data_logs_and_reraises (fs : file_system) (file_path : string) :
  DataIO.load_data parse_field read_ragged fs file_path
  = match read_csv fs file_path with
    | Ok df => ([InfoLoaded file_path (length (rows df))], Ok df)
    | Raise e => ([ErrorLoading file_path e], Raise e)
    end
  /\ DataPreparation.load_data parse_field read_ragged fs file_path
     = DataIO.load_data parse_field read_ragged fs file_path.
Proof.
  split; [apply load_data_cases | reflexivity].
Qed.

Lemma filter_keeps_all {A} (p : A -> bool) (l : list A) :
  Forall (fun x => p x = true) l -> List.filter p l = l.
Proof.
  induction 1 as [|x l Hx Hl IH]; simpl; [reflexivity|].
  now rewrite Hx, IH.
Qed.

Lemma parse_csv_to_csv df :
  rectangular df -> no_blank_line df ->
  parse_csv parse_field read_ragged (to_csv df)
  = Ok {| columns := columns df;
          rows := map (map parse_field) (map (map write_cell) (rows df)) |}.
Proof.
  intros Hrect Hnb. unfold parse_csv. rewrite filter_keeps_all.
  - unfold to_csv.
    replace (forallb _ _) with true; [reflexivity|].
    symmetry. apply forallb_forall. intros line Hl.
    apply in_map_iff in Hl as (row & <- & Hrow).
    unfold rectangular in Hrect. rewrite List.Forall_forall in Hrect.
    rewrite length_map. apply Nat.eqb_eq. now apply Hrect.
  - eapply Forall_impl; [exact Hnb|]. intros line Hl. simpl in Hl.
    now rewrite Hl.
Qed.

(** A frame with two columns or more never writes a blank line. *)
Lemma no_blank_line_wide df :
  rectangular df -> (2 <= length (columns df))%nat -> no_blank_line df.
Proof.
  intros Hrect Hwide. unfold no_blank_line, to_csv. constructor.
  - destruct (columns df) as [|c1 [|c2 cs]]; simpl in *; [lia | lia | reflexivity].
  - apply List.Forall_forall. intros line Hl.
    apply in_map_iff in Hl as (row & <- & Hrow).
    unfold rectangular in Hrect. rewrite List.Forall_forall in Hrect.
    specialize (Hrect row Hrow).
    destruct row as [|c1 [|c2 cs]]; simpl in *; [lia | lia | reflexivity].
Qed.


End DataIOFacts.

Example load_data_missing_file :
  DataIO.load_data DataIO.sample_parse_field DataIO.sample_read_ragged
    ∅ "data/General_Gone_Clients_Report.csv"
  = ([DataIO.ErrorLoading "data/General_Gone_Clients_Report.csv"
        (FileNotFoundError "data/General_Gone_Clients_Report.csv")],
     Raise (FileNotFoundError "data/General_Gone_Clients_Report.csv")).
Proof. reflexivity. Qed.

Example load_data_malformed_file :
  DataIO.load_data DataIO.sample_parse_field DataIO.sample_read_ragged
    {[ "report.csv"%string := [["a"; "b"]; ["1"; "2"; "3"]]%string ]}
    "report.csv"
  = ([DataIO.ErrorLoading "report.csv" ParserError], Raise ParserError).
Proof. reflexivity. Qed.



(** ** DBLostClients.py: unite_tables *)

Section UniteTablesFacts.

Import DBLostClients.

Lemma col_teacher_not_group : col_teacher <> col_group.
Proof. discriminate. Qed.

Lemma at_col_insert_teacher (r : gmap string cell) t col :
  col <> col_teacher -> at_col (<[col_teacher := t]> r) col = at_col r col.
Proof.
  intros Hne. unfold at_col. rewrite lookup_insert_ne; [reflexivity|congruence].
Qed.

Lemma at_col_teacher_insert (r : gmap string cell) t :
  at_col (<[col_teacher := t]> r) col_teacher = t.
Proof. unfold at_col. now rewrite lookup_insert_eq. Qed.

Lemma foldl_set_teacher_where items rs :
  foldl (fun rs item => set_teacher_where (fst item) (snd item) rs) rs items
  = map (fun r => foldl fix_row r items) rs.
Proof.
  revert rs. induction items as [|item items IH]; intros rs; simpl.
  - now rewrite map_id.
  - rewrite IH. unfold set_teacher_where. rewrite map_map. reflexivity.
Qed.

Lemma manual_fix_snoc items item group :
  manual_fix (items ++ [item]) group
  = if py_eq group (fst item) then Some (snd item) else manual_fix items group.
Proof.
  unfold manual_fix. rewrite List.filter_app. simpl.
  destruct (py_eq group (fst item)).
  - now rewrite last_snoc.
  - now rewrite app_nil_r.
Qed.

Lemma foldl_fix_row items r :
  foldl fix_row r items
  = match manual_fix items (at_col r col_group) with
    | Some teacher => <[col_teacher := teacher]> r
    | None => r
    end
  /\ at_col (foldl fix_row r items) col_group = at_col r col_group.
Proof.
  induction items as [|item items [IHv IHg]] using rev_ind; [split; reflexivity|].
  rewrite foldl_app. simpl. rewrite manual_fix_snoc.
  unfold fix_row at 1 3. rewrite IHg.
  destruct (py_eq (at_col r col_group) (fst item)).
  - split.
    + rewrite IHv. destruct (manual_fix items (at_col r col_group));
        [apply insert_insert_eq | reflexivity].
    + rewrite at_col_insert_teacher; [exact IHg | apply not_eq_sym, col_teacher_not_group].
  - split; assumption.
Qed.

Lemma merge_teacher_group tu row r :
  In r (merge_teacher tu row) -> at_col r col_group = at_col row col_group.
Proof.
  unfold merge_teacher.
  destruct (List.filter _ tu) as [|rec matches].
  - intros [<-|[]]. apply at_col_insert_teacher, not_eq_sym, col_teacher_not_group.
  - intros Hin. apply in_map_iff in Hin as (rec' & <- & _).
    apply at_col_insert_teacher, not_eq_sym, col_teacher_not_group.
Qed.

Lemma merge_teacher_keeps_columns tu row r col :
  In r (merge_teacher tu row) -> col <> col_teacher -> r !! col = row !! col.
Proof.
  unfold merge_teacher. intros Hin Hne.
  destruct (List.filter _ tu) as [|rec matches].
  - destruct Hin as [<-|[]]. apply lookup_insert_ne. congruence.
  - apply in_map_iff in Hin as (rec' & <- & _). apply lookup_insert_ne. congruence.
Qed.

Lemma filter_map_flat_map {A B} (p : B -> bool) (f : B -> B) (g : A -> list B) l :
  List.filter p (map f (flat_map g l))
  = flat_map (fun x => List.filter p (map f (g x))) l.
Proof.
  induction l as [|x l IH]; simpl; [reflexivity|].
  now rewrite map_app, List.filter_app, IH.
Qed.

Lemma elem_of_drop_duplicates {A} `{EqDecision A} (l : list A) x :
  x ∈ drop_duplicates l <-> x ∈ l.
Proof.
  unfold drop_duplicates.
  assert (H : forall kept,
             x ∈ foldl (fun kept x => if decide (x ∈ kept) then kept
                                      else kept ++ [x]) kept l
             <-> x ∈ kept \/ x ∈ l).
  { induction l as [|y l IH]; intros kept; simpl.
    - rewrite elem_of_nil. tauto.
    - rewrite IH, elem_of_cons. destruct (decide (y ∈ kept)) as [Hy|Hy].
      + split; [tauto|]. intros [H|[->|H]]; tauto.
      + rewrite elem_of_app, list_elem_of_singleton. tauto. }
  rewrite H, elem_of_nil. tauto.
Qed.

(** The rows that one row of [df_main] gives: each has a teacher, each
    keeps the cells of the row in every other column, and there is none
    when the group has neither a record nor a manual fix. *)
Lemma united_rows_have_teacher tu mt row :
  Forall (fun r => notna (at_col r col_teacher) = true
                   /\ forall col, col <> col_teacher -> r !! col = row !! col)
    (united_rows tu mt row).
Proof.
  apply List.Forall_forall. intros r Hr. unfold united_rows in Hr.
  apply filter_In in Hr as [Hr Hna]. split; [exact Hna|].
  intros col Hne. apply in_map_iff in Hr as (r0 & <- & Hr0).
  pose proof (merge_teacher_keeps_columns tu row r0 col Hr0 Hne) as Hk.
  destruct (manual_fix mt (at_col row col_group)); [|exact Hk].
  rewrite lookup_insert_ne; [exact Hk | congruence].
Qed.

Lemma united_rows_unmatched tu mt row :
  (forall rec, rec ∈ tu -> nth 0 rec Null <> at_col row col_group) ->
  Forall (fun item => fst item <> at_col row col_group) mt ->
  united_rows tu mt row = [].
Proof.
  intros Hrec Hfix. unfold united_rows.
  assert (Hm : merge_teacher tu row = [<[col_teacher := Null]> row]).
  { unfold merge_teacher.
    destruct (List.filter _ tu) as [|rec matches] eqn:Hf; [reflexivity|].
    assert (Hin : In rec (List.filter
              (fun rec => bool_decide (nth 0 rec Null = at_col row col_group)) tu))
      by (rewrite Hf; now left).
    apply filter_In in Hin as [Hin Heq]. apply bool_decide_eq_true in Heq.
    apply list_elem_of_In in Hin. now destruct (Hrec rec Hin). }
  assert (Hn : manual_fix mt (at_col row col_group) = None).
  { unfold manual_fix. replace (List.filter _ mt) with (@nil (cell * cell));
      [reflexivity|].
    symmetry. induction Hfix as [|item mt Hitem Hfix IH]; simpl; [reflexivity|].
    unfold py_eq at 1. rewrite (bool_decide_eq_false_2 _ (not_eq_sym Hitem)).
    rewrite andb_false_r. exact IH. }
  rewrite Hm, Hn. simpl. now rewrite at_col_teacher_insert.
Qed.

Lemma unite_tables_rows df_main df_teachers mt save_path merged log :
  unite_tables df_main df_teachers mt save_path = Ok (merged, log) ->
  exists selected,
    select_columns (rename_column col_group_id col_group df_teachers)
      [col_group; col_teacher] = Ok selected
    /\ rows merged
       = flat_map (united_rows (drop_duplicates selected) mt) (rows df_main).
Proof.
  unfold unite_tables. intros H.
  destruct (select_columns _ _) as [selected|e]; simpl in H; [|discriminate].
  exists selected. split; [reflexivity|].
  destruct (negb (bool_decide (col_group ∈ columns df_main)));
    [discriminate|].
  injection H as <- _. simpl.
  rewrite foldl_set_teacher_where, filter_map_flat_map.
  apply flat_map_ext. intros row. unfold united_rows. f_equal.
  apply map_ext_in. intros r Hr.
  destruct (foldl_fix_row mt r) as [-> _].
  now rewrite (merge_teacher_group _ _ _ Hr).
Qed.


End UniteTablesFacts.

Example unite_tables_sample :
  DBLostClients.unite_tables DBLostClients.sample_attended
    DBLostClients.sample_extended DBLostClients.sample_missing_teachers None
  = Ok ({| DBLostClients.columns :=
             [DBLostClients.col_student; DBLostClients.col_group;
              DBLostClients.col_teacher];
           DBLostClients.rows :=
             [ {[ DBLostClients.col_student := DBLostClients.Str "Ivan";
                  DBLostClients.col_group := DBLostClients.Str "G1";
                  DBLostClients.col_teacher := DBLostClients.Str "Chaus" ]};
               {[ DBLostClients.col_student := DBLostClients.Str "Olha";
                  DBLostClients.col_group := DBLostClients.Str "G2";
                  DBLostClients.col_teacher := DBLostClients.Str "Bondar" ]} ] |},
        []).
Proof. vm_compute. reflexivity. Qed.


(** ** DBLostClients.py: create and insert_df_to_table *)

Section DatabaseFacts.

Import DBLostClients.

(** *** Row ids *)

Lemma foldr_max_ge i l : i <= foldr Z.max i l.
Proof. induction l as [|x l IH]; simpl; lia. Qed.

Lemma foldr_max_In i l x : In x l -> x <= foldr Z.max i l.
Proof.
  induction l as [|y l IH]; simpl; [contradiction|].
  intros [->|Hx]; [lia|]. specialize (IH Hx). lia.
Qed.

Lemma next_rowid_above rs r : In r rs -> row_id r < next_rowid rs.
Proof.
  unfold next_rowid. intros Hr. apply (in_map row_id) in Hr.
  destruct (map row_id rs) as [|i others]; [contradiction|].
  destruct Hr as [Hr|Hr].
  - pose proof (foldr_max_ge i others). lia.
  - pose proof (foldr_max_In i others _ Hr). lia.
Qed.

Lemma insert_by_rowid_last new rs :
  (forall r, In r rs -> row_id r < row_id new) ->
  insert_by_rowid new rs = rs ++ [new].
Proof.
  induction rs as [|r rs IH]; simpl; intros Hlt; [reflexivity|].
  destruct (Z.ltb_spec (row_id new) (row_id r)) as [H|H].
  - specialize (Hlt r (or_introl eq_refl)). lia.
  - rewrite IH; [reflexivity|]. intros r' Hr'. apply Hlt. now right.
Qed.

Lemma insert_by_rowid_In new rs r :
  In r (insert_by_rowid new rs) <-> r = new \/ In r rs.
Proof.
  induction rs as [|r0 rs IH]; simpl; [intuition|].
  destruct (row_id new <? row_id r0); simpl; [intuition|].
  rewrite IH. intuition.
Qed.

Lemma row_id_with_id (given : sql_row) i : row_id (<["id" := VInt i]> given) = i.
Proof. unfold row_id, field. now rewrite lookup_insert_eq. Qed.

(** *** One INSERT that names no id, into a table without foreign keys *)

Lemma field_of_absent_column cols vals col :
  col ∉ cols -> field (list_to_map (zip cols vals) : sql_row) col = VNull.
Proof.
  intros Hc. unfold field. rewrite (not_elem_of_list_to_map_1 _ col); [reflexivity|].
  intros Hin. apply Hc. apply list_elem_of_fmap in Hin as ([c v] & -> & Hin).
  apply list_elem_of_In in Hin. apply in_combine_l in Hin.
  now apply list_elem_of_In.
Qed.

Lemma sql_insert_appends fk db name t cols vals :
  db !! name = Some t ->
  t_foreign_keys t = [] ->
  "id"%string ∉ cols ->
  forallb (fun c => bool_decide (c ∈ t_columns t)) cols = true ->
  exists new,
    sql_insert fk db name cols vals
    = Ok (<[name := {| t_columns := t_columns t;
                       t_foreign_keys := t_foreign_keys t;
                       t_rows := t_rows t ++ [new] |}]> db).
Proof.
  intros Ht Hfk Hid Hcols. unfold sql_insert. rewrite Ht, Hcols. simpl.
  rewrite (field_of_absent_column cols vals "id" Hid). simpl.
  rewrite Hfk. simpl. rewrite andb_false_r.
  eexists. rewrite insert_by_rowid_last; [reflexivity|].
  intros r Hr. rewrite row_id_with_id. now apply next_rowid_above.
Qed.

Lemma insert_all_appends db name t cols rs :
  db !! name = Some t ->
  t_foreign_keys t = [] ->
  "id"%string ∉ cols ->
  forallb (fun c => bool_decide (c ∈ t_columns t)) cols = true ->
  exists added,
    insert_all db name cols rs
    = Ok (<[name := {| t_columns := t_columns t;
                       t_foreign_keys := t_foreign_keys t;
                       t_rows := t_rows t ++ added |}]> db)
    /\ length added = length rs.
Proof.
  revert db t. induction rs as [|row rs IH]; intros db t Ht Hfk Hid Hcols; simpl.
  - exists []. rewrite app_nil_r. split; [|reflexivity].
    f_equal. symmetry. apply insert_id. rewrite Ht. now destruct t.
  - destruct (sql_insert_appends true db name t cols (map bind_param row)
                Ht Hfk Hid Hcols) as (new & ->). simpl.
    set (t' := {| t_columns := t_columns t;
                  t_foreign_keys := t_foreign_keys t;
                  t_rows := t_rows t ++ [new] |}).
    destruct (IH (<[name := t']> db) t') as (added & -> & Hlen);
      [apply lookup_insert_eq | exact Hfk | exact Hid | exact Hcols |].
    simpl. exists (new :: added). split; [|simpl; now rewrite Hlen].
    rewrite insert_insert_eq, <- app_assoc. reflexivity.
Qed.

Lemma insert_df_to_table_appends df mapping name db t selected :
  db !! name = Some t ->
  t_foreign_keys t = [] ->
  "id"%string ∉ map snd mapping ->
  forallb (fun c => bool_decide (c ∈ t_columns t)) (map snd mapping) = true ->
  select_columns df (map fst mapping) = Ok selected ->
  exists added,
    insert_df_to_table df mapping name db
    = Ok (<[name := {| t_columns := t_columns t;
                       t_foreign_keys := t_foreign_keys t;
                       t_rows := t_rows t ++ added |}]> db,
          [TableFilled name])
    /\ length added = length (drop_duplicates selected).
Proof.
  intros Ht Hfk Hid Hcols Hsel. unfold insert_df_to_table. rewrite Hsel. simpl.
  destruct (insert_all_appends db name t (map snd mapping)
              (drop_duplicates selected) Ht Hfk Hid Hcols) as (added & -> & Hlen).
  simpl. now exists added.
Qed.

(** *** create *)

Lemma create_table_existing name cols fks db :
  is_Some (db !! name) -> create_table_if_not_exists name cols fks db = db.
Proof. intros [t Ht]. unfold create_table_if_not_exists. now rewrite Ht. Qed.

Lemma create_table_lookup name cols fks db :
  is_Some (create_table_if_not_exists name cols fks db !! name).
Proof.
  unfold create_table_if_not_exists. destruct (db !! name) eqn:E.
  - rewrite E. eauto.
  - rewrite lookup_insert_eq. eauto.
Qed.

Lemma create_table_keeps name cols fks db other :
  is_Some (db !! other) ->
  is_Some (create_table_if_not_exists name cols fks db !! other).
Proof.
  intros Ho. unfold create_table_if_not_exists. destruct (db !! name) eqn:E;
    [exact Ho|].
  destruct (decide (name = other)) as [->|Hne];
    [rewrite lookup_insert_eq; eauto | now rewrite lookup_insert_ne].
Qed.

Lemma create_table_rows name cols fks db other :
  table_rows (create_table_if_not_exists name cols fks db) other
  = table_rows db other.
Proof.
  unfold create_table_if_not_exists, table_rows. destruct (db !! name) eqn:E;
    [reflexivity|].
  destruct (decide (name = other)) as [->|Hne].
  - now rewrite lookup_insert_eq, E.
  - now rewrite lookup_insert_ne.
Qed.

Lemma create_has_tables db : has_tables (create db).
Proof.
  unfold create, has_tables.
  repeat split;
    repeat first [apply create_table_lookup | apply create_table_keeps].
Qed.

Lemma create_on_tables db : has_tables db -> create db = db.
Proof.
  intros (Hs & Ht & Hg & Hc). unfold create.
  rewrite (create_table_existing "students") by assumption.
  rewrite (create_table_existing "teachers") by assumption.
  rewrite (create_table_existing "groups") by assumption.
  now rewrite (create_table_existing "gone_clients_content") by assumption.
Qed.

Lemma create_idempotent db : create (create db) = create db.
Proof. apply create_on_tables, create_has_tables. Qed.

(** [create] neither drops nor empties anything. *)
Lemma create_keeps_rows db name : table_rows (create db) name = table_rows db name.
Proof. unfold create. now rewrite !create_table_rows. Qed.

End DatabaseFacts.

Section BuildFacts.

Import DBLostClients.

Lemma reference_schema_has_tables db : reference_schema db -> has_tables db.
Proof.
  intros ((rs & Hs) & (rt & Ht) & (rg & Hg) & Hc). unfold has_tables.
  rewrite Hs, Ht, Hg. eauto.
Qed.

Lemma create_reference_schema_empty : reference_schema (create ∅).
Proof.
  unfold reference_schema. repeat split; eauto.
Qed.

Lemma insert_df_to_table_raises df mapping name db e :
  select_columns df (map fst mapping) = Raise e ->
  insert_df_to_table df mapping name db = Raise e.
Proof. intros H. unfold insert_df_to_table. now rewrite H. Qed.

Lemma table_rows_insert_eq (db : database) name t :
  table_rows (<[name := t]> db) name = t_rows t.
Proof. unfold table_rows. now rewrite lookup_insert_eq. Qed.

Lemma table_rows_insert_ne (db : database) name other t :
  name <> other -> table_rows (<[name := t]> db) other = table_rows db other.
Proof. intros Hne. unfold table_rows. now rewrite lookup_insert_ne. Qed.

Lemma table_rows_empty name : table_rows ∅ name = [].
Proof. unfold table_rows. now rewrite lookup_empty. Qed.

Lemma table_rows_lookup (db : database) name t :
  db !! name = Some t -> table_rows db name = t_rows t.
Proof. intros H. unfold table_rows. now rewrite H. Qed.

(** One build over a database that has the tables: the call fails on a
    missing label, and otherwise appends to each reference table the
    de-duplicated rows of its frame. *)
Lemma build_over_schema df1 df2 db :
  reference_schema db ->
  match select_columns df1 (map fst students_mapping),
        select_columns df2 (map fst teachers_mapping),
        select_columns df1 (map fst groups_mapping) with
  | Ok s, Ok t, Ok g =>
      exists db',
        build_reference_tables df1 df2 db
        = Ok (db', [TableFilled "students"; TableFilled "teachers";
                    TableFilled "groups"])
        /\ reference_schema db'
        /\ appended db db' "students" (length (drop_duplicates s))
        /\ appended db db' "teachers" (length (drop_duplicates t))
        /\ appended db db' "groups" (length (drop_duplicates g))
        /\ db' !! "gone_clients_content" = db !! "gone_clients_content"
  | _, _, _ => exists e, build_reference_tables df1 df2 db = Raise e
  end.
Proof.
  intros Hschema. pose proof (reference_schema_has_tables db Hschema) as Htab.
  destruct Hschema as ((rs & Hs) & (rt & Ht) & (rg & Hg) & Hc).
  unfold build_reference_tables. rewrite (create_on_tables db Htab).
  destruct (select_columns df1 (map fst students_mapping)) as [s|e] eqn:Es.
  2:{ exists e. now rewrite (insert_df_to_table_raises _ _ _ _ _ Es). }
  destruct (select_columns df2 (map fst teachers_mapping)) as [t|et] eqn:Et;
    destruct (select_columns df1 (map fst groups_mapping)) as [g|eg] eqn:Eg;
    cbv iota;
    (destruct (insert_df_to_table_appends df1 students_mapping "students" db _ s
                 Hs eq_refl) as (added_s & -> & Hls);
     [ apply (bool_decide_unpack _); vm_compute; exact I | reflexivity
     | exact Es | ]);
    simpl; set (db_s := <["students" := _]> db);
    try (exists et; now rewrite (insert_df_to_table_raises _ _ _ _ _ Et)).
  all: assert (Ht' : db_s !! "teachers" = Some _)
    by (unfold db_s; rewrite lookup_insert_ne by discriminate; exact Ht).
  all: destruct (insert_df_to_table_appends df2 teachers_mapping "teachers" db_s
                   _ t Ht' eq_refl) as (added_t & -> & Hlt);
    [ apply (bool_decide_unpack _); vm_compute; exact I | reflexivity
    | exact Et | ].
  all: simpl; set (db_t := <["teachers" := _]> db_s).
  2:{ exists eg. now rewrite (insert_df_to_table_raises _ _ _ _ _ Eg). }
  assert (Hg' : db_t !! "groups" = db !! "groups")
    by (unfold db_t, db_s; now rewrite !lookup_insert_ne by discriminate).
  rewrite Hg in Hg'.
  destruct (insert_df_to_table_appends df1 groups_mapping "groups" db_t _ g
              Hg' eq_refl) as (added_g & -> & Hlg);
    [ apply (bool_decide_unpack _); vm_compute; exact I | reflexivity | exact Eg | ].
  simpl. eexists. split; [reflexivity|]. unfold db_t, db_s. split.
  { unfold reference_schema.
    rewrite lookup_insert_ne, lookup_insert_ne, lookup_insert_eq by discriminate.
    rewrite lookup_insert_ne, lookup_insert_eq by discriminate.
    rewrite lookup_insert_eq. rewrite !lookup_insert_ne by discriminate.
    simpl. eauto 10. }
  unfold appended.
  repeat split.
  - exists added_s. split; [|exact Hls].
    rewrite !table_rows_insert_ne by discriminate.
    now rewrite table_rows_insert_eq, (table_rows_lookup _ _ _ Hs).
  - exists added_t. split; [|exact Hlt].
    rewrite table_rows_insert_ne by discriminate.
    rewrite table_rows_insert_eq. simpl.
    now rewrite (table_rows_lookup _ _ _ Ht).
  - exists added_g. split; [|exact Hlg].
    rewrite table_rows_insert_eq. simpl.
    now rewrite (table_rows_lookup _ _ _ Hg).
  - now rewrite !lookup_insert_ne by discriminate.
Qed.


End BuildFacts.



(** ** DBLostClients.py: insert_into_gone_clients_content *)

Section GoneClientsFacts.

Import DBLostClients.

Variable int_of_text : string -> option Z.

Local Abbreviation dict := (option (gmap string (gmap cell cell))).

Lemma select_id_same_table db db' name col v :
  db' !! name = db !! name ->
  select_id db' name col v = select_id db name col v.
Proof. intros H. unfold select_id. now rewrite H. Qed.

Lemma resolve_ids_same_references (mv : dict) db db' row :
  same_references db db' -> resolve_ids mv db' row = resolve_ids mv db row.
Proof.
  intros H. unfold resolve_ids.
  rewrite !(select_id_same_table db db') by (apply H; discriminate).
  reflexivity.
Qed.

(** A successful lookup returns the id of a row of the table. *)
Lemma select_id_existing db name col v i :
  select_id db name col v = Ok (Some i) -> id_in db name i.
Proof.
  unfold select_id, id_in, table_rows. destruct (db !! name) as [t|]; [|discriminate].
  destruct (_ && _); [|discriminate]. intros [= H].
  destruct (List.filter _ (t_rows t)) as [|r rs] eqn:Hf; [discriminate|].
  simpl in H. injection H as <-. exists r. split; [|reflexivity].
  assert (Hin : In r (List.filter (fun r => sql_eq (field r col) v) (t_rows t)))
    by (rewrite Hf; now left).
  apply filter_In in Hin as [Hin _]. now apply list_elem_of_In.
Qed.

Lemma resolve_ids_existing (mv : dict) db row s t g :
  resolve_ids mv db row = Ok (inr (s, t, g)) ->
  id_in db "students" s /\ id_in db "teachers" t /\ id_in db "groups" g.
Proof.
  unfold resolve_ids. intros H.
  destruct (select_id db "students" _ _) as [[sid|]|] eqn:Es;
    simpl in H; try discriminate.
  destruct (select_id db "teachers" _ _) as [[tid|]|] eqn:Et;
    simpl in H; try discriminate.
  destruct (select_id db "groups" _ _) as [[gid|]|] eqn:Eg;
    simpl in H; try discriminate.
  injection H as <- <- <-.
  repeat split; eapply select_id_existing; eassumption.
Qed.

(** *** The INSERT of one fact *)

Lemma insert_by_rowid_length new rs :
  length (insert_by_rowid new rs) = S (length rs).
Proof.
  induction rs as [|r rs IH]; simpl; [reflexivity|].
  destruct (row_id new <? row_id r); simpl; [reflexivity | now rewrite IH].
Qed.

Lemma sql_insert_shape fk db name cols vals db' :
  sql_insert fk db name cols vals = Ok db' ->
  exists t id,
    db !! name = Some t
    /\ db' = <[name :=
                {| t_columns := t_columns t;
                   t_foreign_keys := t_foreign_keys t;
                   t_rows := insert_by_rowid
                               (<["id" := VInt id]>
                                  (list_to_map (zip cols vals) : sql_row))
                               (t_rows t) |}]> db.
Proof.
  unfold sql_insert. destruct (db !! name) as [t|]; [|discriminate].
  destruct (negb _); [discriminate|].
  match goal with
  | |- context [mbind _ ?m] => destruct m as [id|e]
  end; simpl; [|discriminate].
  destruct (_ && _); [discriminate|]. intros [= <-]. eauto.
Qed.

Lemma sql_insert_fact fk db s t g att reason db' :
  sql_insert fk db facts_table fact_columns [s; t; g; att; reason] = Ok db' ->
  same_references db db'
  /\ exists fact,
       field fact "student_id" = s /\ field fact "teacher_id" = t
       /\ field fact "group_id" = g
       /\ (forall f, In f (table_rows db' facts_table)
                     <-> f = fact \/ In f (table_rows db facts_table))
       /\ length (table_rows db' facts_table)
          = S (length (table_rows db facts_table)).
Proof.
  intros H. apply sql_insert_shape in H as (tb & id & Etb & ->). split.
  - intros name Hne. apply lookup_insert_ne. congruence.
  - eexists. unfold table_rows. rewrite lookup_insert_eq, Etb. simpl.
    split; [|split; [|split; [|split;
      [intros f; apply insert_by_rowid_In | apply insert_by_rowid_length]]]];
      reflexivity.
Qed.

(** *** The loop *)

Lemma insert_rows_invariant fk (mv : dict) rs : forall db0 db log,
  same_references db0 db ->
  let out := insert_rows int_of_text fk mv rs db log in
  same_references db0 (out_db out)
  /\ (forall f, In f (table_rows (out_db out) facts_table) ->
                In f (table_rows db facts_table)
                \/ exists row, In row rs /\ fact_of_row mv db0 row f)
  /\ (out_raised out = None ->
      out_log out = log ++ omap (warning_of mv db0) rs ++ [FactsAdded]
      /\ length (table_rows (out_db out) facts_table)
         = (length (table_rows db facts_table)
            + length (List.filter (resolved mv db0) rs))%nat).
Proof.
  induction rs as [|row rs IH]; intros db0 db log Hsame; simpl.
  - split; [exact Hsame|]. split; [auto|]. intros _. split; [reflexivity | lia].
  - unfold process_row, warning_of, resolved.
    rewrite (resolve_ids_same_references mv db0 db row Hsame).
    destruct (py_int _ _) as [att|e]; simpl.
    2:{ split; [exact Hsame|]. split; [auto | discriminate]. }
    destruct (resolve_ids mv db0 row) as [[w|[[s t] g]]|e] eqn:Eres; simpl.
    3:{ split; [exact Hsame|]. split; [auto | discriminate]. }
    + destruct (IH db0 db (log ++ [w]) Hsame) as (Hs & Hf & Hl).
      split; [exact Hs|]. split.
      * intros f Hin. destruct (Hf f Hin) as [?|(r & Hr & Hfr)]; eauto.
      * intros Hnone. destruct (Hl Hnone) as [-> ->].
        split; [now rewrite <- app_assoc | reflexivity].
    + destruct (sql_insert fk db _ _ _) as [db'|e] eqn:Eins; simpl.
      2:{ split; [exact Hsame|]. split; [auto | discriminate]. }
      apply sql_insert_fact in Eins
        as (Hsame' & fact & Hfs & Hft & Hfg & Hmem & Hlen).
      assert (Hsame'' : same_references db0 db').
      { intros name Hne. rewrite (Hsame' name Hne). now apply Hsame. }
      destruct (IH db0 db' log Hsame'') as (Hs & Hf & Hl).
      split; [exact Hs|]. split.
      * intros f Hin. destruct (Hf f Hin) as [Hold|(r & Hr & Hfr)]; [|eauto].
        apply Hmem in Hold as [->|Hold]; [|now left].
        right. exists row. split; [now left|].
        unfold fact_of_row. now rewrite Eres, Hfs, Hft, Hfg.
      * intros Hnone. destruct (Hl Hnone) as [-> ->].
        split; [reflexivity|]. rewrite Hlen. simpl.
        rewrite Nat.add_succ_r. reflexivity.
Qed.

Lemma same_references_refl db : same_references db db.
Proof. now intros name _. Qed.

Lemma id_in_same_references db db' name v :
  same_references db db' -> name <> facts_table ->
  id_in db name v -> id_in db' name v.
Proof.
  intros Hsame Hne. unfold id_in, table_rows. now rewrite (Hsame name Hne).
Qed.

(** C1. The function leaves the three reference tables as they are; every
    row that it adds to [gone_clients_content] comes from a row of the
    frame whose three lookups each found a row, and carries the ids they
    returned, which are ids of rows of [students], [teachers] and
    [groups]; a row one of whose lookups finds nothing is skipped with its
    warning and the loop goes on with the next row, so that a run that
    returns has printed one warning per such row and added one fact per
    other row. *)
Theorem inserted_facts_reference_existing_rows (df : DataFrame) (fk : bool)
    (db : database) (mv : dict) :
  let out := insert_into_gone_clients_content int_of_text df fk db mv in
  (forall name, name <> facts_table -> out_db out !! name = db !! name)
  /\ (forall fact,
        In fact (table_rows (out_db out) facts_table) ->
        In fact (table_rows db facts_table)
        \/ ((exists row, In row (rows df) /\ fact_of_row mv db row fact)
            /\ references_existing (out_db out) fact))
  /\ (forall row rest db' log warning attendance,
        py_int int_of_text (default (Int 0) (row !! col_attendance))
          = Ok attendance ->
        resolve_ids mv db' row = Ok (inl warning) ->
        insert_rows int_of_text fk mv (row :: rest) db' log
        = insert_rows int_of_text fk mv rest db' (log ++ [warning]))
  /\ (out_raised out = None ->
      out_log out = omap (warning_of mv db) (rows df) ++ [FactsAdded]
      /\ length (table_rows (out_db out) facts_table)
         = (length (table_rows db facts_table)
            + length (List.filter (resolved mv db) (rows df)))%nat).
Proof.
  intros out.
  destruct (insert_rows_invariant fk mv (rows df) db db []
              (same_references_refl db)) as (Hsame & Hfacts & Hdone).
  fold (insert_into_gone_clients_content int_of_text df fk db mv) in Hsame,
    Hfacts, Hdone. fold out in Hsame, Hfacts, Hdone.
  split; [exact Hsame|]. split; [|split; [|exact Hdone]].
  - intros fact Hin. destruct (Hfacts fact Hin) as [Hold|(row & Hrow & Hf)];
      [now left|].
    right. split; [now exists row|].
    apply resolve_ids_existing in Hf as (Hs & Ht & Hg).
    repeat split;
      (eapply id_in_same_references; [exact Hsame | discriminate | eassumption]).
  - intros row rest db' log warning attendance Hint Hres. simpl.
    unfold process_row. now rewrite Hint, Hres.
Qed.

End GoneClientsFacts.

(** A run on the database of the example files: the unknown student is
    reported and skipped, the known one gets a fact with the ids of the
    three tables. *)
Example insert_into_gone_clients_content_sample :
  match DBLostClients.build_reference_tables DBLostClients.sample_df1
          DBLostClients.sample_df2 ∅ with
  | Ok (db, _) =>
      let out :=
        DBLostClients.insert_into_gone_clients_content
          DBLostClients.sample_int_of_text DBLostClients.sample_merged
          false db None in
      (DBLostClients.out_log out,
       map (fun f => (DBLostClients.field f "id",
                      DBLostClients.field f "student_id",
                      DBLostClients.field f "teacher_id",
                      DBLostClients.field f "group_id",
                      DBLostClients.field f "attendance_number"))
         (DBLostClients.table_rows (DBLostClients.out_db out)
            DBLostClients.facts_table),
       DBLostClients.out_raised out)
  | Raise _ => ([], [], None)
  end
  = ([DBLostClients.StudentNotFound (DBLostClients.Str "Olha");
      DBLostClients.FactsAdded],
     [(DBLostClients.VInt 1, DBLostClients.VInt 1, DBLostClients.VInt 1,
       DBLostClients.VInt 1, DBLostClients.VInt 12)],
     None).
Proof. vm_compute. reflexivity. Qed.

(** A missing attendance count stops the run at [int(...)], before any
    lookup: nothing is printed and nothing is added. *)
Example insert_into_gone_clients_content_missing_count :
  match DBLostClients.build_reference_tables DBLostClients.sample_df1
          DBLostClients.sample_df2 ∅ with
  | Ok (db, _) =>
      let out :=
        DBLostClients.insert_into_gone_clients_content
          DBLostClients.sample_int_of_text
          DBLostClients.sample_merged_without_count false db None in
      (DBLostClients.out_log out,
       DBLostClients.table_rows (DBLostClients.out_db out)
         DBLostClients.facts_table,
       DBLostClients.out_raised out)
  | Raise _ => ([], [], None)
  end
  = ([], [], Some ValueError).
Proof. vm_compute. reflexivity. Qed.

(** * Part III: further properties of the code *)

(** ** preprocessing.py and the name steps of main.py *)

Section TeacherNameFacts.

Import Preprocessing.

Variable isalnum : N -> bool.
Hypothesis isalnum_not_space : forall c, isalnum c = true -> is_space c = false.

Lemma normalize_teacher_stripped name :
  strip (normalize_teacher isalnum name) = normalize_teacher isalnum name.
Proof.
  rewrite (normalize_teacher_eq isalnum isalnum_not_space).
  destruct (two_words isalnum (strip name)) as [r|] eqn:Htw; simpl.
  - now destruct (two_words_fixpoint isalnum isalnum_not_space _ _ Htw).
  - apply strip_idempotent.
Qed.

Lemma normalize_teacher_of_stripped name :
  normalize_teacher isalnum (strip name) = normalize_teacher isalnum name.
Proof. unfold normalize_teacher. now rewrite strip_idempotent. Qed.

(** X1. The result of [normalize_teacher] has no whitespace at either end
    (stripping it again changes nothing) and is a prefix of the stripped
    input: the function only ever cuts a tail off. *)
Theorem normalize_teacher_is_stripped_prefix name :
  strip (normalize_teacher isalnum name) = normalize_teacher isalnum name
  /\ (forall c, head (normalize_teacher isalnum name) = Some c ->
                is_space c = false)
  /\ (forall c, last (normalize_teacher isalnum name) = Some c ->
                is_space c = false)
  /\ exists tail, strip name = normalize_teacher isalnum name ++ tail.
Proof.
  split; [apply normalize_teacher_stripped|].
  split; [intros c; rewrite <- normalize_teacher_stripped; apply strip_head|].
  split; [intros c; rewrite <- normalize_teacher_stripped; apply strip_last|].
  rewrite (normalize_teacher_eq isalnum isalnum_not_space).
  destruct (two_words isalnum (strip name)) as [r|] eqn:Htw; simpl.
  - apply (two_words_Some isalnum) in Htw
      as (w1 & c & w2 & rest & (Hs & _) & ->).
    exists rest. rewrite Hs. now rewrite <- app_assoc.
  - exists []. now rewrite app_nil_r.
Qed.

(** X2. In the script the name that ends in [name_normalized] is the entry
    of [name_map] for the normalized teacher name, or that name itself: the
    [.str.strip()] before [normalize_teacher] and the [.strip()] inside
    [map_teacher_names] change nothing. *)
Theorem name_normalized_of_normalized (names : gmap text text) teacher_name :
  MainScript.name_normalized_of isalnum names teacher_name
  = default (normalize_teacher isalnum teacher_name)
      (names !! normalize_teacher isalnum teacher_name).
Proof.
  unfold MainScript.name_normalized_of, mapped_name.
  now rewrite normalize_teacher_of_stripped, normalize_teacher_stripped.
Qed.

End TeacherNameFacts.

Section MapTeacherNamesFacts.

Import Preprocessing.

Context {Row : Type}.
Variable teacher_normalized : Row -> text.

Lemma mapped_name_again (names : gmap text text) x :
  (forall k v, names !! k = Some v -> strip v = v /\ names !! v = None) ->
  mapped_name names (mapped_name names x) = mapped_name names x.
Proof.
  intros Hvals. unfold mapped_name.
  destruct (names !! strip x) as [v|] eqn:Hx; simpl.
  - destruct (Hvals _ _ Hx) as [-> ->]. reflexivity.
  - now rewrite strip_idempotent, Hx.
Qed.

(** X3. [map_teacher_names] keeps the rows and their order, gives a name
    that is not a key of the dict (after stripping) its stripped self, and
    gives a key its entry; when every entry of the dict is stripped and is
    not itself a key, mapping the mapped names again changes nothing. *)
Theorem map_teacher_names_stable (names : gmap text text) (df : list Row) :
  (forall k v, names !! k = Some v -> strip v = v /\ names !! v = None) ->
  map fst (map_teacher_names teacher_normalized names df) = df
  /\ Forall (fun rn =>
               match names !! strip (teacher_normalized (fst rn)) with
               | Some v => snd rn = v
               | None => snd rn = strip (teacher_normalized (fst rn))
               end)
       (map_teacher_names teacher_normalized names df)
  /\ map snd (map_teacher_names snd names
                (map_teacher_names teacher_normalized names df))
     = map snd (map_teacher_names teacher_normalized names df).
Proof.
  intros Hvals. unfold map_teacher_names. split; [|split].
  - rewrite map_map. simpl. apply map_id.
  - apply List.Forall_forall. intros rn Hin.
    apply in_map_iff in Hin as (r & <- & _). simpl. unfold mapped_name.
    now destruct (names !! strip (teacher_normalized r)).
  - rewrite !map_map. simpl. apply map_ext. intros r.
    now apply mapped_name_again.
Qed.

End MapTeacherNamesFacts.

Lemma name_map_entries_are_final k v :
  MainScript.name_map !! k = Some v ->
  Preprocessing.strip v = v /\ MainScript.name_map !! v = None.
Proof.
  unfold MainScript.name_map. intros Hk.
  apply elem_of_list_to_map_2 in Hk.
  repeat (apply elem_of_cons in Hk as [[= -> ->]|Hk];
          [split; vm_compute; reflexivity|]).
  now apply elem_of_nil in Hk.
Qed.

Example name_map_lookup :
  MainScript.name_normalized_of Preprocessing.ascii_isalnum MainScript.name_map
    (Preprocessing.of_utf8 "  Клименко 250 (онлайн) ")
  = Preprocessing.of_utf8 "Клименко Владислав".
Proof. vm_compute. reflexivity. Qed.

Lemma normalize_teacher_is_stripped_prefix_witness :
  (forall c, Preprocessing.ascii_isalnum c = true ->
             Preprocessing.is_space c = false)
  /\ Preprocessing.strip
       (Preprocessing.normalize_teacher Preprocessing.ascii_isalnum
          (Preprocessing.of_ascii "  Honcharuk Denys (online) "))
     = Preprocessing.normalize_teacher Preprocessing.ascii_isalnum
         (Preprocessing.of_ascii "  Honcharuk Denys (online) ").
Proof.
  split; [exact ascii_isalnum_not_space|].
  exact (proj1 (normalize_teacher_is_stripped_prefix
                  Preprocessing.ascii_isalnum ascii_isalnum_not_space
                  (Preprocessing.of_ascii "  Honcharuk Denys (online) "))).
Defined.

Lemma name_normalized_of_normalized_witness :
  (forall c, Preprocessing.ascii_isalnum c = true ->
             Preprocessing.is_space c = false)
  /\ MainScript.name_normalized_of Preprocessing.ascii_isalnum
       MainScript.name_map (Preprocessing.of_utf8 " Клименко 250 ")
     = default
         (Preprocessing.normalize_teacher Preprocessing.ascii_isalnum
            (Preprocessing.of_utf8 " Клименко 250 "))
         (MainScript.name_map
            !! Preprocessing.normalize_teacher Preprocessing.ascii_isalnum
                 (Preprocessing.of_utf8 " Клименко 250 ")).
Proof.
  split; [exact ascii_isalnum_not_space|].
  exact (name_normalized_of_normalized Preprocessing.ascii_isalnum
           ascii_isalnum_not_space MainScript.name_map
           (Preprocessing.of_utf8 " Клименко 250 ")).
Defined.

Lemma map_teacher_names_stable_witness :
  (forall k v, MainScript.name_map !! k = Some v ->
               Preprocessing.strip v = v /\ MainScript.name_map !! v = None)
  /\ map snd (Preprocessing.map_teacher_names snd MainScript.name_map
                (Preprocessing.map_teacher_names (fun x : list N => x)
                   MainScript.name_map
                   [Preprocessing.of_utf8 "Олег Попруга";
                    Preprocessing.of_utf8 " Чаус Світлозар "]))
     = map snd (Preprocessing.map_teacher_names (fun x : list N => x)
                  MainScript.name_map
                  [Preprocessing.of_utf8 "Олег Попруга";
                   Preprocessing.of_utf8 " Чаус Світлозар "]).
Proof.
  split; [exact name_map_entries_are_final|].
  exact (proj2 (proj2 (map_teacher_names_stable (fun x : list N => x)
                         MainScript.name_map _ name_map_entries_are_final))).
Defined.

(** ** preprocessing.py and data_preparation.py: dates and ages *)

Lemma length_filter_map {A B} (f : A -> B) (p : B -> bool) (l : list A) :
  length (List.filter p (map f l))
  = length (List.filter (fun x => p (f x)) l).
Proof.
  induction l as [|x l IH]; simpl; [reflexivity|].
  destruct (p (f x)); simpl; now rewrite IH.
Qed.

Lemma length_filter_positive {A} (p : A -> bool) (l : list A) :
  (0 <? length (List.filter p l))%nat = existsb p l.
Proof.
  induction l as [|x l IH]; simpl; [reflexivity|].
  destruct (p x); simpl; [reflexivity | exact IH].
Qed.

Lemma existsb_map {A B} (f : A -> B) (p : B -> bool) (l : list A) :
  existsb p (map f l) = existsb (fun x => p (f x)) l.
Proof. induction l as [|x l IH]; simpl; [reflexivity | now rewrite IH]. Qed.

Lemma existsb_pointwise {A} (p q : A -> bool) (l : list A) :
  (forall x, p x = q x) -> existsb p l = existsb q l.
Proof.
  intros H. induction l as [|x l IH]; simpl; [reflexivity | now rewrite H, IH].
Qed.

Section PreprocessDatesFacts.

Import Preprocessing.

Context {Row Raw : Type}.
Variable column : Row -> option Raw.
Variable parse : Raw -> option Z.

Local Abbreviation unreadable := (unreadable column parse).

Lemma preprocess_row_invalid r :
  dated_invalid (preprocess_row column parse r) = unreadable r.
Proof.
  unfold preprocess_row, Preprocessing.unreadable, to_datetime_coerce. simpl.
  destruct (column r) as [v|]; simpl; [|reflexivity].
  rewrite andb_true_r. reflexivity.
Qed.

(** X4. [preprocess_dates] of preprocessing.py converts every value, flags
    exactly the rows whose value is present and unreadable (a missing value
    is not flagged), and logs one warning with the number of flagged rows,
    or nothing when there is none.  The copy in data_preparation.py
    converts the same way but warns as soon as the converted column has a
    NaT, so also for a value that was missing from the start. *)
Theorem preprocess_dates_flags_unreadable (df : list Row) :
  fst (preprocess_dates column parse df)
  = map (fun r => {| dated_source := r;
                     dated_value := to_datetime_coerce parse (column r);
                     dated_invalid := unreadable r |}) df
  /\ snd (preprocess_dates column parse df)
     = (if existsb unreadable df
        then [WarnInvalidDates (length (List.filter unreadable df))]
        else [])
  /\ map snd (fst (DataPreparation.preprocess_dates column parse df))
     = map dated_value (fst (preprocess_dates column parse df))
  /\ snd (DataPreparation.preprocess_dates column parse df)
     = (if existsb (fun r => unreadable r
                             || negb (bool_decide (is_Some (column r)))) df
        then [DataPreparation.WarnInvalidValues] else []).
Proof.
  unfold preprocess_dates, DataPreparation.preprocess_dates. simpl.
  split; [|split; [|split]].
  - apply map_ext. intros r.
    pose proof (preprocess_row_invalid r) as Hr.
    unfold preprocess_row in *. simpl in *. now rewrite Hr.
  - rewrite length_filter_map.
    rewrite (List.filter_ext _ unreadable) by apply preprocess_row_invalid.
    now rewrite length_filter_positive.
  - rewrite !map_map. reflexivity.
  - rewrite existsb_map.
    rewrite (existsb_pointwise _
               (fun r => unreadable r || negb (bool_decide (is_Some (column r)))));
      [reflexivity|]. intros r. simpl.
    unfold Preprocessing.unreadable, to_datetime_coerce.
    destruct (column r) as [v|]; simpl; [now rewrite orb_false_r|reflexivity].
Qed.

End PreprocessDatesFacts.

Example preprocess_dates_missing_value :
  snd (Preprocessing.preprocess_dates (fun c : option Z => c) Some
         [Some 5; None])
  = []
  /\ snd (DataPreparation.preprocess_dates (fun c : option Z => c) Some
            [Some 5; None])
     = [DataPreparation.WarnInvalidValues].
Proof. split; reflexivity. Qed.

Section CategorizeAgeWarning.

Import Preprocessing.

Context {Row : Type}.
Variable age_column : Row -> option Q.

Local Abbreviation outside_bins := (outside_bins age_column).

Lemma categorize_row_outside r :
  out_of_range_age (categorize_row age_column r) = outside_bins r.
Proof.
  unfold Preprocessing.outside_bins. destruct (age_column r) as [a|] eqn:Ha.
  - destruct (cut_age a) as (_ & _ & _ & _ & HN).
    destruct (out_of_range_age (categorize_row age_column r)) eqn:Hf.
    + apply categorize_row_flag in Hf as [Hnone _].
      unfold categorize_row in Hnone. simpl in Hnone. rewrite Ha in Hnone.
      apply HN in Hnone. symmetry. apply orb_true_iff.
      change (negb (Qle_bool (6#1) a)) with (Numeric.Qlt_bool a (6#1)).
      change (negb (Qle_bool a (17#1))) with (Numeric.Qlt_bool (17#1) a).
      rewrite !Qlt_bool_iff. exact Hnone.
    + symmetry. apply not_true_is_false. intros Hout.
      apply orb_true_iff in Hout.
      change (negb (Qle_bool (6#1) a)) with (Numeric.Qlt_bool a (6#1)) in Hout.
      change (negb (Qle_bool a (17#1))) with (Numeric.Qlt_bool (17#1) a) in Hout.
      rewrite !Qlt_bool_iff in Hout.
      apply HN in Hout.
      assert (Hflag : out_of_range_age (categorize_row age_column r) = true).
      { apply categorize_row_flag. unfold categorize_row. simpl.
        rewrite Ha. split; [exact Hout | eauto]. }
      congruence.
  - now destruct (categorize_row_null age_column r Ha) as [_ ->].
Qed.

(** X5. [categorize_age] returns one row per input row and logs a single
    warning carrying the number of rows whose age is present and outside
    [6, 17]; it logs nothing when there is no such row. *)
Theorem categorize_age_warning (df : list Row) :
  length (fst (categorize_age age_column df)) = length df
  /\ snd (categorize_age age_column df)
     = (if existsb outside_bins df
        then [WarnOutOfRangeAge (length (List.filter outside_bins df))]
        else []).
Proof.
  unfold categorize_age. simpl. split; [apply length_map|].
  rewrite length_filter_map.
  rewrite (List.filter_ext _ outside_bins) by apply categorize_row_outside.
  now rewrite length_filter_positive.
Qed.

End CategorizeAgeWarning.

Example categorize_age_warning_sample :
  snd (Preprocessing.categorize_age (fun a : option Q => a)
         [Some (7#1); Some (5#1); None; Some (35#2)]%Q)
  = [Preprocessing.WarnOutOfRangeAge 2].
Proof. reflexivity. Qed.

(** ** data_preparation.py: prices and losses *)

Lemma filter_keeps_none {A} (p : A -> bool) (l : list A) :
  Forall (fun x => p x = false) l -> List.filter p l = [].
Proof.
  induction 1 as [|x l Hx Hl IH]; simpl; [reflexivity|]. now rewrite Hx.
Qed.

Section CostsFacts.

Import DataPreparation.

Context {Row : Type}.
Variable city : Row -> option string.
Variable start_date : Row -> option Z.

Local Abbreviation get_costs_and_salaries :=
  (get_costs_and_salaries city start_date).

Example days_of_the_period_bounds :
  days_from_civil 1970 1 1 = 0
  /\ days_from_civil 2022 1 1 = 18993
  /\ days_from_civil 2023 7 31 = 19569
  /\ days_from_civil 2023 8 1 = 19570
  /\ days_from_civil 2024 8 31 = 19966.
Proof. repeat split. Qed.

(** X6. For a row whose city has a row in [costs_df] and whose start date
    falls on day [day] (counted from 1970-01-01) at [time] nanoseconds
    after midnight, the prices are those of 2022 from 2022-01-01 up to
    midnight of 2023-07-31, those of 2023 from 2023-08-01 up to midnight of
    2024-08-31, and missing otherwise: the last day of each period counts
    at midnight only. *)
Theorem get_costs_and_salaries_periods (row : Row) (costs_df : list cost_row)
    (first : cost_row) (day time : Z) :
  head (List.filter (fun c => same_city c (city row)) costs_df) = Some first ->
  start_date row = Some (day * nanoseconds_per_day + time) ->
  0 <= time < nanoseconds_per_day ->
  get_costs_and_salaries row costs_df
  = if (18993 <=? day) && ((day <? 19569) || ((day =? 19569) && (time =? 0)))
    then (cost_2022 first, salary_2022 first)
    else if (19570 <=? day)
            && ((day <? 19966) || ((day =? 19966) && (time =? 0)))
    then (cost_2023 first, salary_2023 first)
    else (None, None).
Proof.
  intros Hfirst Hdate Htime. unfold DataPreparation.get_costs_and_salaries.
  rewrite Hdate.
  destruct (List.filter _ costs_df) as [|c cs]; [discriminate|].
  injection Hfirst as ->.
  unfold PERIODS, first_period, timestamp.
  change (days_from_civil 2022 1 1) with 18993.
  change (days_from_civil 2023 7 31) with 19569.
  change (days_from_civil 2023 8 1) with 19570.
  change (days_from_civil 2024 8 31) with 19966.
  unfold nanoseconds_per_day in *.
  repeat first
    [ match goal with
      | |- context [(?x <=? ?y)] => destruct (Z.leb_spec x y)
      end
    | match goal with
      | |- context [(?x <? ?y)] => destruct (Z.ltb_spec x y)
      end
    | match goal with
      | |- context [(?x =? ?y)] => destruct (Z.eqb_spec x y)
      end ];
    simpl; try reflexivity; exfalso; lia.
Qed.

(** X7. A row gets no prices when its date is missing, when its city is
    missing, or when no row of [costs_df] has its city; otherwise only the
    first row of [costs_df] with that city is read, whatever follows it. *)
Theorem get_costs_and_salaries_city (row : Row) (costs_df : list cost_row) :
  (start_date row = None ->
   get_costs_and_salaries row costs_df = (None, None))
  /\ (city row = None ->
      get_costs_and_salaries row costs_df = (None, None))
  /\ (Forall (fun c => cost_city c <> city row) costs_df ->
      get_costs_and_salaries row costs_df = (None, None))
  /\ (forall before first after,
        costs_df = before ++ first :: after ->
        Forall (fun c => same_city c (city row) = false) before ->
        same_city first (city row) = true ->
        get_costs_and_salaries row costs_df
        = get_costs_and_salaries row [first]).
Proof.
  unfold DataPreparation.get_costs_and_salaries. split; [|split; [|split]].
  - intros ->. now destruct (List.filter _ costs_df).
  - intros Hc. rewrite filter_keeps_none; [reflexivity|].
    apply List.Forall_forall. intros c _. unfold same_city. rewrite Hc.
    now destruct (cost_city c).
  - intros Hall. rewrite filter_keeps_none; [reflexivity|].
    eapply Forall_impl; [exact Hall|]. intros c Hc. simpl in Hc.
    unfold same_city.
    destruct (cost_city c) as [a|], (city row) as [b|]; try reflexivity.
    destruct (String.eqb_spec a b) as [->|]; [congruence | reflexivity].
  - intros before first after -> Hbefore Hfirst.
    rewrite List.filter_app. simpl. rewrite Hfirst.
    now rewrite (filter_keeps_none _ before Hbefore).
Qed.

End CostsFacts.

Section FeaturesFacts.

Import DataPreparation.

(** X8. [add_features]: each loss is missing exactly when one of its two
    inputs is; with all inputs present the teacher's loss is
    [salary * (40 - attended)] and the school's is
    [cost * 9 / 40 * (40 - attended)], so both are zero at 40 lessons, not
    negative for a non-negative price and at most 40 lessons, negative for
    a positive price and more than 40 lessons, and never larger for a
    student who attended more. *)
Theorem add_features_losses (salary cost attended : Q) :
  (forall s c a,
     (is_Some (fst (add_features s c a)) <-> is_Some s /\ is_Some a)
     /\ (is_Some (snd (add_features s c a)) <-> is_Some c /\ is_Some a))
  /\ (exists teacher_lost school_lost,
        add_features (Some salary) (Some cost) (Some attended)
        = (Some teacher_lost, Some school_lost)
        /\ (teacher_lost == salary * (40 - attended))%Q
        /\ (school_lost == cost * 9 / 40 * (40 - attended))%Q
        /\ ((attended == 40)%Q -> (teacher_lost == 0 /\ school_lost == 0)%Q)
        /\ ((0 <= salary)%Q -> (attended <= 40)%Q -> (0 <= teacher_lost)%Q)
        /\ ((0 <= cost)%Q -> (attended <= 40)%Q -> (0 <= school_lost)%Q)
        /\ ((0 < salary)%Q -> (40 < attended)%Q -> (teacher_lost < 0)%Q)
        /\ (forall more teacher_lost' school_lost',
              (attended <= more)%Q -> (0 <= salary)%Q -> (0 <= cost)%Q ->
              add_features (Some salary) (Some cost) (Some more)
              = (Some teacher_lost', Some school_lost') ->
              (teacher_lost' <= teacher_lost /\ school_lost' <= school_lost)%Q)).
Proof.
  split.
  - intros [s|] [c|] [a|]; simpl; split; split;
      try (intros [x Hx]; discriminate); try (intros [[x Hx] [y Hy]]; discriminate);
      eauto.
  - unfold add_features, ALL_LESSONS, ALL_MONTHS. simpl.
    eexists _, _. split; [reflexivity|].
    assert (Hk : forall c, (0 <= c -> 0 <= c * (9 # 1) / (40 # 1))%Q).
    { intros c Hc. apply Qle_shift_div_l; [reflexivity|]. lra. }
    split; [reflexivity|]. split; [reflexivity|].
    split; [intros Ha; rewrite Ha; split; [ring | field]|].
    split; [intros Hs Ha; apply Qmult_le_0_compat; lra|].
    split; [intros Hc Ha; apply Qmult_le_0_compat; [now apply Hk | lra]|].
    split.
    + intros Hs Ha.
      assert (0 < salary * (attended - (40 # 1)))%Q
        by (apply Qmult_lt_0_compat; lra).
      lra.
    + intros more tl' sl' Hmore Hs Hc [= <- <-]. split.
      * assert (0 <= salary * (more - attended))%Q
          by (apply Qmult_le_0_compat; lra).
        lra.
      * pose proof (Hk cost Hc) as Hk'.
        assert (0 <= (cost * (9 # 1) / (40 # 1)) * (more - attended))%Q
          by (apply Qmult_le_0_compat; lra).
        lra.
Qed.

End FeaturesFacts.

Example get_costs_and_salaries_last_day :
  DataPreparation.get_costs_and_salaries fst snd
    (Some "Uman"%string, Some (DataPreparation.timestamp 2023 7 31))
    DataPreparation.sample_costs
  = (Some (800 # 1), Some (120 # 1))
  /\ DataPreparation.get_costs_and_salaries fst snd
       (Some "Uman"%string,
        Some (DataPreparation.timestamp 2023 7 31 + 3600 * 1000000000))
       DataPreparation.sample_costs
     = (None, None)
  /\ DataPreparation.get_costs_and_salaries fst snd
       (Some "Uman"%string, Some (DataPreparation.timestamp 2023 8 1))
       DataPreparation.sample_costs
     = (Some (900 # 1), Some (140 # 1)).
Proof. repeat split. Qed.

Lemma get_costs_and_salaries_periods_witness :
  let row : option string * option Z :=
    (Some "Uman"%string,
     Some (19569 * DataPreparation.nanoseconds_per_day + 0)) in
  head (List.filter (fun c => DataPreparation.same_city c (fst row))
          DataPreparation.sample_costs)
  = Some {| DataPreparation.cost_city := Some "Uman"%string;
            DataPreparation.cost_2022 := Some (800 # 1);
            DataPreparation.salary_2022 := Some (120 # 1);
            DataPreparation.cost_2023 := Some (900 # 1);
            DataPreparation.salary_2023 := Some (140 # 1) |}
  /\ snd row = Some (19569 * DataPreparation.nanoseconds_per_day + 0)
  /\ 0 <= 0 < DataPreparation.nanoseconds_per_day
  /\ DataPreparation.get_costs_and_salaries fst snd row
       DataPreparation.sample_costs
     = (Some (800 # 1), Some (120 # 1)).
Proof.
  intros row.
  assert (Ht : 0 <= 0 < DataPreparation.nanoseconds_per_day)
    by (unfold DataPreparation.nanoseconds_per_day; lia).
  split; [reflexivity|]. split; [reflexivity|]. split; [exact Ht|].
  exact (get_costs_and_salaries_periods fst snd row
           DataPreparation.sample_costs _ 19569 0 eq_refl eq_refl Ht).
Defined.

(** ** analytics.py: more on the quartile lists *)

Section QuartileOrderFacts.

Import Numeric Analytics.

Context {Row Name : Type}.
Variable name_col : Row -> Name.
Variable percent_col : Row -> option Q.


Lemma series_quantile_in_range col q :
  in_unit_interval q = true -> exists v, series_quantile col q = Ok v.
Proof.
  intros Hq. unfold series_quantile. unfold in_unit_interval in Hq. rewrite Hq.
  destruct (sort (dropna col)); eauto.
Qed.

Lemma series_quantile_out_of_range col q :
  in_unit_interval q = false -> series_quantile col q = Raise ValueError.
Proof.
  intros Hq. unfold series_quantile. unfold in_unit_interval in Hq.
  now rewrite Hq.
Qed.

Lemma list_for_indicator_out_of_range Q1 Q3 (df : list Row) q :
  in_unit_interval q = false ->
  list_for_indicator name_col percent_col Q1 Q3 df q = Raise ValueError.
Proof.
  intros Hq. unfold list_for_indicator.
  now rewrite (series_quantile_out_of_range _ q Hq).
Qed.

Lemma list_for_indicator_first Q1 Q3 (df : list Row) :
  in_unit_interval Q1 = true ->
  exists l, list_for_indicator name_col percent_col Q1 Q3 df Q1 = Ok l.
Proof.
  intros H1. unfold list_for_indicator.
  destruct (series_quantile_in_range (map percent_col df) Q1 H1) as [v ->].
  cbn [mbind result_bind]. rewrite Qeq_bool_refl. eauto.
Qed.

Lemma list_for_indicator_in_range Q1 Q3 (df : list Row) q :
  in_unit_interval Q1 = true -> in_unit_interval Q3 = true ->
  in_unit_interval q = true ->
  exists l, list_for_indicator name_col percent_col Q1 Q3 df q = Ok l.
Proof.
  intros H1 H3 Hq. unfold list_for_indicator.
  destruct (series_quantile_in_range (map percent_col df) q Hq) as [v ->].
  destruct (series_quantile_in_range (map percent_col df) Q1 H1) as [v1 ->].
  destruct (series_quantile_in_range (map percent_col df) Q3 H3) as [v3 ->].
  cbn [mbind result_bind].
  destruct (Qeq_bool q Q1); [eauto|]. destruct (Qeq_bool q Q3); eauto.
Qed.

(** With [Q3] out of range a list is either built without looking at
    [Q3], or its computation raises [ValueError]. *)
Lemma list_for_indicator_raises Q1 Q3 (df : list Row) q :
  in_unit_interval Q3 = false ->
  (exists l, list_for_indicator name_col percent_col Q1 Q3 df q = Ok l)
  \/ list_for_indicator name_col percent_col Q1 Q3 df q = Raise ValueError.
Proof.
  intros H3. unfold list_for_indicator.
  destruct (in_unit_interval q) eqn:Hq.
  2:{ right. now rewrite (series_quantile_out_of_range _ q Hq). }
  destruct (series_quantile_in_range (map percent_col df) q Hq) as [v ->].
  cbn [mbind result_bind].
  destruct (Qeq_bool q Q1); [eauto|]. destruct (Qeq_bool q Q3); [eauto|].
  right. rewrite (series_quantile_out_of_range _ Q3 H3).
  destruct (in_unit_interval Q1) eqn:H1.
  - now destruct (series_quantile_in_range (map percent_col df) Q1 H1)
      as [v1 ->].
  - now rewrite (series_quantile_out_of_range _ Q1 H1).
Qed.

(** X10. Whatever the frame, [get_quartile_category_teachers_list] returns
    its three lists when the three quantile arguments lie in [0, 1] and
    raises [ValueError] as soon as one does not; on a frame without any
    metric (no row, or only null metrics) the three lists are empty. *)
Theorem quartile_lists_argument_range (df : list Row) (Q1 Q2 Q3 : Q) :
  (if in_unit_interval Q1 && in_unit_interval Q2 && in_unit_interval Q3
   then exists lists,
          get_quartile_category_teachers_list name_col percent_col df Q1 Q2 Q3
          = Ok lists
   else get_quartile_category_teachers_list name_col percent_col df Q1 Q2 Q3
        = Raise ValueError)
  /\ (Forall (fun r => percent_col r = None) df ->
      in_unit_interval Q1 && in_unit_interval Q2 && in_unit_interval Q3 = true ->
      get_quartile_category_teachers_list name_col percent_col df Q1 Q2 Q3
      = Ok {| best := []; interquartile := []; bad := [] |}).
Proof.
  split.
  - unfold get_quartile_category_teachers_list.
    destruct (in_unit_interval Q1) eqn:H1; cbn [andb].
    2:{ now rewrite (list_for_indicator_out_of_range _ _ _ Q1 H1). }
    destruct (list_for_indicator_first Q1 Q3 df H1) as [b ->].
    destruct (in_unit_interval Q2) eqn:H2; cbn [andb].
    2:{ now rewrite (list_for_indicator_out_of_range _ _ _ Q2 H2). }
    destruct (in_unit_interval Q3) eqn:H3.
    + destruct (list_for_indicator_in_range Q1 Q3 df Q2 H1 H3 H2) as [i ->].
      destruct (list_for_indicator_in_range Q1 Q3 df Q3 H1 H3 H3) as [w ->].
      eauto.
    + rewrite (list_for_indicator_out_of_range Q1 Q3 df Q3 H3).
      destruct (list_for_indicator_raises Q1 Q3 df Q2 H3) as [[i ->]| ->];
        reflexivity.
  - intros Hnull Hrange.
    apply andb_true_iff in Hrange as [Hrange H3].
    apply andb_true_iff in Hrange as [H1 H2].
    assert (Hq : forall q, in_unit_interval q = true ->
                           series_quantile (map percent_col df) q = Ok None).
    { intros q Hq. unfold series_quantile. unfold in_unit_interval in Hq.
      rewrite Hq. replace (dropna (map percent_col df)) with (@nil Q);
        [reflexivity|].
      symmetry. unfold dropna. induction Hnull as [|r rs Hr Hnull IH];
        simpl; [reflexivity|]. now rewrite Hr. }
    assert (Hnone : forall p : Row -> bool,
               (forall r, percent_col r = None -> p r = false) ->
               names_where name_col p df = []).
    { intros p Hp. unfold names_where. rewrite filter_keeps_none;
        [reflexivity|].
      eapply Forall_impl; [exact Hnull|]. intros r Hr. now apply Hp. }
    assert (Hlt := Hnone (fun r => nan_lt (percent_col r) None)
                     ltac:(intros r Hr; cbv beta; now rewrite Hr)).
    assert (Hgt := Hnone (fun r => nan_gt (percent_col r) None)
                     ltac:(intros r Hr; cbv beta; now rewrite Hr)).
    assert (Hmid := Hnone (fun r => nan_ge (percent_col r) None
                                    && nan_le (percent_col r) None)
                      ltac:(intros r Hr; cbv beta; now rewrite Hr)).
    unfold get_quartile_category_teachers_list, list_for_indicator.
    rewrite !Hq by assumption. cbn [mbind result_bind].
    rewrite !Qeq_bool_refl.
    destruct (Qeq_bool Q2 Q1); [|destruct (Qeq_bool Q2 Q3)];
      destruct (Qeq_bool Q3 Q1); cbn [mbind result_bind];
      rewrite ?Hlt, ?Hgt, ?Hmid; reflexivity.
Qed.


End QuartileOrderFacts.

Example quartile_lists_bad_argument :
  Analytics.get_quartile_category_teachers_list fst snd
    [("a"%string, Some (1#1))] (1#4) (1#2) (75#1)
  = Raise ValueError.
Proof. reflexivity. Qed.

(** ** visualization.py: more on plot_box_compare *)

Section SmallSamples.

Import Numeric Visualization.

Lemma In_insert_sorted x y l : In y (insert_sorted x l) <-> y = x \/ In y l.
Proof.
  induction l as [|z l IH]; simpl; [intuition|].
  destruct (Qle_bool x z); simpl; [intuition|]. rewrite IH. intuition.
Qed.

Lemma In_sort y l : In y (sort l) <-> In y l.
Proof.
  induction l as [|x l IH]; simpl; [reflexivity|].
  rewrite In_insert_sorted, IH. intuition.
Qed.

Ltac evaluate_positions :=
  repeat match goal with
    | |- context [Qfloor ?p] =>
        let v := eval vm_compute in (Qfloor p) in change (Qfloor p) with v
    end;
  repeat match goal with
    | |- context [(inject_Z ?a * ?q - inject_Z ?b)%Q] =>
        let v := eval vm_compute in (inject_Z a * q - inject_Z b)%Q in
        change (inject_Z a * q - inject_Z b)%Q with v
    end;
  repeat match goal with
    | |- context [nth ?i _ _] =>
        let v := eval vm_compute in i in progress change i with v
    end;
  cbn [nth].

(** With one, two or three values the interpolated quartiles stay so close
    to the extremes that no value lies outside the whiskers. *)
Lemma is_iqr_outlier_small values y :
  In y values -> (length values <= 3)%nat -> is_iqr_outlier values y = false.
Proof.
  intros Hy Hlen. apply In_sort in Hy. rewrite <- sort_length in Hlen.
  assert (Hs := sort_sorted values).
  unfold is_iqr_outlier. destruct (sort values) as [|a [|b [|c [|d s]]]];
    [destruct Hy | | | | simpl in Hlen; lia].
  - unfold linear_quantile. cbn [length]. evaluate_positions.
    destruct Hy as [->|[]].
    apply orb_false_iff. split; apply not_true_is_false;
      rewrite Qlt_bool_iff; lra.
  - unfold linear_quantile. cbn [length]. evaluate_positions.
    assert (a <= b)%Q by (apply (sorted_nth [a; b] 0 1 Hs); simpl; lia).
    apply orb_false_iff.
    destruct Hy as [->|[->|[]]]; split; apply not_true_is_false;
      rewrite Qlt_bool_iff; lra.
  - unfold linear_quantile. cbn [length]. evaluate_positions.
    assert (a <= b)%Q by (apply (sorted_nth [a; b; c] 0 1 Hs); simpl; lia).
    assert (b <= c)%Q by (apply (sorted_nth [a; b; c] 1 2 Hs); simpl; lia).
    apply orb_false_iff.
    destruct Hy as [->|[->|[->|[]]]]; split; apply not_true_is_false;
      rewrite Qlt_bool_iff; lra.
Qed.

End SmallSamples.

Section PlotBoxCompareMore.

Import Numeric Visualization.

Context {Row Name : Type}.
Variable value_column : Row -> option Q.
Variable teacher_column : Row -> Name.
Variable percentile_of_empty : result exception (option Q).

Local Abbreviation plot_box_compare :=
  (plot_box_compare value_column teacher_column percentile_of_empty).
Local Abbreviation period_outliers :=
  (period_outliers value_column teacher_column percentile_of_empty).


Lemma outliers_of_subset_measured (subset : list (option Q * Name)) found :
  outliers_of_subset percentile_of_empty subset = Ok found ->
  Forall (fun name => exists y, In (Some y, name) subset) found.
Proof.
  unfold outliers_of_subset. intros H.
  destruct (np_percentile percentile_of_empty (map fst subset) 25) as [q1|];
    [|discriminate].
  destruct (np_percentile percentile_of_empty (map fst subset) 75) as [q3|];
    [|discriminate].
  cbn [mbind result_bind] in H. injection H as <-.
  apply List.Forall_forall. intros name Hin.
  apply in_map_iff in Hin as [[y t] [<- Hin]].
  apply filter_In in Hin as [Hin Hout]. cbn [fst snd] in *.
  destruct y as [y|]; [now exists y|].
  unfold nan_gt in Hout. simpl in Hout.
  now destruct (nan_lift2 _ _ _) in Hout.
Qed.

Lemma collect_outliers_measured
    (combined : list (option Q * Name * string)) years acc names :
  collect_outliers percentile_of_empty combined years acc = Ok names ->
  Forall (fun name => exists y l, In (Some y, name, l) combined) acc ->
  Forall (fun name => exists y l, In (Some y, name, l) combined) names.
Proof.
  revert acc. induction years as [|year years IH]; intros acc H Hacc.
  - simpl in H. now injection H as <-.
  - simpl in H.
    destruct (outliers_of_subset percentile_of_empty _) as [found|] eqn:E;
      [|discriminate].
    cbn [mbind result_bind] in H. apply (IH _ H).
    apply List.Forall_app. split; [assumption|].
    apply outliers_of_subset_measured in E.
    eapply List.Forall_impl; [|exact E]. intros name [y Hin].
    apply in_map_iff in Hin as [[yt l] [Heq Hin]].
    apply filter_In in Hin as [Hin _]. cbn [fst] in Heq. subst yt.
    now exists y, l.
Qed.

(** X13. Whatever the labels, a name that [plot_box_compare] returns is
    the teacher of a row of one of the two frames, and the value of that
    row is a number: a row whose value is missing is never reported. *)
Theorem plot_box_compare_reports_measured_rows df1 df2 labels names :
  plot_box_compare df1 df2 labels = Ok names ->
  Forall (fun name =>
            exists r y, (In r df1 \/ In r df2)
                        /\ teacher_column r = name
                        /\ value_column r = Some y) names.
Proof.
  unfold Visualization.plot_box_compare. intros H.
  destruct (from_index labels 0) as [l0|]; [|discriminate].
  destruct (from_index labels 1) as [l1|]; [|discriminate].
  cbn [mbind result_bind] in H.
  apply collect_outliers_measured in H; [|constructor].
  eapply List.Forall_impl; [|exact H]. intros name (y & l & Hin).
  apply in_app_or in Hin.
  destruct Hin as [Hin|Hin]; apply in_map_iff in Hin as [vt [Heq Hin]];
    injection Heq as -> _; unfold select in Hin;
    apply in_map_iff in Hin as [r [Heq Hin]]; injection Heq as Hy Ht;
    exists r, y; auto.
Qed.

Lemma small_period_has_no_outlier df :
  df <> [] -> (length df <= 3)%nat -> period_outliers df = Ok [].
Proof.
  intros Hne Hlen.
  destruct (forallb (fun r => bool_decide (is_Some (value_column r))) df)
    eqn:Hall; [|now apply period_outliers_nan].
  rewrite period_outliers_measured by assumption. f_equal.
  replace (List.filter _ df) with (@nil Row); [reflexivity|].
  symmetry. apply filter_keeps_none. apply List.Forall_forall. intros r Hr.
  destruct (value_column r) as [y|] eqn:Ey; [|reflexivity].
  apply is_iqr_outlier_small.
  - unfold dropna. apply list_elem_of_In, list_elem_of_omap.
    exists (Some y). split; [|reflexivity].
    apply list_elem_of_In, in_map_iff. now exists r.
  - rewrite <- (length_map Some), dropna_all_measured, length_map;
      [assumption|now rewrite forallb_map].
Qed.


End PlotBoxCompareMore.


Lemma plot_box_compare_reports_measured_rows_witness :
  Forall (fun name =>
            exists r y,
              (In r [("a"%string, Some (1#1)); ("b"%string, Some (1#1));
                     ("c"%string, Some (1#1)); ("d"%string, Some (1#1));
                     ("e"%string, Some (9#1))]
               \/ In r [("f"%string, Some (2#1))])
              /\ fst r = name /\ snd r = Some y) ["e"%string].
Proof.
  apply (plot_box_compare_reports_measured_rows snd fst (Ok None)
           [("a"%string, Some (1#1)); ("b"%string, Some (1#1));
            ("c"%string, Some (1#1)); ("d"%string, Some (1#1));
            ("e"%string, Some (9#1))]
           [("f"%string, Some (2#1))]
           ["2022/2023"%string; "2023/2024"%string]).
  vm_compute. reflexivity.
Defined.


(** Four rows are enough for an outlier. *)
Example plot_box_compare_four_rows :
  Visualization.plot_box_compare snd fst (Ok None)
    [("a"%string, Some (0#1)); ("b"%string, Some (1#1));
     ("c"%string, Some (1#1)); ("d"%string, Some (1#1))]
    [("e"%string, Some (5#1))]
    ["2022/2023"%string; "2023/2024"%string]
  = Ok ["a"%string].
Proof. reflexivity. Qed.
(** ** analytics.py: more on get_loss_dataframe *)

Section GroupOrderFacts.

Import Analytics.

(** Two group lists with increasing keys, the same keys and the same
    totals are the same list. *)
Lemma sorted_groups_unique (g1 g2 : list (string * Z)) :
  keys_sorted g1 -> keys_sorted g2 ->
  (forall k, In k (map fst g1) <-> In k (map fst g2)) ->
  (forall k, total_of k g1 = total_of k g2) ->
  g1 = g2.
Proof.
  unfold keys_sorted. revert g2.
  induction g1 as [|[k1 t1] g1 IH]; intros [|[k2 t2] g2] Hs1 Hs2 Hkeys Htot.
  - reflexivity.
  - destruct (proj2 (Hkeys k2)). now left.
  - destruct (proj1 (Hkeys k1)). now left.
  - simpl in Hs1, Hs2.
    apply StronglySorted_inv in Hs1 as [Hs1 Hk1].
    apply StronglySorted_inv in Hs2 as [Hs2 Hk2].
    rewrite List.Forall_forall in Hk1, Hk2.
    assert (Hk : k1 = k2).
    { destruct (proj1 (Hkeys k1) (or_introl eq_refl)) as [E|Hin1];
        [now symmetry|].
      destruct (proj2 (Hkeys k2) (or_introl eq_refl)) as [E|Hin2];
        [assumption|].
      apply Hk2 in Hin1. apply Hk1 in Hin2.
      destruct (lt_neq k1 k1); [|reflexivity].
      now apply (String_as_OT.lt_trans k1 k2 k1). }
    subst k2.
    assert (Hno1 : ~ In k1 (map fst g1))
      by (intros H; apply Hk1 in H; now apply lt_neq in H).
    assert (Hno2 : ~ In k1 (map fst g2))
      by (intros H; apply Hk2 in H; now apply lt_neq in H).
    assert (Ht : t1 = t2).
    { specialize (Htot k1). rewrite !total_of_cons in Htot.
      rewrite !total_of_absent in Htot by assumption.
      destruct (decide (k1 = k1)); [lia | congruence]. }
    subst t2. f_equal. apply IH; try assumption.
    + intros k. specialize (Hkeys k). simpl in Hkeys. split; intros Hin.
      * destruct (proj1 Hkeys (or_intror Hin)) as [<-|H];
          [contradiction|assumption].
      * destruct (proj2 Hkeys (or_intror Hin)) as [<-|H];
          [contradiction|assumption].
    + intros k. specialize (Htot k). rewrite !total_of_cons in Htot.
      destruct (decide (k1 = k)); lia.
Qed.

End GroupOrderFacts.

Section LossDataframeOrder.

Import Numeric Analytics.

Context {Row : Type}.
Variable start_date_col : Row -> option Z.
Variable name_normalized_col : Row -> option string.
Variable count_col : Row -> Z.
Variable read_csv : string -> result exception groups_frame.

Local Abbreviation groupby_sum := (groupby_sum name_normalized_col count_col).
Local Abbreviation name_count := (name_count name_normalized_col count_col).
Local Abbreviation in_period := (in_period start_date_col).
Local Abbreviation get_loss_dataframe :=
  (get_loss_dataframe start_date_col name_normalized_col count_col read_csv).

Lemma groupby_sum_sorted rows : keys_sorted (groupby_sum rows).
Proof. apply foldl_group_step_sorted. constructor. Qed.

Lemma groupby_sum_keys rows k :
  In k (map fst (groupby_sum rows))
  <-> exists r, In r rows /\ name_normalized_col r = Some k.
Proof.
  unfold Analytics.groupby_sum. rewrite foldl_group_step_keys. simpl. tauto.
Qed.

Lemma groupby_sum_total rows k :
  total_of k (groupby_sum rows) = name_count rows k.
Proof.
  unfold Analytics.groupby_sum. rewrite foldl_group_step_total. reflexivity.
Qed.

Lemma sum_permutation (l l' : list Z) :
  Permutation l l' -> foldr Z.add 0 l = foldr Z.add 0 l'.
Proof. induction 1; simpl; lia. Qed.

Lemma filter_permutation {A} (p : A -> bool) (l l' : list A) :
  Permutation l l' -> Permutation (List.filter p l) (List.filter p l').
Proof.
  induction 1 as [|x l l' _ IH|x y l|l l' l'' _ IH _ IH']; simpl.
  - constructor.
  - destruct (p x); [now constructor | assumption].
  - destruct (p x), (p y); try reflexivity. constructor.
  - now transitivity (List.filter p l').
Qed.

Lemma groupby_sum_permutation rows rows' :
  Permutation rows rows' -> groupby_sum rows = groupby_sum rows'.
Proof.
  intros Hp. apply sorted_groups_unique; try apply groupby_sum_sorted.
  - intros k. rewrite !groupby_sum_keys.
    split; intros (r & Hr & Hk); exists r; split; try assumption.
    + now apply (Permutation_in _ Hp).
    + now apply (Permutation_in _ (Permutation_sym Hp)).
  - intros k. rewrite !groupby_sum_total. unfold Analytics.name_count.
    apply sum_permutation. apply Permutation_map.
    now apply filter_permutation.
Qed.

(** X15. The frame that [get_loss_dataframe] returns and writes does not
    depend on the order of the input rows: the groups come out in name
    order and each sum is over the same rows. *)
Theorem get_loss_dataframe_row_order (dframe dframe' : list Row)
    (start_date finish_date : Z) (name_from_csv_file name_to_csv_file : string) :
  Permutation dframe dframe' ->
  get_loss_dataframe dframe start_date finish_date
    name_from_csv_file name_to_csv_file
  = get_loss_dataframe dframe' start_date finish_date
      name_from_csv_file name_to_csv_file.
Proof.
  intros Hp. unfold Analytics.get_loss_dataframe.
  rewrite (groupby_sum_permutation
             (List.filter (in_period start_date finish_date) dframe)
             (List.filter (in_period start_date finish_date) dframe'))
    by now apply filter_permutation.
  reflexivity.
Qed.

Lemma filter_name_at_most_one (groups : list group_row) name :
  NoDup (omap g_name_normalized groups) ->
  (length (List.filter
             (fun g => bool_decide (g_name_normalized g = Some name)) groups)
   <= 1)%nat.
Proof.
  induction groups as [|g groups IH]; simpl; [lia|].
  destruct (g_name_normalized g) as [k|] eqn:Ek.
  - intros Hnd. apply NoDup_cons in Hnd as [Hk Hnd].
    destruct (decide (k = name)) as [->|Hne].
    + rewrite bool_decide_eq_true_2 by reflexivity. simpl.
      destruct (List.filter _ groups) as [|g' rest] eqn:Ef; [simpl; lia|].
      exfalso. apply Hk. apply list_elem_of_omap. exists g'.
      assert (Hin : In g' (List.filter
                             (fun g => bool_decide
                                         (g_name_normalized g = Some name))
                             groups))
        by (rewrite Ef; now left).
      apply filter_In in Hin as [Hin Hname].
      apply bool_decide_eq_true in Hname.
      split; [now apply list_elem_of_In | assumption].
    + rewrite bool_decide_eq_false_2 by congruence. now apply IH.
  - intros Hnd. rewrite bool_decide_eq_false_2 by discriminate. now apply IH.
Qed.

Lemma merge_left_row_single (groups : list group_row) s :
  NoDup (omap g_name_normalized groups) ->
  map (fun m => fst (fst (fst m))) (merge_left_row groups s) = [fst s].
Proof.
  intros Hnd. pose proof (filter_name_at_most_one groups (fst s) Hnd) as Hlen.
  unfold merge_left_row.
  destruct (List.filter _ groups) as [|g [|g' rest]]; simpl in *;
    [reflexivity | reflexivity | lia].
Qed.

Lemma merged_names (groups : list group_row) stats :
  NoDup (omap g_name_normalized groups) ->
  map (fun m => name_normalized (add_percentages m))
    (flat_map (merge_left_row groups) stats)
  = map fst stats.
Proof.
  intros Hnd. induction stats as [|s stats IH]; simpl; [reflexivity|].
  rewrite map_app, IH.
  rewrite (map_ext (fun m => name_normalized (add_percentages m))
             (fun m => fst (fst (fst m))))
    by now intros [[[name c] students] per_group].
  now rewrite (merge_left_row_single groups s Hnd).
Qed.

(** X16. When no teacher name occurs twice in the per-teacher file, the
    returned frame has exactly one row per teacher of the period, in
    increasing order of the names. *)
Theorem get_loss_dataframe_one_row_per_teacher (dframe : list Row)
    (start_date finish_date : Z) (name_from_csv_file name_to_csv_file : string)
    (groups_and_losts : groups_frame) stats effects :
  read_csv name_from_csv_file = Ok groups_and_losts ->
  NoDup (omap g_name_normalized (group_rows groups_and_losts)) ->
  get_loss_dataframe dframe start_date finish_date
    name_from_csv_file name_to_csv_file = Ok (stats, effects) ->
  StronglySorted String_as_OT.lt (map name_normalized stats)
  /\ forall name,
       In name (map name_normalized stats)
       <-> exists row, In row dframe
                       /\ in_period start_date finish_date row = true
                       /\ name_normalized_col row = Some name.
Proof.
  intros Hread Hnd. unfold Analytics.get_loss_dataframe. rewrite Hread.
  cbn [mbind result_bind].
  destruct (has_count_of_loss groups_and_losts); [|discriminate].
  intros [= <- _]. rewrite map_map, merged_names by assumption. split.
  - apply groupby_sum_sorted.
  - intros name. rewrite groupby_sum_keys.
    split; intros (row & Hrow & H).
    + apply filter_In in Hrow as [Hrow Hper]. now exists row.
    + destruct H as [Hper Hname]. exists row. split; [|assumption].
      apply filter_In. now split.
Qed.

End LossDataframeOrder.

Lemma get_loss_dataframe_row_order_witness :
  Analytics.get_loss_dataframe
    (fun r : option Z * option string * Z => fst (fst r))
    (fun r => snd (fst r)) snd
    Analytics.sample_read_csv
    Analytics.sample_dframe 0 50 "groups.csv" "stats.csv"
  = Analytics.get_loss_dataframe
      (fun r : option Z * option string * Z => fst (fst r))
      (fun r => snd (fst r)) snd
      Analytics.sample_read_csv
      (rev Analytics.sample_dframe) 0 50 "groups.csv" "stats.csv".
Proof.
  apply (get_loss_dataframe_row_order
           (fun r : option Z * option string * Z => fst (fst r))
           (fun r => snd (fst r)) snd Analytics.sample_read_csv
           Analytics.sample_dframe (rev Analytics.sample_dframe)).
  apply Permutation_rev.
Defined.

Lemma get_loss_dataframe_one_row_per_teacher_witness :
  StronglySorted String_as_OT.lt ["Chaus Svitlozar"; "Popruha Oleh"]%string.
Proof.
  refine (proj1
            (get_loss_dataframe_one_row_per_teacher
               (fun r : option Z * option string * Z => fst (fst r))
               (fun r => snd (fst r)) snd Analytics.sample_read_csv
               Analytics.sample_dframe 0 50 "groups.csv" "stats.csv"
               Analytics.sample_groups_frame _ _ eq_refl _ eq_refl)).
  vm_compute. repeat constructor. intros H. inversion H.
Defined.

(** A name that the file lists twice gets two rows. *)
Example get_loss_dataframe_repeated_name :
  let g := {| Analytics.g_name_normalized := Some "Chaus Svitlozar"%string;
              Analytics.g_number_of_students := Numeric.Fin (8 # 1);
              Analytics.g_number_of_group := Numeric.Fin (2 # 1) |} in
  match
    Analytics.get_loss_dataframe
      (fun r : option Z * option string * Z => fst (fst r))
      (fun r => snd (fst r)) snd
      (fun _ => Ok {| Analytics.has_count_of_loss := true;
                      Analytics.group_rows := [g; g] |})
      Analytics.sample_dframe 0 50 "groups.csv" "stats.csv"
  with
  | Ok (stats, _) => map Analytics.name_normalized stats
  | Raise _ => []
  end
  = ["Chaus Svitlozar"; "Chaus Svitlozar"; "Popruha Oleh"]%string.
Proof. reflexivity. Qed.
(** ** data_io.py: more on save_data and load_data *)

Section DataIORoundTrip.

Import DataIO.

Variable parse_field : string -> option string.
Variable read_ragged : csv_line -> csv_file -> result exception DataFrame.

(** The cells that the reader gives back as they were written: neither
    the empty text nor a text that the reader takes for a missing value or
    for a number written otherwise. *)
Local Abbreviation read_back :=
  (fun c : option string => parse_field (write_cell c) = c).

Lemma map_read_back (row : list (option string)) :
  Forall read_back row -> map parse_field (map write_cell row) = row.
Proof.
  induction 1 as [|c row Hc Hrow IH]; simpl; [reflexivity|].
  now rewrite Hc, IH.
Qed.



End DataIORoundTrip.


(** A cell holding the empty text is read back as a missing value. *)
Example save_then_load_empty_text :
  DataIO.load_data DataIO.sample_parse_field DataIO.sample_read_ragged
    (fst (DataIO.save_data
            {| DataIO.columns := ["teacher_name"; "age"]%string;
               DataIO.rows := [[Some ""; Some "7"]]%string |}
            "report.csv" ∅))
    "report.csv"
  = ([DataIO.InfoLoaded "report.csv" 1],
     Ok {| DataIO.columns := ["teacher_name"; "age"]%string;
           DataIO.rows := [[None; Some "7"%string]] |}).
Proof. reflexivity. Qed.
(** ** DBLostClients.py: more on insert_into_gone_clients_content *)

Section GoneClientsMore.

Import DBLostClients.

Variable int_of_text : string -> option Z.

Local Abbreviation dict := (option (gmap string (gmap cell cell))).

Lemma sql_eq_refl v : v <> VNull -> sql_eq v v = true.
Proof.
  destruct v as [|i|s]; simpl; intros Hv;
    [congruence | apply Z.eqb_refl | apply String.eqb_refl].
Qed.

(** An id found in a table passes the foreign-key check on that table. *)
Lemma has_id_of_id_in db name v :
  id_in db name v ->
  match v with
  | VNull => true
  | VInt z => has_id db name (VInt z)
  | VText s => has_id db name (VText s)
  end = true.
Proof.
  intros (r & Hr & Hid). unfold table_rows, has_id in *.
  destruct (db !! name) as [t|]; [|now apply elem_of_nil in Hr].
  assert (Hex : v <> VNull -> existsb (fun r => sql_eq (field r "id") v)
                                (t_rows t) = true).
  { intros Hv. apply existsb_exists. exists r.
    split; [now apply list_elem_of_In|]. rewrite Hid. now apply sql_eq_refl. }
  destruct v; [reflexivity | now apply Hex | now apply Hex].
Qed.

Lemma sql_insert_fact_succeeds fk db s t g att reason :
  facts_schema db ->
  id_in db "students" s -> id_in db "teachers" t -> id_in db "groups" g ->
  exists db',
    sql_insert fk db facts_table fact_columns [s; t; g; att; reason] = Ok db'
    /\ sql_insert (negb fk) db facts_table fact_columns [s; t; g; att; reason]
       = Ok db'
    /\ facts_schema db'.
Proof.
  intros [rs Hf] Hs Ht Hg.
  apply has_id_of_id_in in Hs, Ht, Hg.
  assert (Hins : forall b,
             sql_insert b db facts_table fact_columns [s; t; g; att; reason]
             = sql_insert false db facts_table fact_columns
                 [s; t; g; att; reason]).
  { intros [|]; [|reflexivity]. unfold sql_insert. rewrite Hf.
    cbn [t_columns t_foreign_keys t_rows].
    change (field (list_to_map (zip fact_columns [s; t; g; att; reason])) "id")
      with VNull.
    cbn [mbind result_bind forallb fst snd].
    change (field (<["id" := VInt (next_rowid rs)]>
                     (list_to_map (zip fact_columns [s; t; g; att; reason])))
              "student_id") with s.
    change (field (<["id" := VInt (next_rowid rs)]>
                     (list_to_map (zip fact_columns [s; t; g; att; reason])))
              "teacher_id") with t.
    change (field (<["id" := VInt (next_rowid rs)]>
                     (list_to_map (zip fact_columns [s; t; g; att; reason])))
              "group_id") with g.
    now rewrite Hs, Ht, Hg. }
  assert (Hoff :
            sql_insert false db facts_table fact_columns [s; t; g; att; reason]
            = Ok (<[facts_table :=
                      {| t_columns := ["id"; "student_id"; "teacher_id";
                                       "group_id"; "attendance_number";
                                       "lost_reasons"]%string;
                         t_foreign_keys := [("student_id", "students");
                                            ("teacher_id", "teachers");
                                            ("group_id", "groups")]%string;
                         t_rows :=
                           insert_by_rowid
                             (<["id" := VInt (next_rowid rs)]>
                                (list_to_map
                                   (zip fact_columns [s; t; g; att; reason])))
                             rs |}]> db)).
  { unfold sql_insert. rewrite Hf. reflexivity. }
  rewrite (Hins fk), (Hins (negb fk)), Hoff.
  eexists. split; [reflexivity|]. split; [reflexivity|].
  unfold facts_schema. rewrite lookup_insert_eq. eauto.
Qed.

Lemma facts_schema_same_references db db' :
  same_references db db' -> forall name v,
  name <> facts_table -> id_in db' name v -> id_in db name v.
Proof.
  intros Hsame name v Hne. unfold id_in, table_rows.
  now rewrite (Hsame name Hne).
Qed.

Lemma process_row_foreign_keys (mv : dict) db row :
  facts_schema db ->
  process_row int_of_text true mv db row
  = process_row int_of_text false mv db row
  /\ forall db',
       process_row int_of_text false mv db row = RowInserted db' ->
       facts_schema db'.
Proof.
  intros Hschema. unfold process_row.
  destruct (py_int _ _) as [att|e]; [|split; [reflexivity|discriminate]].
  destruct (resolve_ids mv db row) as [[w|[[s t] g]]|e] eqn:Eres;
    [split; [reflexivity|discriminate] | |
     split; [reflexivity|discriminate]].
  apply resolve_ids_existing in Eres as (Hs & Ht & Hg).
  destruct (sql_insert_fact_succeeds false db s t g (VInt att)
              (bind_param (at_col row col_reason)) Hschema Hs Ht Hg)
    as (db' & Hoff & Hon & Hschema').
  cbn [negb] in Hon. unfold facts_table in Hoff, Hon.
  rewrite Hoff, Hon. split; [reflexivity|].
  now intros db'' [= <-].
Qed.

Lemma insert_rows_foreign_keys (mv : dict) rs : forall db log,
  facts_schema db ->
  insert_rows int_of_text true mv rs db log
  = insert_rows int_of_text false mv rs db log.
Proof.
  induction rs as [|row rs IH]; intros db log Hschema; simpl; [reflexivity|].
  destruct (process_row_foreign_keys mv db row Hschema) as [-> Hnext].
  destruct (process_row int_of_text false mv db row) as [db'|w|e];
    [apply IH; now apply Hnext | now apply IH | reflexivity].
Qed.

(** X19. [main] passes a connection on which foreign keys were not
    switched on.  On a database whose fact table is the one [create]
    declares this changes nothing: every id that is inserted was read from
    the table it refers to, so with the check on the function returns the
    same database and prints the same lines. *)
Theorem foreign_key_check_never_rejects (df : DataFrame) (db : database)
    (mv : dict) :
  facts_schema db ->
  insert_into_gone_clients_content int_of_text df true db mv
  = insert_into_gone_clients_content int_of_text df false db mv.
Proof.
  intros Hschema. unfold insert_into_gone_clients_content.
  now apply insert_rows_foreign_keys.
Qed.

(** *** Which exceptions can escape *)

Lemma select_id_total db name col rs cols fks v :
  db !! name = Some {| t_columns := cols; t_foreign_keys := fks;
                       t_rows := rs |} ->
  col ∈ cols -> "id"%string ∈ cols ->
  exists found, select_id db name col v = Ok found.
Proof.
  intros Hdb Hcol Hid. unfold select_id. rewrite Hdb. cbn [t_columns t_rows].
  rewrite !bool_decide_eq_true_2 by assumption. eauto.
Qed.

Lemma resolve_ids_total (mv : dict) db row :
  reference_schema db -> exists found, resolve_ids mv db row = Ok found.
Proof.
  intros ((rs & Hs) & (rt & Ht) & (rg & Hg) & _). unfold resolve_ids.
  edestruct (select_id_total db "students" "student_name") as [[sid|] ->];
    [exact Hs | apply (bool_decide_unpack _); vm_compute; exact I
    | apply (bool_decide_unpack _); vm_compute; exact I | | ];
    cbn [mbind result_bind]; [|eauto].
  edestruct (select_id_total db "teachers" "teacher_name") as [[tid|] ->];
    [exact Ht | apply (bool_decide_unpack _); vm_compute; exact I
    | apply (bool_decide_unpack _); vm_compute; exact I | | ];
    cbn [mbind result_bind]; [|eauto].
  edestruct (select_id_total db "groups" "group_name") as [[gid|] ->];
    [exact Hg | apply (bool_decide_unpack _); vm_compute; exact I
    | apply (bool_decide_unpack _); vm_compute; exact I | | ];
    cbn [mbind result_bind]; eauto.
Qed.

Lemma reference_schema_same_references db db' :
  same_references db db' -> facts_schema db' ->
  reference_schema db -> reference_schema db'.
Proof.
  intros Hsame [rf Hf] ((rs & Hs) & (rt & Ht) & (rg & Hg) & _).
  unfold reference_schema.
  rewrite !(Hsame _) by discriminate. rewrite Hs, Ht, Hg.
  unfold facts_table in Hf. rewrite Hf. eauto 10.
Qed.

Lemma insert_rows_raises fk (mv : dict) rs : forall db log,
  reference_schema db -> facts_schema db ->
  let out := insert_rows int_of_text fk mv rs db log in
  (Forall (fun row => exists z,
             py_int int_of_text (default (Int 0) (row !! col_attendance))
             = Ok z) rs ->
   out_raised out = None)
  /\ (forall e, out_raised out = Some e -> e = ValueError).
Proof.
  induction rs as [|row rs IH]; intros db log Href Hfacts; simpl.
  - split; [reflexivity | discriminate].
  - unfold process_row.
    destruct (py_int int_of_text (default (Int 0) (row !! col_attendance)))
      as [att|e] eqn:Eint.
    2:{ simpl. split.
        - intros Hall. apply Forall_cons in Hall as [[z Hz] _]. congruence.
        - intros e' [= <-]. unfold py_int in Eint.
          destruct (default (Int 0) (row !! col_attendance)) as [|z|s];
            [now injection Eint | discriminate |].
          destruct (int_of_text s); [discriminate | now injection Eint]. }
    destruct (resolve_ids_total mv db row Href) as [[w|[[s t] g]] Eres];
      rewrite Eres.
    + destruct (IH db (log ++ [w]) Href Hfacts) as [Hnone Hsome].
      split; [|exact Hsome].
      intros Hall. apply Forall_cons in Hall as [_ Hall]. now apply Hnone.
    + pose proof Eres as Hids.
      apply resolve_ids_existing in Hids as (Hs & Ht & Hg).
      destruct (sql_insert_fact_succeeds fk db s t g (VInt att)
                  (bind_param (at_col row col_reason)) Hfacts Hs Ht Hg)
        as (db' & Hins & _ & Hfacts').
      pose proof Hins as Hins'. unfold facts_table in Hins'. rewrite Hins'.
      assert (Href' : reference_schema db').
      { apply (reference_schema_same_references db db'); try assumption.
        now apply sql_insert_fact in Hins as [Hsame _]. }
      destruct (IH db' log Href' Hfacts') as [Hnone Hsome].
      split; [|exact Hsome].
      intros Hall. apply Forall_cons in Hall as [_ Hall]. now apply Hnone.
Qed.


End GoneClientsMore.

Lemma sample_database_reference_schema :
  DBLostClients.reference_schema DBLostClients.sample_database.
Proof. unfold DBLostClients.reference_schema. repeat split; eauto. Qed.

Lemma sample_database_facts_schema :
  DBLostClients.facts_schema DBLostClients.sample_database.
Proof. eexists. reflexivity. Qed.

Lemma foreign_key_check_never_rejects_witness :
  DBLostClients.insert_into_gone_clients_content
    DBLostClients.sample_int_of_text DBLostClients.sample_merged true
    DBLostClients.sample_database None
  = DBLostClients.insert_into_gone_clients_content
      DBLostClients.sample_int_of_text DBLostClients.sample_merged false
      DBLostClients.sample_database None.
Proof.
  apply (foreign_key_check_never_rejects DBLostClients.sample_int_of_text
           DBLostClients.sample_merged DBLostClients.sample_database None).
  eexists. reflexivity.
Defined.

(** ** DBLostClients.py: main *)

Section MainFacts.

Import DBLostClients.

Variable int_of_text : string -> option Z.

Local Abbreviation dict := (option (gmap string (gmap cell cell))).

Lemma grows_refl db : grows db db.
Proof. now intros name r. Qed.

Lemma grows_trans db1 db2 db3 : grows db1 db2 -> grows db2 db3 -> grows db1 db3.
Proof. intros H12 H23 name r Hr. now apply H23, H12. Qed.

Lemma sql_insert_grows fk db name cols vals db' :
  sql_insert fk db name cols vals = Ok db' ->
  grows db db'
  /\ forall other, other <> name -> table_rows db' other = table_rows db other.
Proof.
  intros H. apply sql_insert_shape in H as (t & id & Ht & ->). split.
  - intros other r Hr. destruct (decide (name = other)) as [<-|Hne].
    + rewrite table_rows_insert_eq. cbn [t_rows]. apply insert_by_rowid_In.
      right. now rewrite (table_rows_lookup _ _ _ Ht) in Hr.
    + now rewrite table_rows_insert_ne.
  - intros other Hne. now rewrite table_rows_insert_ne by congruence.
Qed.

Lemma insert_all_grows name cols rs : forall db db',
  insert_all db name cols rs = Ok db' ->
  grows db db'
  /\ forall other, other <> name -> table_rows db' other = table_rows db other.
Proof.
  induction rs as [|row rs IH]; intros db db'; simpl.
  - intros [= <-]. split; [apply grows_refl | reflexivity].
  - destruct (sql_insert true db name cols (map bind_param row)) as [db1|e]
      eqn:E; [|discriminate].
    cbn [mbind result_bind]. intros H.
    apply sql_insert_grows in E as [Hg1 Ho1]. apply IH in H as [Hg2 Ho2].
    split; [now apply (grows_trans db db1 db') |].
    intros other Hne. now rewrite Ho2, Ho1.
Qed.

Lemma insert_df_to_table_grows df mapping name db db' log :
  insert_df_to_table df mapping name db = Ok (db', log) ->
  grows db db'
  /\ forall other, other <> name -> table_rows db' other = table_rows db other.
Proof.
  unfold insert_df_to_table.
  destruct (select_columns df (map fst mapping)) as [selected|e];
    [|discriminate].
  cbn [mbind result_bind].
  destruct (insert_all db name (map snd mapping) (drop_duplicates selected))
    as [db1|e] eqn:E; [|discriminate].
  cbn [mbind result_bind]. intros [= <- _]. now apply insert_all_grows in E.
Qed.

Lemma id_in_grows db db' name v : grows db db' -> id_in db name v -> id_in db' name v.
Proof.
  intros Hg (r & Hr & Hid). exists r. split; [|assumption].
  apply list_elem_of_In, Hg. now apply list_elem_of_In.
Qed.

Lemma referentially_intact_grows db db' :
  grows db db' ->
  table_rows db' facts_table = table_rows db facts_table ->
  referentially_intact db -> referentially_intact db'.
Proof.
  intros Hg Hfacts Hint fact Hin. rewrite Hfacts in Hin.
  destruct (Hint fact Hin) as (Hs & Ht & Hgr).
  repeat split; now apply (id_in_grows db db').
Qed.

Lemma insert_rows_keeps_facts fk (mv : dict) rs : forall db log f,
  In f (table_rows db facts_table) ->
  In f (table_rows (out_db (insert_rows int_of_text fk mv rs db log))
          facts_table).
Proof.
  induction rs as [|row rs IH]; intros db log f Hin; simpl; [assumption|].
  unfold process_row.
  destruct (py_int _ _) as [att|e]; [|assumption].
  destruct (resolve_ids mv db row) as [[w|[[s t] g]]|e];
    [now apply IH | | assumption].
  destruct (sql_insert fk db _ _ _) as [db'|e] eqn:E; [|assumption].
  apply IH. apply sql_insert_grows in E as [Hg _]. now apply Hg.
Qed.

Lemma insert_rows_intact fk (mv : dict) rs db :
  referentially_intact db ->
  let out := insert_rows int_of_text fk mv rs db [] in
  referentially_intact (out_db out) /\ grows db (out_db out).
Proof.
  intros Hint out.
  destruct (insert_rows_invariant int_of_text fk mv rs db db []
              (same_references_refl db)) as (Hsame & Hfacts & _).
  fold out in Hsame, Hfacts. split.
  - intros fact Hin.
    assert (Hold : references_existing db fact).
    { destruct (Hfacts fact Hin) as [Hold|(row & _ & Hf)];
        [now apply Hint|].
      now apply resolve_ids_existing in Hf. }
    destruct Hold as (Hs & Ht & Hg).
    repeat split;
      (eapply id_in_same_references;
       [exact Hsame | discriminate | eassumption]).
  - intros name r Hr. destruct (decide (name = facts_table)) as [->|Hne].
    + now apply insert_rows_keeps_facts.
    + unfold table_rows in *. now rewrite (Hsame name Hne).
Qed.

Lemma create_grows db :
  grows db (create db)
  /\ table_rows (create db) facts_table = table_rows db facts_table.
Proof.
  split; [|apply create_keeps_rows].
  intros name r Hr. now rewrite create_keeps_rows.
Qed.


End MainFacts.


(** A run on the example files from an empty database file: the three
    tables are filled, the merged frame is saved, and the one lost student
    gets a fact with the ids of the three tables. *)
Example main_sample_run :
  let r := DBLostClients.main DBLostClients.sample_int_of_text
             DBLostClients.sample_df1 DBLostClients.sample_df2 ∅ in
  (DBLostClients.run_raised r, DBLostClients.run_log r,
   map (fun f => (DBLostClients.field f "student_id",
                  DBLostClients.field f "teacher_id",
                  DBLostClients.field f "group_id",
                  DBLostClients.field f "attendance_number"))
     (DBLostClients.table_rows (DBLostClients.run_db r)
        DBLostClients.facts_table))
  = (None,
     [DBLostClients.Printed (DBLostClients.TableFilled "students");
      DBLostClients.Printed (DBLostClients.TableFilled "teachers");
      DBLostClients.Printed (DBLostClients.TableFilled "groups");
      DBLostClients.Printed
        (DBLostClients.CsvSaved "data/1_Attended_classes_with_teachers.csv");
      DBLostClients.Printed DBLostClients.FactsAdded;
      DBLostClients.EtlFinished],
     [(DBLostClients.VInt 1, DBLostClients.VInt 1, DBLostClients.VInt 1,
       DBLostClients.VInt 12)]).
Proof. vm_compute. reflexivity. Qed.
(** ** DBLostClients.py: what insert_df_to_table makes findable *)

Section LookupFacts.

Import DBLostClients.

Lemma sql_insert_columns fk db name cols vals db' :
  sql_insert fk db name cols vals = Ok db' ->
  exists t t',
    db !! name = Some t /\ db' !! name = Some t'
    /\ t_columns t' = t_columns t
    /\ forallb (fun c => bool_decide (c ∈ t_columns t)) cols = true.
Proof.
  intros H. pose proof H as Hshape.
  apply sql_insert_shape in Hshape as (t & id & Ht & ->).
  unfold sql_insert in H. rewrite Ht in H.
  destruct (forallb _ cols) eqn:Hcols; [|discriminate].
  eexists t, _. rewrite lookup_insert_eq. repeat split; assumption.
Qed.

(** The first column of the INSERT holds the first value. *)
Lemma sql_insert_first_field fk db name col cols v vals db' :
  col <> "id"%string ->
  sql_insert fk db name (col :: cols) (v :: vals) = Ok db' ->
  exists r, In r (table_rows db' name) /\ field r col = v.
Proof.
  intros Hcol H. apply sql_insert_shape in H as (t & id & Ht & ->).
  eexists. rewrite table_rows_insert_eq. cbn [t_rows]. split.
  - apply insert_by_rowid_In. left. reflexivity.
  - unfold field. rewrite lookup_insert_ne by congruence.
    cbn [zip zip_with list_to_map foldr fst snd curry uncurry].
    now rewrite lookup_insert_eq.
Qed.

Lemma insert_all_first_field name col cols rs : forall db db' a cells,
  col <> "id"%string ->
  insert_all db name (col :: cols) rs = Ok db' ->
  In (a :: cells) rs ->
  exists r, In r (table_rows db' name) /\ field r col = bind_param a.
Proof.
  induction rs as [|row rs IH]; intros db db' a cells Hcol H Hin;
    [destruct Hin|].
  simpl in H.
  destruct (sql_insert true db name (col :: cols) (map bind_param row))
    as [db1|e] eqn:E; [|discriminate].
  cbn [mbind result_bind] in H. destruct Hin as [->|Hin].
  - cbn [map] in E. apply (sql_insert_first_field _ _ _ _ _ _ _ _ Hcol) in E
      as (r & Hr & Hf).
    exists r. split; [|assumption].
    apply insert_all_grows in H as [Hg _]. now apply Hg.
  - now apply (IH db1 db' a cells).
Qed.

Lemma insert_all_columns name cols rs : forall db db',
  insert_all db name cols rs = Ok db' ->
  rs <> [] ->
  exists t t',
    db !! name = Some t /\ db' !! name = Some t'
    /\ t_columns t' = t_columns t
    /\ forallb (fun c => bool_decide (c ∈ t_columns t)) cols = true.
Proof.
  induction rs as [|row rs IH]; intros db db' H Hne; [congruence|].
  simpl in H.
  destruct (sql_insert true db name cols (map bind_param row)) as [db1|e]
    eqn:E; [|discriminate].
  cbn [mbind result_bind] in H.
  apply sql_insert_columns in E as (t & t1 & Ht & Ht1 & Hc1 & Hcols).
  destruct rs as [|row' rs].
  - simpl in H. injection H as <-. now exists t, t1.
  - apply IH in H as (t1' & t' & Ht1' & Ht' & Hc' & _); [|discriminate].
    rewrite Ht1 in Ht1'. injection Ht1' as <-.
    exists t, t'. repeat split; try assumption. congruence.
Qed.


End LookupFacts.

(** ** etl_pipeline/main.py: the table of teacher categories *)

Section TeacherAnalysisFacts.

Import MainScript.

Context {Name : Type} `{Countable Name}.

Lemma occurrences_cons (x y : Name) l :
  occurrences x (y :: l)
  = ((if decide (y = x) then 1 else 0) + occurrences x l)%nat.
Proof.
  unfold occurrences. simpl. destruct (decide (y = x)) as [->|Hne].
  - now rewrite bool_decide_eq_true_2.
  - now rewrite bool_decide_eq_false_2.
Qed.

Lemma occurrences_app (x : Name) l l' :
  occurrences x (l ++ l') = (occurrences x l + occurrences x l')%nat.
Proof. unfold occurrences. now rewrite List.filter_app, length_app. Qed.

Lemma occurrences_positive (x : Name) l : (0 < occurrences x l)%nat <-> In x l.
Proof.
  induction l as [|y l IH]; simpl; [unfold occurrences; simpl; lia|].
  rewrite occurrences_cons. destruct (decide (y = x)) as [->|Hne].
  - split; [auto | lia].
  - rewrite Nat.add_0_l, IH. split; [auto | now intros [?|?]].
Qed.

Lemma foldl_count (x : Name) l : forall counts : gmap Name nat,
  default 0%nat
    (foldl (fun counts y => <[y := S (default 0%nat (counts !! y))]> counts)
       counts l !! x)
  = (default 0%nat (counts !! x) + occurrences x l)%nat.
Proof.
  induction l as [|y l IH]; intros counts; simpl.
  - unfold occurrences. simpl. lia.
  - rewrite IH, occurrences_cons. destruct (decide (y = x)) as [->|Hne].
    + rewrite lookup_insert_eq. simpl. lia.
    + rewrite lookup_insert_ne by assumption. lia.
Qed.

(** [Counter(names).get(x, 0)] counts the occurrences of [x]. *)
Lemma Counter_get (x : Name) l :
  default 0%nat (Counter l !! x) = occurrences x l.
Proof. unfold Counter. now rewrite foldl_count, lookup_empty. Qed.

(** X23. The table of [get_teacher_analysis] has exactly one row for every
    name that occurs in one of the four lists, and each of its four
    numbers is the number of times the name occurs in the list of that
    category: a count, which exceeds 1 for a name listed twice. *)
Theorem get_teacher_analysis_counts
    (best_all interquart_all bad_all outliers_all : list Name) :
  let df := get_teacher_analysis best_all interquart_all bad_all
              outliers_all in
  NoDup (map name df)
  /\ (forall x, In x (map name df)
                <-> In x (best_all ++ interquart_all ++ bad_all
                          ++ outliers_all))
  /\ Forall (fun r =>
               best r = occurrences (name r) best_all
               /\ interquart r = occurrences (name r) interquart_all
               /\ bad r = occurrences (name r) bad_all
               /\ worst r = occurrences (name r) outliers_all) df.
Proof.
  cbv zeta. unfold get_teacher_analysis. rewrite map_map. cbn [name].
  rewrite map_id. split; [apply NoDup_elements|]. split.
  - intros x. rewrite <- list_elem_of_In, elem_of_elements.
    rewrite !elem_of_union, !elem_of_list_to_set, !in_app_iff,
      !list_elem_of_In. tauto.
  - apply List.Forall_forall. intros r Hr.
    apply in_map_iff in Hr as (x & <- & _). cbn [name best interquart bad worst].
    now rewrite !Counter_get.
Qed.

End TeacherAnalysisFacts.

Section TeacherCategoriesFacts.

Import Numeric Analytics MainScript.

Context {Name : Type} `{Countable Name} {Row : Type}.
Variable name_col : Row -> Name.
Variable percent_col : Row -> option Q.
Variable percentile_of_empty : result exception (option Q).

Lemma names_where_without_outliers outliers (p : Row -> bool) stats x :
  In x (names_where name_col p (without_outliers name_col outliers stats)) ->
  ~ In x outliers.
Proof.
  unfold names_where, without_outliers. intros Hin Hout.
  apply in_map_iff in Hin as (r & <- & Hr).
  apply filter_In in Hr as [Hr _]. apply filter_In in Hr as [_ Hr].
  apply negb_true_iff, bool_decide_eq_false in Hr.
  apply Hr. now apply list_elem_of_In.
Qed.

Lemma occurrences_absent (x : Name) l : ~ In x l -> occurrences x l = 0%nat.
Proof.
  intros Hx. destruct (occurrences x l) eqn:E; [reflexivity|].
  exfalso. apply Hx, occurrences_positive. lia.
Qed.

(** X24. In the table that the script saves, "worst" excludes the other
    three categories: a teacher reported as an outlier of either year is
    removed from both yearly frames before the quartile lists are made, so
    the row of such a teacher has 0 under "best", "interquart" and
    "bad". *)
Theorem teacher_categories_worst_excludes (stats_22_23 stats_23_24 : list Row)
    (df : list analysis_row) :
  teacher_categories name_col percent_col percentile_of_empty
    stats_22_23 stats_23_24 = Ok df ->
  Forall (fun r => (0 < worst r)%nat ->
                   best r = 0%nat /\ interquart r = 0%nat /\ bad r = 0%nat) df.
Proof.
  unfold teacher_categories. intros Hrun.
  destruct (Visualization.plot_box_compare _ _ _ _ _ _) as [outliers|e];
    [|discriminate].
  cbn [mbind result_bind] in Hrun.
  rewrite !quartile_lists_default in Hrun.
  cbn [mbind result_bind Analytics.best Analytics.interquartile Analytics.bad]
    in Hrun.
  injection Hrun as <-.
  match goal with
  | |- Forall _ (get_teacher_analysis ?b ?i ?w ?o) =>
      destruct (get_teacher_analysis_counts b i w o) as (_ & _ & Hcounts)
  end.
  eapply Forall_impl; [exact Hcounts|].
  intros r (Hb & Hi & Hw & Ho) Hworst. rewrite Ho in Hworst.
  apply occurrences_positive in Hworst.
  rewrite Hb, Hi, Hw.
  repeat split; apply occurrences_absent; intros Hin;
    apply in_app_or in Hin as [Hin|Hin];
    now apply names_where_without_outliers in Hin.
Qed.

End TeacherCategoriesFacts.

Lemma teacher_categories_worst_excludes_witness :
  Forall (fun r => (0 < MainScript.worst r)%nat ->
                   MainScript.best r = 0%nat
                   /\ MainScript.interquart r = 0%nat
                   /\ MainScript.bad r = 0%nat)
    [ {| MainScript.name := "a"%string; MainScript.best := 0;
         MainScript.interquart := 0; MainScript.bad := 0;
         MainScript.worst := 1 |};
      {| MainScript.name := "b"%string; MainScript.best := 0;
         MainScript.interquart := 4; MainScript.bad := 0;
         MainScript.worst := 0 |} ]%nat.
Proof.
  apply (teacher_categories_worst_excludes
           (fst : string * option Q -> string) snd (Ok None)
           [("a"%string, Some (0#1)); ("b"%string, Some (1#1));
            ("b"%string, Some (1#1)); ("b"%string, Some (1#1))]
           [("b"%string, Some (5#1))]).
  vm_compute. reflexivity.
Defined.

(** A teacher in the same list of both years is counted twice. *)
Example get_teacher_analysis_twice :
  MainScript.get_teacher_analysis ["a"%string; "a"%string] [] [] []
  = [ {| MainScript.name := "a"%string; MainScript.best := 2;
         MainScript.interquart := 0; MainScript.bad := 0;
         MainScript.worst := 0 |} ]%nat.
Proof. vm_compute. reflexivity. Qed.
(** ** DBLostClients.py: more on unite_tables *)

Section UniteTablesMore.

Import DBLostClients.

Lemma select_columns_present df cols :
  Forall (fun c => c ∈ columns df) cols ->
  select_columns df cols
  = Ok (map (fun row => map (at_col row) cols) (rows df)).
Proof.
  intros Hall. unfold select_columns.
  destruct (List.find _ cols) as [c|] eqn:Hf; [|reflexivity].
  apply find_some in Hf as [Hin Hc].
  rewrite List.Forall_forall in Hall. apply Hall in Hin.
  now rewrite (bool_decide_eq_true_2 _ Hin) in Hc.
Qed.

Lemma select_columns_absent df cols :
  ~ Forall (fun c => c ∈ columns df) cols ->
  exists c, In c cols /\ (c ∉ columns df)
            /\ select_columns df cols = Raise (KeyError c).
Proof.
  intros Hnot. unfold select_columns.
  destruct (List.find _ cols) as [c|] eqn:Hf.
  - apply find_some in Hf as [Hin Hc]. exists c.
    apply negb_true_iff, bool_decide_eq_false in Hc. auto.
  - exfalso. apply Hnot, List.Forall_forall. intros c Hc.
    apply (find_none _ _ Hf) in Hc.
    now apply negb_false_iff, bool_decide_eq_true in Hc.
Qed.

Lemma renamed_has_group (df_teachers : DataFrame) :
  col_group ∉ columns df_teachers ->
  col_group ∈ columns (rename_column col_group_id col_group df_teachers)
  <-> col_group_id ∈ columns df_teachers.
Proof.
  intros Hno. cbn [rename_column columns].
  rewrite !list_elem_of_In, in_map_iff. unfold rename_label. split.
  - intros (c & Hc & Hin).
    destruct (String.eqb_spec c col_group_id) as [Heq|_];
      [now rewrite <- Heq|].
    rewrite Hc in Hin. now apply list_elem_of_In in Hin.
  - intros Hin. exists col_group_id. now rewrite String.eqb_refl.
Qed.

Lemma renamed_has_teacher (df_teachers : DataFrame) :
  col_teacher ∈ columns (rename_column col_group_id col_group df_teachers)
  <-> col_teacher ∈ columns df_teachers.
Proof.
  cbn [rename_column columns].
  rewrite !list_elem_of_In, in_map_iff. unfold rename_label. split.
  - intros (c & Hc & Hin).
    destruct (String.eqb_spec c col_group_id) as [Heq|_];
      [discriminate Hc | now rewrite <- Hc].
  - intros Hin. exists col_teacher. split; [reflexivity | assumption].
Qed.


Lemma filter_map_insert_teacher {A} (f : A -> gmap string cell) teacher
    (row : gmap string cell) (l : list A) :
  notna teacher = true ->
  (forall x, In x l -> <[col_teacher := teacher]> (f x)
                       = <[col_teacher := teacher]> row) ->
  List.filter (fun r => notna (at_col r col_teacher))
    (map (fun r => <[col_teacher := teacher]> r) (map f l))
  = repeat (<[col_teacher := teacher]> row) (length l).
Proof.
  intros Hna. induction l as [|x l IH]; intros Hf; simpl; [reflexivity|].
  rewrite at_col_teacher_insert, Hna, (Hf x) by now left.
  f_equal. apply IH. intros y Hy. apply Hf. now right.
Qed.


End UniteTablesMore.



(** A fix for a group that two teachers are recorded for. *)
Example unite_tables_fix_repeats :
  let main :=
    {| DBLostClients.columns :=
         [DBLostClients.col_student; DBLostClients.col_group];
       DBLostClients.rows :=
         [ {[ DBLostClients.col_student := DBLostClients.Str "Ivan";
              DBLostClients.col_group := DBLostClients.Str "G1" ]} ] |} in
  let teachers :=
    {| DBLostClients.columns :=
         [DBLostClients.col_group_id; DBLostClients.col_teacher];
       DBLostClients.rows :=
         [ {[ DBLostClients.col_group_id := DBLostClients.Str "G1";
              DBLostClients.col_teacher := DBLostClients.Str "Chaus" ]};
           {[ DBLostClients.col_group_id := DBLostClients.Str "G1";
              DBLostClients.col_teacher := DBLostClients.Str "Popruha" ]} ] |} in
  match DBLostClients.unite_tables main teachers
          [(DBLostClients.Str "G1", DBLostClients.Str "Bondar")] None with
  | Ok (merged, _) =>
      map (fun r => DBLostClients.at_col r DBLostClients.col_teacher)
        (DBLostClients.rows merged)
  | Raise _ => []
  end
  = [DBLostClients.Str "Bondar"; DBLostClients.Str "Bondar"].
Proof. vm_compute. reflexivity. Qed.
